(** * InterviewSchedulingBot: the slot search and its time clamps

    A shallow embedding of [autointerviewbot.py] and [textbasedbot.py]:
    the two clamps, the availability check and the two slot searches,
    over a model of Python's naive [datetime] and [timedelta].

    Layout:
    - exceptions and results;
    - [Module Datetime]: the proleptic Gregorian calendar of CPython's
      [datetime] (ordinals, field checks, [+ timedelta], comparison), and
      [Module DatetimeFacts]: ordinals and dates are in bijection, the
      order of datetimes is the order of their microseconds;
    - computations over a world, and the Google Calendar free/busy
      service as an interface;
    - [Module autointerviewbot] and [Module textbasedbot]: the code, its
      [while] loops by well-founded recursion;
    - the texts: the reply of the language model as [main] reads it, the
      JSON object that [parse_candidate_availability] cuts out of it, the
      times of the event as [strftime] writes them;
    - the vocabulary of the properties: the case split and the rounding
      of the specification, the seed-time search as a state machine, the
      range search as a scan of a list, worlds to run the code in;
    - the properties of the clamps and of the two searches, then of the
      rest of the two files (the conversion to UTC, the queries, the
      requests of a search, the texts), and the code on concrete inputs. *)

From Stdlib Require Import ZArith List Bool Lia Ascii String.
From Equations Require Import Equations.
From Equations.Prop Require Import Logic.
Import ListNotations.

Local Open Scope Z_scope.

(** ** Exceptions and results *)

(** The exceptions the modelled code can meet: [ValueError] from a
    [datetime] constructor or [replace], [OverflowError] from date
    arithmetic, [KeyError] from indexing a response, and [HttpError] for
    a failed request of the calendar client. *)
Inductive exn : Type :=
| ValueError
| OverflowError
| KeyError (key : string)
| HttpError (status : Z).

Inductive result (A : Type) : Type :=
| Ok (a : A)
| Raise (e : exn).

Arguments Ok {A} a.
Arguments Raise {A} e.

Definition rbind {A B : Type} (r : result A) (k : A -> result B) : result B :=
  match r with
  | Ok a => k a
  | Raise e => Raise e
  end.

Declare Scope result_scope.
Delimit Scope result_scope with result.
Notation "x <- r ;; k" := (rbind r (fun x => k))
  (at level 61, r at next level, right associativity) : result_scope.

(** ** Python's [datetime] *)

Module Datetime.

Definition MINYEAR : Z := 1.
Definition MAXYEAR : Z := 9999.
Definition _MAXORDINAL : Z := 3652059.

Definition _DAYS_IN_MONTH : list Z :=
  [-1; 31; 28; 31; 30; 31; 30; 31; 31; 30; 31; 30; 31].

Definition _DAYS_BEFORE_MONTH : list Z :=
  [-1; 0; 31; 59; 90; 120; 151; 181; 212; 243; 273; 304; 334].

(** [table[i]] for a table of the module, [-1] standing for the sentinel. *)
Definition index (table : list Z) (i : Z) : Z := nth (Z.to_nat i) table (-1).

Definition _is_leap (year : Z) : bool :=
  (year mod 4 =? 0) && (negb (year mod 100 =? 0) || (year mod 400 =? 0)).

Definition _days_before_year (year : Z) : Z :=
  let y := year - 1 in
  y * 365 + y / 4 - y / 100 + y / 400.

Definition _days_in_month (year month : Z) : Z :=
  if (month =? 2) && _is_leap year then 29 else index _DAYS_IN_MONTH month.

Definition _days_before_month (year month : Z) : Z :=
  index _DAYS_BEFORE_MONTH month
  + (if (2 <? month) && _is_leap year then 1 else 0).

Definition _ymd2ord (year month day : Z) : Z :=
  _days_before_year year + _days_before_month year month + day.

Definition _DI400Y : Z := 146097.
Definition _DI100Y : Z := 36524.
Definition _DI4Y : Z := 1461.

(** The month and day of the [n]-th day (from 0) of a year: the tail of
    CPython's [_ord2ymd], after the year has been found. *)
Definition _ord2md (leapyear : bool) (n : Z) : Z * Z :=
  let month := Z.shiftr (n + 50) 5 in
  let preceding :=
    index _DAYS_BEFORE_MONTH month
    + (if (2 <? month) && leapyear then 1 else 0) in
  if n <? preceding then
    let month := month - 1 in
    let preceding :=
      preceding - (index _DAYS_IN_MONTH month
                   + (if (month =? 2) && leapyear then 1 else 0)) in
    (month, n - preceding + 1)
  else (month, n - preceding + 1).

Definition _ord2ymd (n : Z) : Z * Z * Z :=
  let n := n - 1 in
  let n400 := n / _DI400Y in
  let n := n mod _DI400Y in
  let year := n400 * 400 + 1 in
  let n100 := n / _DI100Y in
  let n := n mod _DI100Y in
  let n4 := n / _DI4Y in
  let n := n mod _DI4Y in
  let n1 := n / 365 in
  let n := n mod 365 in
  let year := year + n100 * 100 + n4 * 4 + n1 in
  if (n1 =? 4) || (n100 =? 4) then (year - 1, 12, 31)
  else
    let leapyear := (n1 =? 3) && (negb (n4 =? 24) || (n100 =? 3)) in
    let '(month, day) := _ord2md leapyear n in
    (year, month, day).

(** A naive [datetime]: seven integer fields, no [tzinfo]. *)
Record datetime : Type := mkdt {
  year : Z;
  month : Z;
  day : Z;
  hour : Z;
  minute : Z;
  second : Z;
  microsecond : Z
}.

Definition _check_date_fields (y m d : Z) : bool :=
  (MINYEAR <=? y) && (y <=? MAXYEAR)
  && (1 <=? m) && (m <=? 12)
  && (1 <=? d) && (d <=? _days_in_month y m).

Definition _check_time_fields (h mi s us : Z) : bool :=
  (0 <=? h) && (h <=? 23)
  && (0 <=? mi) && (mi <=? 59)
  && (0 <=? s) && (s <=? 59)
  && (0 <=? us) && (us <=? 999999).

(** The values a [datetime] object can hold. *)
Definition valid (t : datetime) : bool :=
  _check_date_fields (year t) (month t) (day t)
  && _check_time_fields (hour t) (minute t) (second t) (microsecond t).

(** [datetime(year, month, day, hour, minute, second, microsecond)]. *)
Definition new (y m d h mi s us : Z) : result datetime :=
  if _check_date_fields y m d && _check_time_fields h mi s us
  then Ok (mkdt y m d h mi s us)
  else Raise ValueError.

(** [t.replace(year=y)]. *)
Definition replace_year (t : datetime) (y : Z) : result datetime :=
  new y (month t) (day t) (hour t) (minute t) (second t) (microsecond t).

(** [t.replace(hour=h, minute=mi, second=s, microsecond=us)]. *)
Definition replace_time (t : datetime) (h mi s us : Z) : result datetime :=
  new (year t) (month t) (day t) h mi s us.

(** [t.replace(minute=mi, second=s, microsecond=us)]. *)
Definition replace_minute (t : datetime) (mi s us : Z) : result datetime :=
  new (year t) (month t) (day t) (hour t) mi s us.

Definition toordinal (t : datetime) : Z :=
  _ymd2ord (year t) (month t) (day t).

(** Monday is 0, Sunday is 6. *)
Definition weekday (t : datetime) : Z := (toordinal t + 6) mod 7.

(** A normalised [timedelta]: [0 <= seconds < 86400] and
    [0 <= microseconds < 1000000]. *)
Record timedelta : Type := mktd {
  td_days : Z;
  td_seconds : Z;
  td_microseconds : Z
}.

Definition td_of_microseconds (us : Z) : timedelta :=
  let s := us / 1000000 in
  mktd (s / 86400) (s mod 86400) (us mod 1000000).

Definition td_total (d : timedelta) : Z :=
  (td_days d * 86400 + td_seconds d) * 1000000 + td_microseconds d.

(** [timedelta(days=.., hours=.., minutes=.., seconds=.., microseconds=..)]. *)
Definition timedelta_new (days hours minutes seconds microseconds : Z)
  : timedelta :=
  td_of_microseconds
    ((((days * 24 + hours) * 60 + minutes) * 60 + seconds) * 1000000
     + microseconds).

Definition td_add (a b : timedelta) : timedelta :=
  td_of_microseconds (td_total a + td_total b).

Definition td_neg (a : timedelta) : timedelta :=
  td_of_microseconds (- td_total a).

(** The datetime that a normalised [timedelta] since ordinal 0 stands for:
    the tail of [datetime.__add__]. *)
Definition of_delta (delta : timedelta) : result datetime :=
  let hour := td_seconds delta / 3600 in
  let rem := td_seconds delta mod 3600 in
  let minute := rem / 60 in
  let second := rem mod 60 in
  if (0 <? td_days delta) && (td_days delta <=? _MAXORDINAL) then
    let '(y, m, d) := _ord2ymd (td_days delta) in
    Ok (mkdt y m d hour minute second (td_microseconds delta))
  else Raise OverflowError.

(** [t + d]: through the ordinal, as [datetime.__add__] does. *)
Definition add (t : datetime) (d : timedelta) : result datetime :=
  let delta :=
    td_add (timedelta_new (toordinal t) (hour t) (minute t) (second t)
              (microsecond t)) d in
  of_delta delta.

(** [t - d] is [t + (-d)]. *)
Definition sub (t : datetime) (d : timedelta) : result datetime :=
  add t (td_neg d).

(** Comparison of naive datetimes: lexicographic on the seven fields. *)
Definition fields (t : datetime) : list Z :=
  [year t; month t; day t; hour t; minute t; second t; microsecond t].

Fixpoint _cmp (x y : list Z) : comparison :=
  match x, y with
  | [], [] => Eq
  | [], _ :: _ => Lt
  | _ :: _, [] => Gt
  | a :: x', b :: y' =>
      match a ?= b with
      | Eq => _cmp x' y'
      | c => c
      end
  end.

Definition ltb (a b : datetime) : bool :=
  match _cmp (fields a) (fields b) with Lt => true | _ => false end.

Definition leb (a b : datetime) : bool :=
  match _cmp (fields a) (fields b) with Gt => false | _ => true end.

Definition US_PER_DAY : Z := 86400000000.
Definition US_PER_HOUR : Z := 3600000000.

(** Microseconds since the midnight that starts ordinal 0: the position
    of a datetime on the time line. *)
Definition to_us (t : datetime) : Z :=
  (((toordinal t * 24 + hour t) * 60 + minute t) * 60 + second t) * 1000000
  + microsecond t.

(** [t.isoformat()]: [YYYY-MM-DDTHH:MM:SS], with [.ffffff] when the
    microsecond is not zero. *)
Definition digit (n : Z) : string :=
  String (Ascii.ascii_of_nat (48 + Z.to_nat (n mod 10))) EmptyString.

Fixpoint zero_padded (width : nat) (n : Z) : string :=
  match width with
  | O => EmptyString
  | S w => (zero_padded w (n / 10) ++ digit n)%string
  end.

Definition isoformat (t : datetime) : string :=
  (zero_padded 4 (year t) ++ "-" ++ zero_padded 2 (month t) ++ "-"
   ++ zero_padded 2 (day t) ++ "T" ++ zero_padded 2 (hour t) ++ ":"
   ++ zero_padded 2 (minute t) ++ ":" ++ zero_padded 2 (second t)
   ++ (if (microsecond t =? 0)%Z then EmptyString
       else "." ++ zero_padded 6 (microsecond t)))%string.

End Datetime.

(** ** Facts about the calendar *)

Module DatetimeFacts.
Import Datetime.

Lemma dby_succ y :
  _days_before_year (y + 1)
  = _days_before_year y + (if _is_leap y then 366 else 365).
Proof.
  unfold _days_before_year, _is_leap.
  replace (y + 1 - 1) with y by lia.
  destruct (y mod 4 =? 0) eqn:E4; destruct (y mod 100 =? 0) eqn:E100;
    destruct (y mod 400 =? 0) eqn:E400; cbn [andb orb negb];
  rewrite ?Z.eqb_eq, ?Z.eqb_neq in *; Z.to_euclidean_division_equations; lia.
Qed.

Lemma dby_mono y y' : y <= y' -> _days_before_year y + 365 * (y' - y) <= _days_before_year y'.
Proof.
  unfold _days_before_year. intros. Z.to_euclidean_division_equations; lia.
Qed.

(** [_days_in_month] and [_days_before_month], by the leap flag of the
    year. *)
Definition dim (b : bool) (m : Z) : Z :=
  if (m =? 2) && b then 29 else index _DAYS_IN_MONTH m.

Definition dbm (b : bool) (m : Z) : Z :=
  index _DAYS_BEFORE_MONTH m + (if (2 <? m) && b then 1 else 0).

(** [_ord2md] is right on the [n]-th day of a year. *)

Definition md_ok (b : bool) (n : Z) : bool :=
  let '(m, d) := _ord2md b n in
  (1 <=? m) && (m <=? 12) && (1 <=? d) && (d <=? dim b m) && (dbm b m + d =? n + 1).

Lemma md_ok_all (b : bool) (n : Z) : 0 <= n < (if b then 366 else 365) -> md_ok b n = true.
Proof.
  intros H.
  assert (A : forallb (fun k : nat => md_ok true (Z.of_nat k)) (seq 0%nat 366%nat)
              = true) by (vm_compute; reflexivity).
  assert (B : forallb (fun k : nat => md_ok false (Z.of_nat k)) (seq 0%nat 365%nat)
              = true) by (vm_compute; reflexivity).
  rewrite forallb_forall in A, B.
  replace n with (Z.of_nat (Z.to_nat n)) by lia.
  destruct b; [apply A | apply B]; apply in_seq; lia.
Qed.

Lemma ord2ymd_year n : 1 <= n ->
  exists y k, n = _days_before_year y + k + 1 /\ 0 <= k < (if _is_leap y then 366 else 365)
    /\ 1 <= y /\ _ord2ymd n = (let '(m, d) := _ord2md (_is_leap y) k in (y, m, d)).
Proof.
  intros Hn. unfold _ord2ymd.
  set (n0 := n - 1).
  set (a := n0 / _DI400Y). set (r1 := n0 mod _DI400Y).
  set (b := r1 / _DI100Y). set (r2 := r1 mod _DI100Y).
  set (c := r2 / _DI4Y). set (r3 := r2 mod _DI4Y).
  set (e := r3 / 365). set (r4 := r3 mod 365).
  cbv zeta.
  assert (Ha : n0 = 146097 * a + r1 /\ 0 <= r1 < 146097) by
    (subst a r1; unfold _DI400Y; Z.to_euclidean_division_equations; lia).
  assert (Hb : r1 = 36524 * b + r2 /\ 0 <= r2 < 36524) by
    (subst b r2; unfold _DI100Y; Z.to_euclidean_division_equations; lia).
  assert (Hc : r2 = 1461 * c + r3 /\ 0 <= r3 < 1461) by
    (subst c r3; unfold _DI4Y; Z.to_euclidean_division_equations; lia).
  assert (He : r3 = 365 * e + r4 /\ 0 <= r4 < 365) by
    (subst e r4; Z.to_euclidean_division_equations; lia).
  clearbody a r1 b r2 c r3 e r4.
  assert (0 <= a /\ 0 <= b <= 4 /\ 0 <= c <= 24 /\ 0 <= e <= 4) by lia.
  destruct ((e =? 4) || (b =? 4)) eqn:Esp.
  - exists (a * 400 + 1 + b * 100 + c * 4 + e - 1), 365.
    assert (Hcase : (e = 4 /\ r4 = 0 /\ b <= 3) \/ (b = 4 /\ r2 = 0 /\ c = 0 /\ e = 0 /\ r4 = 0)).
    { apply orb_true_iff in Esp. rewrite !Z.eqb_eq in Esp. lia. }
    assert (Hleap : _is_leap (a * 400 + 1 + b * 100 + c * 4 + e - 1) = true).
    { unfold _is_leap. rewrite andb_true_iff, orb_true_iff, negb_true_iff, !Z.eqb_eq, Z.eqb_neq.
      Z.to_euclidean_division_equations; lia. }
    rewrite Hleap. split; [|split; [lia|split; [lia|reflexivity]]].
    unfold _days_before_year. Z.to_euclidean_division_equations; lia.
  - apply orb_false_iff in Esp. rewrite !Z.eqb_neq in Esp.
    exists (a * 400 + 1 + b * 100 + c * 4 + e), r4.
    assert (Hleap : _is_leap (a * 400 + 1 + b * 100 + c * 4 + e)
                    = (e =? 3) && (negb (c =? 24) || (b =? 3))).
    { unfold _is_leap.
      destruct (e =? 3) eqn:E3; destruct (c =? 24) eqn:E24;
        destruct (b =? 3) eqn:Eb3; cbn [andb orb negb];
      rewrite ?Z.eqb_eq, ?Z.eqb_neq in *;
      rewrite ?andb_true_iff, ?andb_false_iff, ?orb_true_iff, ?orb_false_iff,
        ?negb_true_iff, ?negb_false_iff, ?Z.eqb_eq, ?Z.eqb_neq;
      Z.to_euclidean_division_equations; lia. }
    rewrite Hleap. split; [|split; [|split; [lia|reflexivity]]].
    + unfold _days_before_year. Z.to_euclidean_division_equations; lia.
    + destruct (e =? 3) eqn:E3; destruct (c =? 24) eqn:E24;
        destruct (b =? 3) eqn:Eb3; cbn [andb orb negb];
      rewrite ?Z.eqb_eq, ?Z.eqb_neq in *; lia.
Qed.

Lemma days_in_month_dim y m : _days_in_month y m = dim (_is_leap y) m.
Proof. reflexivity. Qed.

Lemma days_before_month_dbm y m : _days_before_month y m = dbm (_is_leap y) m.
Proof. reflexivity. Qed.

Lemma ord2ymd_spec n : 1 <= n ->
  let '(y, m, d) := _ord2ymd n in
  1 <= y /\ (n <= _MAXORDINAL -> y <= MAXYEAR) /\ 1 <= m <= 12 /\ 1 <= d <= _days_in_month y m
  /\ _ymd2ord y m d = n.
Proof.
  intros Hn. destruct (ord2ymd_year n Hn) as (y & k & Hk & Hr & Hy & ->).
  pose proof (md_ok_all (_is_leap y) k Hr) as Hmd. unfold md_ok in Hmd.
  destruct (_ord2md (_is_leap y) k) as [m d].
  rewrite !andb_true_iff, !Z.leb_le, Z.eqb_eq in Hmd.
  unfold _ymd2ord. rewrite days_in_month_dim, days_before_month_dbm.
  repeat split; try lia.
  intros Hmax. destruct (Z_le_gt_dec y MAXYEAR) as [|Hgt]; [assumption|exfalso].
  unfold MAXYEAR, _MAXORDINAL in *.
  pose proof (dby_mono 10000 y ltac:(lia)) as Hm.
  change (_days_before_year 10000) with 3652059 in Hm. lia.
Qed.

Lemma month_cases m : 1 <= m <= 12 ->
  m = 1 \/ m = 2 \/ m = 3 \/ m = 4 \/ m = 5 \/ m = 6 \/ m = 7 \/ m = 8 \/ m = 9 \/ m = 10
  \/ m = 11 \/ m = 12.
Proof. lia. Qed.

Lemma dbm_bounds b m : 1 <= m <= 12 ->
  0 <= dbm b m /\ 28 <= dim b m <= 31 /\ dbm b m + dim b m <= (if b then 366 else 365).
Proof.
  intros H. apply month_cases in H.
  destruct b; repeat (destruct H as [-> | H]); try subst m; vm_compute; intuition congruence.
Qed.

Lemma dbm_step b m m' : 1 <= m -> m < m' -> m' <= 12 -> dbm b m + dim b m <= dbm b m'.
Proof.
  intros H1 H2 H3.
  assert (Hm : 1 <= m <= 12) by lia. assert (Hm' : 1 <= m' <= 12) by lia.
  apply month_cases in Hm, Hm'.
  destruct b; repeat (destruct Hm as [-> | Hm]); try subst m;
    repeat (destruct Hm' as [-> | Hm']); try subst m'; try lia; vm_compute; congruence.
Qed.

Lemma date_ok_iff y m d :
  _check_date_fields y m d = true <->
  1 <= y <= 9999 /\ 1 <= m <= 12 /\ 1 <= d <= _days_in_month y m.
Proof.
  unfold _check_date_fields, MINYEAR, MAXYEAR. rewrite !andb_true_iff, !Z.leb_le. lia.
Qed.

Lemma ymd2ord_range y m d : _check_date_fields y m d = true ->
  _days_before_year y < _ymd2ord y m d <= _days_before_year (y + 1).
Proof.
  rewrite date_ok_iff. intros (Hy & Hm & Hd).
  unfold _ymd2ord. rewrite dby_succ. rewrite days_in_month_dim in Hd.
  rewrite days_before_month_dbm.
  pose proof (dbm_bounds (_is_leap y) m Hm). destruct (_is_leap y); lia.
Qed.

Lemma ymd2ord_bounds y m d : _check_date_fields y m d = true ->
  1 <= _ymd2ord y m d <= _MAXORDINAL.
Proof.
  intros H. pose proof (ymd2ord_range y m d H) as Hr. apply date_ok_iff in H.
  pose proof (dby_mono 1 y ltac:(lia)) as H1.
  pose proof (dby_mono (y + 1) 10000 ltac:(lia)) as H2.
  change (_days_before_year 1) with 0 in H1.
  change (_days_before_year 10000) with 3652059 in H2.
  unfold _MAXORDINAL. lia.
Qed.

(** Lexicographic order on dates agrees with the order of ordinals. *)
Lemma ymd2ord_lt y m d y' m' d' :
  _check_date_fields y m d = true -> _check_date_fields y' m' d' = true ->
  (y < y' \/ (y = y' /\ (m < m' \/ (m = m' /\ d < d')))) ->
  _ymd2ord y m d < _ymd2ord y' m' d'.
Proof.
  intros H H' Hlt.
  pose proof (ymd2ord_range y m d H) as Hr. pose proof (ymd2ord_range y' m' d' H') as Hr'.
  apply date_ok_iff in H, H'.
  destruct Hlt as [Hy | [-> [Hm | [-> Hd]]]].
  - pose proof (dby_mono (y + 1) y' ltac:(lia)). lia.
  - unfold _ymd2ord. rewrite !days_before_month_dbm.
    rewrite days_in_month_dim in H.
    pose proof (dbm_step (_is_leap y') m m' ltac:(lia) Hm ltac:(lia)). lia.
  - unfold _ymd2ord. lia.
Qed.

Lemma ymd2ord_inj y m d y' m' d' :
  _check_date_fields y m d = true -> _check_date_fields y' m' d' = true ->
  _ymd2ord y m d = _ymd2ord y' m' d' -> y = y' /\ m = m' /\ d = d'.
Proof.
  intros H H' E.
  destruct (Z.lt_trichotomy y y') as [?|[?|?]];
  destruct (Z.lt_trichotomy m m') as [?|[?|?]];
  destruct (Z.lt_trichotomy d d') as [?|[?|?]];
  try (split; [|split]; assumption);
  first [ assert (_ymd2ord y m d < _ymd2ord y' m' d') by (apply ymd2ord_lt; auto; lia); lia
        | assert (_ymd2ord y' m' d' < _ymd2ord y m d) by (apply ymd2ord_lt; auto; lia); lia ].
Qed.

Lemma ord2ymd_ymd2ord y m d : _check_date_fields y m d = true ->
  _ord2ymd (_ymd2ord y m d) = (y, m, d).
Proof.
  intros H. pose proof (ymd2ord_bounds y m d H) as Hb.
  pose proof (ord2ymd_spec (_ymd2ord y m d) ltac:(lia)) as Hs.
  destruct (_ord2ymd (_ymd2ord y m d)) as [[y' m'] d'].
  destruct Hs as (Hy & Hmax & Hm & Hd & E).
  assert (H' : _check_date_fields y' m' d' = true)
    by (apply date_ok_iff; unfold MAXYEAR in Hmax; lia).
  destruct (ymd2ord_inj _ _ _ _ _ _ H' H E) as (-> & -> & ->). reflexivity.
Qed.


Lemma time_ok_iff h mi s us :
  _check_time_fields h mi s us = true <->
  0 <= h <= 23 /\ 0 <= mi <= 59 /\ 0 <= s <= 59 /\ 0 <= us <= 999999.
Proof. unfold _check_time_fields. rewrite !andb_true_iff, !Z.leb_le. lia. Qed.

Lemma valid_iff t :
  valid t = true <->
  _check_date_fields (year t) (month t) (day t) = true
  /\ 0 <= hour t <= 23 /\ 0 <= minute t <= 59 /\ 0 <= second t <= 59
  /\ 0 <= microsecond t <= 999999.
Proof. unfold valid. rewrite andb_true_iff, time_ok_iff. tauto. Qed.

Lemma cmp_to_us a b : valid a = true -> valid b = true ->
  _cmp (fields a) (fields b) = (to_us a ?= to_us b).
Proof.
  rewrite !valid_iff. intros (Da & Ha) (Db & Hb).
  unfold fields, to_us, toordinal. cbn [_cmp].
  assert (L := ymd2ord_lt (year a) (month a) (day a) (year b) (month b) (day b) Da Db).
  assert (G := ymd2ord_lt (year b) (month b) (day b) (year a) (month a) (day a) Db Da).
  symmetry.
  destruct (Z.compare_spec (year a) (year b)) as [Ey|Ly|Gy];
    [ | apply Z.compare_lt_iff; lia | apply Z.compare_gt_iff; lia ].
  destruct (Z.compare_spec (month a) (month b)) as [Em|Lm|Gm];
    [ | apply Z.compare_lt_iff; lia | apply Z.compare_gt_iff; lia ].
  destruct (Z.compare_spec (day a) (day b)) as [Ed|Ld|Gd];
    [ | apply Z.compare_lt_iff; lia | apply Z.compare_gt_iff; lia ].
  rewrite Ey, Em, Ed.
  destruct (Z.compare_spec (hour a) (hour b)) as [Eh|Lh|Gh];
    [ | apply Z.compare_lt_iff; lia | apply Z.compare_gt_iff; lia ].
  destruct (Z.compare_spec (minute a) (minute b)) as [Emi|Lmi|Gmi];
    [ | apply Z.compare_lt_iff; lia | apply Z.compare_gt_iff; lia ].
  destruct (Z.compare_spec (second a) (second b)) as [Es|Ls|Gs];
    [ | apply Z.compare_lt_iff; lia | apply Z.compare_gt_iff; lia ].
  rewrite Eh, Emi, Es.
  destruct (Z.compare_spec (microsecond a) (microsecond b)) as [Eu|Lu|Gu];
    [ | apply Z.compare_lt_iff; lia | apply Z.compare_gt_iff; lia ].
  apply Z.compare_eq_iff; lia.
Qed.

Lemma ltb_to_us a b : valid a = true -> valid b = true -> ltb a b = (to_us a <? to_us b).
Proof. intros Ha Hb. unfold ltb, Z.ltb. rewrite (cmp_to_us a b Ha Hb). reflexivity. Qed.

Lemma leb_to_us a b : valid a = true -> valid b = true -> leb a b = (to_us a <=? to_us b).
Proof. intros Ha Hb. unfold leb, Z.leb. rewrite (cmp_to_us a b Ha Hb). reflexivity. Qed.

Lemma to_us_inj a b : valid a = true -> valid b = true -> to_us a = to_us b -> a = b.
Proof.
  intros Ha Hb E. pose proof (cmp_to_us a b Ha Hb) as C.
  rewrite E, Z.compare_refl in C. unfold fields in C. cbn [_cmp] in C.
  destruct a, b; cbn [year month day hour minute second microsecond] in *.
  repeat match type of C with
  | match ?x ?= ?y with _ => _ end = Eq =>
      destruct (Z.compare_spec x y); [subst|discriminate|discriminate]
  end.
  reflexivity.
Qed.


Lemma td_total_of_us us : td_total (td_of_microseconds us) = us.
Proof.
  unfold td_total, td_of_microseconds. cbn [td_days td_seconds td_microseconds].
  Z.to_euclidean_division_equations; lia.
Qed.

Lemma td_total_new d h mi s us :
  td_total (timedelta_new d h mi s us)
  = (((d * 24 + h) * 60 + mi) * 60 + s) * 1000000 + us.
Proof. apply td_total_of_us. Qed.

Lemma td_total_of_datetime t :
  td_total (timedelta_new (toordinal t) (hour t) (minute t) (second t) (microsecond t))
  = to_us t.
Proof. apply td_total_of_us. Qed.

Lemma add_of_us t d : add t d = of_delta (td_of_microseconds (to_us t + td_total d)).
Proof.
  unfold add, td_add. rewrite td_total_of_datetime. reflexivity.
Qed.

Lemma of_us_spec s :
  if (US_PER_DAY <=? s) && (s <? (_MAXORDINAL + 1) * US_PER_DAY)
  then exists t', of_delta (td_of_microseconds s) = Ok t' /\ valid t' = true /\ to_us t' = s
  else of_delta (td_of_microseconds s) = Raise OverflowError.
Proof.
  unfold of_delta, td_of_microseconds. cbn [td_days td_seconds td_microseconds].
  set (days := s / 1000000 / 86400).
  set (secs := (s / 1000000) mod 86400).
  set (us := s mod 1000000).
  assert (Hs : s = (days * 86400 + secs) * 1000000 + us
               /\ 0 <= secs < 86400 /\ 0 <= us < 1000000).
  { subst days secs us. Z.to_euclidean_division_equations; lia. }
  clearbody days secs us.
  unfold US_PER_DAY, _MAXORDINAL in *.
  destruct ((86400000000 <=? s) && (s <? (3652059 + 1) * 86400000000)) eqn:R.
  - apply andb_true_iff in R. rewrite Z.leb_le, Z.ltb_lt in R.
    assert (Hd : 1 <= days <= 3652059) by lia.
    assert (Hr : (0 <? days) && (days <=? 3652059) = true)
      by (apply andb_true_iff; rewrite Z.ltb_lt, Z.leb_le; lia).
    rewrite Hr.
    pose proof (ord2ymd_spec days ltac:(lia)) as Ho.
    destruct (_ord2ymd days) as [[y m] dd]. destruct Ho as (Hy & Hmax & Hm & Hdd & E).
    eexists. split; [reflexivity|].
    unfold _MAXORDINAL, MAXYEAR in Hmax.
    split.
    + apply valid_iff. cbn [year month day hour minute second microsecond].
      split; [apply date_ok_iff; lia|].
      Z.to_euclidean_division_equations; lia.
    + unfold to_us, toordinal. cbn [year month day hour minute second microsecond].
      rewrite E. Z.to_euclidean_division_equations; lia.
  - assert (Hr : (0 <? days) && (days <=? 3652059) = false).
    { apply andb_false_iff in R. rewrite Z.leb_gt, Z.ltb_ge in R.
      apply andb_false_iff. rewrite Z.ltb_ge, Z.leb_gt. lia. }
    rewrite Hr. reflexivity.
Qed.

Lemma add_spec t d :
  let s := to_us t + td_total d in
  if (US_PER_DAY <=? s) && (s <? (_MAXORDINAL + 1) * US_PER_DAY)
  then exists t', add t d = Ok t' /\ valid t' = true /\ to_us t' = s
  else add t d = Raise OverflowError.
Proof. cbv zeta. rewrite add_of_us. apply of_us_spec. Qed.

Lemma add_ok t d t' :
  add t d = Ok t' -> valid t' = true /\ to_us t' = to_us t + td_total d.
Proof.
  intros H. pose proof (add_spec t d) as S. cbv zeta in S.
  destruct (_ && _) in S.
  - destruct S as (t1 & E & V & U). rewrite E in H. injection H as <-. auto.
  - rewrite S in H. discriminate.
Qed.

Lemma toordinal_to_us t : valid t = true -> toordinal t = to_us t / US_PER_DAY.
Proof.
  intros H. apply valid_iff in H. unfold to_us, US_PER_DAY.
  Z.to_euclidean_division_equations; lia.
Qed.

Lemma new_ok y m d h mi s us t :
  new y m d h mi s us = Ok t -> t = mkdt y m d h mi s us /\ valid t = true.
Proof.
  unfold new. destruct (_ && _) eqn:E; [|discriminate].
  intros [= <-]. split; [reflexivity|exact E].
Qed.

Lemma replace_time_ok t h mi s us t' :
  replace_time t h mi s us = Ok t' ->
  valid t' = true /\ toordinal t' = toordinal t /\ hour t' = h /\ minute t' = mi
  /\ second t' = s /\ microsecond t' = us.
Proof.
  unfold replace_time. intros H. apply new_ok in H. destruct H as [-> V].
  repeat split; auto.
Qed.

Lemma weekday_range t : 0 <= weekday t < 7.
Proof. unfold weekday. apply Z.mod_pos_bound. lia. Qed.

End DatetimeFacts.

Import Datetime DatetimeFacts.

(** ** Computations over a world

    The clock and the calendar service are the only effects of the code.
    A computation takes the state of the world and returns a result, or
    the exception it raised, with the state it left. *)

Definition M (World A : Type) : Type := World -> result A * World.

Section WorldMonad.

Context {World : Type}.

Definition ret {A : Type} (a : A) : M World A := fun w => (Ok a, w).

Definition lift {A : Type} (r : result A) : M World A := fun w => (r, w).

Definition bind {A B : Type} (m : M World A) (k : A -> M World B)
  : M World B :=
  fun w =>
    match m w with
    | (Ok a, w') => k a w'
    | (Raise e, w') => (Raise e, w')
    end.

End WorldMonad.

Declare Scope world_scope.
Delimit Scope world_scope with world.
Notation "x <- m ;; k" := (bind m (fun x => k))
  (at level 61, m at next level, right associativity) : world_scope.

(** ** The calendar service *)

(** One entry of a [busy] list: [{"start": ..., "end": ...}]. *)
Record BusyInterval : Type := {
  busy_start : string;
  busy_end : string
}.

(** The body of a [freebusy().query] request. *)
Record FreeBusyRequest : Type := {
  timeMin : string;
  timeMax : string;
  timeZone : string;
  items : list string
}.

(** [response["calendars"]]: for each calendar id, its [busy] list. *)
Record Calendar : Type := { busy : list BusyInterval }.

Record FreeBusyResponse : Type := {
  calendars : list (string * Calendar)
}.

(** [d[key]] on a dictionary kept as an association list. *)
Fixpoint getitem {V : Type} (d : list (string * V)) (key : string)
  : result V :=
  match d with
  | [] => Raise (KeyError key)
  | (k, v) :: d' => if String.eqb k key then Ok v else getitem d' key
  end.

(** The client object [service]: [service.freebusy().query(body).execute()]
    answers or raises, and may change the world. *)
Record Service (World : Type) : Type := {
  freebusy_query_execute : FreeBusyRequest -> M World FreeBusyResponse
}.

Arguments freebusy_query_execute {World} _ _ _.

(** Python's truth value of a list, negated: [not l]. *)
Definition not_ {A : Type} (l : list A) : bool :=
  match l with
  | [] => true
  | _ :: _ => false
  end.

(** ** autointerviewbot.py *)

Module autointerviewbot.

Definition RECRUITER_EMAIL : string := "bvsuyameendra@gmail.com".
Definition CANDIDATE_EMAIL : string := "manchemvishnusrikar@gmail.com".
Definition TIME_ZONE : string := "Asia/Kolkata".

(** Convert naive IST datetime to UTC (IST=UTC+5:30). *)
Definition to_utc (ist_dt : datetime) : result datetime :=
  sub ist_dt (timedelta_new 0 5 30 0 0).

(** *** [clamp_to_working_hours]

    The two [while ist_dt.weekday() >= 5] loops end after at most two
    rounds, Saturday and Sunday. They are defined by well-founded
    recursion on the days left to Monday; the measure also covers records
    that no [datetime] object can hold, which one round makes valid. *)

Definition weekend_measure (t : datetime) : nat :=
  Nat.add (if valid t then 0%nat else 3%nat)
          (Z.to_nat (if 5 <=? weekday t then 7 - weekday t else 0)).

Lemma weekend_measure_next t t1 :
  (5 <=? weekday t) = true -> valid t1 = true ->
  toordinal t1 = to_us t / US_PER_DAY + 1 ->
  (weekend_measure t1 < weekend_measure t)%nat.
Proof.
  intros Hwd V1 O1. unfold weekend_measure. rewrite V1, Hwd.
  apply Z.leb_le in Hwd.
  pose proof (weekday_range t) as R. pose proof (weekday_range t1) as R1.
  destruct (valid t) eqn:V.
  - rewrite <- (toordinal_to_us t V) in O1.
    assert (W : weekday t1 = (weekday t + 1) mod 7).
    { unfold weekday. rewrite O1. Z.to_euclidean_division_equations; lia. }
    destruct (5 <=? weekday t1) eqn:E; [apply Z.leb_le in E|];
      Z.to_euclidean_division_equations; lia.
  - destruct (5 <=? weekday t1) eqn:E; [apply Z.leb_le in E|]; lia.
Qed.

Lemma add_day_ordinal t t1 :
  add t (timedelta_new 1 0 0 0 0) = Ok t1 ->
  valid t1 = true /\ toordinal t1 = to_us t / US_PER_DAY + 1.
Proof.
  intros H. apply add_ok in H. destruct H as [V1 U1].
  rewrite td_total_new in U1. split; [exact V1|].
  rewrite (toordinal_to_us _ V1), U1. unfold US_PER_DAY.
  Z.to_euclidean_division_equations; lia.
Qed.

#[local] Opaque add replace_time weekday valid timedelta_new Z.leb.

(** [while ist_dt.weekday() >= 5:] add a day and reset the time to 09:00. *)
Equations? (noind) while_weekend_reset (ist_dt : datetime) : result datetime
  by wf (weekend_measure ist_dt) lt :=
  while_weekend_reset ist_dt with inspect (5 <=? weekday ist_dt) => {
    | exist _ false _ => Ok ist_dt
    | exist _ true Hwd with inspect (add ist_dt (timedelta_new 1 0 0 0 0)) => {
       | exist _ (Raise e) _ => Raise e
       | exist _ (Ok ist_dt1) Hadd with inspect (replace_time ist_dt1 9 0 0 0) => {
          | exist _ (Raise e) _ => Raise e
          | exist _ (Ok ist_dt2) Hrep => while_weekend_reset ist_dt2 } } }.
Proof.
  apply add_day_ordinal in Hadd. destruct Hadd as [V1 O1].
  apply replace_time_ok in Hrep. destruct Hrep as (V2 & O2 & _).
  apply (weekend_measure_next _ _ Hwd V2). congruence.
Qed.

(** [while ist_dt.weekday() >= 5:] add a day. *)
Equations? (noind) while_weekend (ist_dt : datetime) : result datetime
  by wf (weekend_measure ist_dt) lt :=
  while_weekend ist_dt with inspect (5 <=? weekday ist_dt) => {
    | exist _ false _ => Ok ist_dt
    | exist _ true Hwd with inspect (add ist_dt (timedelta_new 1 0 0 0 0)) => {
       | exist _ (Raise e) _ => Raise e
       | exist _ (Ok ist_dt1) Hadd => while_weekend ist_dt1 } }.
Proof.
  apply add_day_ordinal in Hadd. destruct Hadd as [V1 O1].
  apply (weekend_measure_next _ _ Hwd V1 O1).
Qed.

#[local] Transparent add replace_time weekday valid timedelta_new Z.leb.

(** Clamps [ist_dt] to Mon–Fri, 9 AM–7 PM in IST. *)
Definition clamp_to_working_hours (ist_dt : datetime) : result datetime :=
  (ist_dt <- while_weekend_reset ist_dt ;;
   if hour ist_dt <? 9 then replace_time ist_dt 9 0 0 0
   else if 19 <=? hour ist_dt then
     ist_dt <- add ist_dt (timedelta_new 1 0 0 0 0) ;;
     ist_dt <- while_weekend ist_dt ;;
     replace_time ist_dt 9 0 0 0
   else Ok ist_dt)%result.

Section Bot.

Context {World : Type}.

(** [datetime.utcnow()]: reads the clock of the world. *)
Variable utcnow : World -> datetime * World.

Local Open Scope world_scope.

(** Returns current IST time as a naive datetime: UTC + 5:30. *)
Definition get_now_ist : M World datetime :=
  fun w =>
    let '(now_utc, w') := utcnow w in
    (add now_utc (timedelta_new 0 5 30 0 0), w').

(** Fetch busy slots for [email] between [start_ist, end_ist) in IST,
    converting to UTC for the Calendar API. *)
Definition get_busy_slots (service : Service World) (email : string)
    (start_ist end_ist : datetime) : M World (list BusyInterval) :=
  start_utc <- lift (to_utc start_ist) ;;
  end_utc <- lift (to_utc end_ist) ;;
  let body := {| timeMin := (isoformat start_utc ++ "Z")%string;
                 timeMax := (isoformat end_utc ++ "Z")%string;
                 timeZone := "UTC";
                 items := [email] |} in
  response <- freebusy_query_execute service body ;;
  calendar <- lift (getitem (calendars response) email) ;;
  ret (busy calendar).

(** Check if both recruiter & candidate are free in [start_ist, end_ist). *)
Definition is_slot_free_for_both (service : Service World)
    (recruiter candidate : string) (start_ist end_ist : datetime)
  : M World bool :=
  recruiter_busy <- get_busy_slots service recruiter start_ist end_ist ;;
  candidate_busy <- get_busy_slots service candidate start_ist end_ist ;;
  ret (not_ recruiter_busy && not_ candidate_busy).

(** Ensures the year is at least 2025 and the moment is not before
    today's month, day and time taken in 2025. *)
Definition clamp_to_future_2025 (ist_dt : datetime) : M World datetime :=
  now_ist <- get_now_ist ;;
  ist_dt <- lift (if year ist_dt <? 2025 then replace_year ist_dt 2025
                  else Ok ist_dt) ;;
  let real_now := now_ist in
  virtual_2025 <- lift (new 2025 (month real_now) (day real_now)
                          (hour real_now) (minute real_now)
                          (second real_now) (microsecond real_now)) ;;
  ret (if ltb ist_dt virtual_2025 then virtual_2025 else ist_dt).

Definition max_attempts : nat := 3000.

(** [while attempts < max_attempts:], on [remaining = max_attempts -
    attempts]. *)
Fixpoint while_attempts (service : Service World) (remaining : nat)
    (current : datetime) : M World (option datetime) :=
  match remaining with
  | O => ret None
  | S remaining' =>
      current <- clamp_to_future_2025 current ;;
      current <- lift (clamp_to_working_hours current) ;;
      end_current <- lift (add current (timedelta_new 0 1 0 0 0)) ;;
      free <- is_slot_free_for_both service RECRUITER_EMAIL CANDIDATE_EMAIL
                current end_current ;;
      if free then ret (Some current)
      else
        current <- lift (add current (timedelta_new 0 1 0 0 0)) ;;
        while_attempts service remaining' current
  end.

(** Searches forward hour by hour from [start_ist] in IST, clamping each
    iteration to Mon–Fri, 9–19 IST, until it finds a free 1-hour slot for
    both participants. *)
Definition find_first_free_slot (service : Service World)
    (start_ist : datetime) : M World (option datetime) :=
  while_attempts service max_attempts start_ist.

End Bot.

End autointerviewbot.

(** ** textbasedbot.py *)

Module textbasedbot.

Definition RECRUITER_EMAIL : string := "bvsuyameendra@gmail.com".
Definition CANDIDATE_EMAIL : string := "manchemvishnusrikar@gmail.com".
Definition TIME_ZONE : string := "Asia/Kolkata".

(** Convert naive IST datetime to UTC (IST=UTC+5:30). *)
Definition to_utc (ist_dt : datetime) : result datetime :=
  sub ist_dt (timedelta_new 0 5 30 0 0).

(** The rounds left to [while current + timedelta(hours=1) <=
    candidate_end]: the hours up to [candidate_end], or up to the end of
    year 9999 for a record that no [datetime] object can hold. *)
Definition range_measure (current candidate_end : datetime) : nat :=
  Z.to_nat (((if valid candidate_end then to_us candidate_end
              else (_MAXORDINAL + 1) * US_PER_DAY)
             - to_us current) / US_PER_HOUR + 1).

Lemma range_measure_next current candidate_end next :
  add current (timedelta_new 0 1 0 0 0) = Ok next ->
  leb next candidate_end = true ->
  (range_measure next candidate_end < range_measure current candidate_end)%nat.
Proof.
  intros Hadd Hle. pose proof (add_spec current (timedelta_new 0 1 0 0 0)) as S.
  cbv zeta in S. rewrite td_total_new in S.
  destruct (_ && _) eqn:R in S; [|congruence].
  destruct S as (t' & E & V & U). rewrite E in Hadd. injection Hadd as ->.
  apply andb_true_iff in R. rewrite Z.leb_le, Z.ltb_lt in R.
  unfold range_measure.
  destruct (valid candidate_end) eqn:Ve.
  - rewrite (leb_to_us _ _ V Ve) in Hle. apply Z.leb_le in Hle.
    rewrite U. unfold US_PER_HOUR. Z.to_euclidean_division_equations; lia.
  - rewrite U. unfold US_PER_HOUR, US_PER_DAY, _MAXORDINAL in *.
    Z.to_euclidean_division_equations; lia.
Qed.

Section Bot.

Context {World : Type}.

Local Open Scope world_scope.

(** Fetch busy slots for [email] in [start_ist, end_ist) IST, converting
    to UTC for API. *)
Definition get_busy_slots (service : Service World) (email : string)
    (start_ist end_ist : datetime) : M World (list BusyInterval) :=
  start_utc <- lift (to_utc start_ist) ;;
  end_utc <- lift (to_utc end_ist) ;;
  let body := {| timeMin := (isoformat start_utc ++ "Z")%string;
                 timeMax := (isoformat end_utc ++ "Z")%string;
                 timeZone := "UTC";
                 items := [email] |} in
  response <- freebusy_query_execute service body ;;
  calendar <- lift (getitem (calendars response) email) ;;
  ret (busy calendar).

(** Check if both are free in [start_ist, end_ist) IST. *)
Definition is_slot_free_for_both (service : Service World)
    (recruiter candidate : string) (start_ist end_ist : datetime)
  : M World bool :=
  r_busy <- get_busy_slots service recruiter start_ist end_ist ;;
  c_busy <- get_busy_slots service candidate start_ist end_ist ;;
  ret (not_ r_busy && not_ c_busy).

#[local] Opaque add leb timedelta_new.

(** [while current + timedelta(hours=1) <= candidate_end:]. The
    condition, [slot_end] and the advance all evaluate the pure
    [current + timedelta(hours=1)]: it is named once, [next]. *)
Equations? (noind) while_in_range (service : Service World)
    (current candidate_end : datetime)
  : M World (option (datetime * datetime))
  by wf (range_measure current candidate_end) lt :=
  while_in_range service current candidate_end
    with inspect (add current (timedelta_new 0 1 0 0 0)) => {
    | exist _ (Raise e) _ => lift (Raise e)
    | exist _ (Ok next) Hnext with inspect (leb next candidate_end) => {
       | exist _ false _ => ret None
       | exist _ true Hle =>
           let slot_start := current in
           let slot_end := next in
           free <- is_slot_free_for_both service RECRUITER_EMAIL
                     CANDIDATE_EMAIL slot_start slot_end ;;
           if free then ret (Some (slot_start, slot_end))
           else while_in_range service next candidate_end } }.
Proof.
  apply (range_measure_next _ _ _ Hnext Hle).
Qed.

#[local] Transparent add leb timedelta_new.

(** The candidate is free in [candidate_start, candidate_end). We check
    each hour in that range to see if the recruiter is also free. Return
    the first free 1-hour block (start, end) or None if none found. *)
Definition find_1hr_slot_within_range (service : Service World)
    (candidate_start candidate_end : datetime)
  : M World (option (datetime * datetime)) :=
  current <- lift (replace_minute candidate_start 0 0 0) ;;
  current <- lift (if ltb current candidate_start
                   then add current (timedelta_new 0 1 0 0 0)
                   else Ok current) ;;
  while_in_range service current candidate_end.

End Bot.

End textbasedbot.

(** ** The texts

    [main] of [autointerviewbot.py] searches the reply of the language
    model with a regular expression and reads the match with [strptime];
    [parse_candidate_availability] of [textbasedbot.py] cuts a JSON object
    out of the reply; both files write the times of the event with
    [strftime]. A Python [str] whose code points are all below 256 is a
    [string]: on these, [\d] matches the ten ASCII digits and nothing
    else. *)

Module Text.

(** [\d] on a code point below 256. *)
Definition isdigit (c : ascii) : bool :=
  (48 <=? nat_of_ascii c)%nat && (nat_of_ascii c <=? 57)%nat.

(** One item of a regular expression that is a sequence of [\d] and of
    literal characters. *)
Inductive item : Type :=
| Digit
| Lit (c : ascii).

Definition item_matches (i : item) (c : ascii) : bool :=
  match i with
  | Digit => isdigit c
  | Lit c' => Ascii.eqb c c'
  end.

(** The match of the pattern at the start of [s]: the text matched. *)
Fixpoint match_here (pattern : list item) (s : string) : option string :=
  match pattern with
  | [] => Some EmptyString
  | i :: pattern' =>
      match s with
      | EmptyString => None
      | String c s' =>
          if item_matches i c
          then option_map (String c) (match_here pattern' s')
          else None
      end
  end.

(** [re.search(pattern, s)] with the whole pattern as group 1: the match
    at the leftmost position that has one. *)
Fixpoint search (pattern : list item) (s : string) : option string :=
  match match_here pattern s with
  | Some g => Some g
  | None =>
      match s with
      | EmptyString => None
      | String _ s' => search pattern s'
      end
  end.

Definition digit_value (c : ascii) : Z := Z.of_nat (nat_of_ascii c) - 48.

Fixpoint int_from (acc : Z) (s : string) : Z :=
  match s with
  | EmptyString => acc
  | String c s' => int_from (acc * 10 + digit_value c) s'
  end.

(** [int(s)] for a string of digits. *)
Definition int (s : string) : Z := int_from 0 s.

(** [c in s]. *)
Fixpoint has (c : ascii) (s : string) : bool :=
  match s with
  | EmptyString => false
  | String c' s' => Ascii.eqb c' c || has c s'
  end.

(** The suffix of [s] that starts at the first [c]. *)
Fixpoint from_first (c : ascii) (s : string) : option string :=
  match s with
  | EmptyString => None
  | String c' s' => if Ascii.eqb c' c then Some s else from_first c s'
  end.

(** The prefix of [s] that ends at the last [c]. *)
Fixpoint upto_last (c : ascii) (s : string) : option string :=
  match s with
  | EmptyString => None
  | String c' s' =>
      match upto_last c s' with
      | Some p => Some (String c' p)
      | None => if Ascii.eqb c' c then Some (String c' EmptyString) else None
      end
  end.

(** The nineteen characters [YYYY-MM-DDTHH:MM:SS] of [t], every field
    padded with zeros: what [isoformat] writes before the fraction. *)
Definition timestamp (t : datetime) : string :=
  (zero_padded 4 (year t) ++ "-" ++ zero_padded 2 (month t) ++ "-"
   ++ zero_padded 2 (day t) ++ "T" ++ zero_padded 2 (hour t) ++ ":"
   ++ zero_padded 2 (minute t) ++ ":" ++ zero_padded 2 (second t))%string.

(** [%Y] of [strftime], for a year from 1 to 9999: the year in decimal
    with no padding, as CPython 3.11 on Linux writes it; it hands the
    format to the C library, which writes a year below 1000 with fewer
    than four digits. From year 1000 on the text is the same four digits
    on every platform. *)
Definition year_text (y : Z) : string :=
  if y <? 10 then zero_padded 1 y
  else if y <? 100 then zero_padded 2 y
  else if y <? 1000 then zero_padded 3 y
  else zero_padded 4 y.

(** [t.strftime("%Y-%m-%dT%H:%M:%S")]. *)
Definition strftime (t : datetime) : string :=
  (year_text (year t) ++ "-" ++ zero_padded 2 (month t) ++ "-"
   ++ zero_padded 2 (day t) ++ "T" ++ zero_padded 2 (hour t) ++ ":"
   ++ zero_padded 2 (minute t) ++ ":" ++ zero_padded 2 (second t))%string.

End Text.

Import Text.

(** ** autointerviewbot.py: the reply of the model, the times of the event *)

Module autointerviewbot_text.

(** [\d{4}-\d{2}-\d{2}T\d{2}:\d{2}:\d{2}]. *)
Definition pattern : list item :=
  [Digit; Digit; Digit; Digit; Lit "-"; Digit; Digit; Lit "-"; Digit; Digit;
   Lit "T"; Digit; Digit; Lit ":"; Digit; Digit; Lit ":"; Digit; Digit].

(** [datetime.strptime(ai_time_str, "%Y-%m-%dT%H:%M:%S")] on a string
    that [pattern] matched: each field is two digits (the year four), and
    the fields that are not a date and a time of day end in
    [ValueError], from the format or from the constructor. *)
Definition strptime (ai_time_str : string) : result datetime :=
  new (int (substring 0 4 ai_time_str)) (int (substring 5 2 ai_time_str))
      (int (substring 8 2 ai_time_str)) (int (substring 11 2 ai_time_str))
      (int (substring 14 2 ai_time_str)) (int (substring 17 2 ai_time_str)) 0.

(** [main], from [match_time = re.search(...)] to [ai_time_ist =
    datetime.strptime(...)]: the seed of the search, read in the reply
    of the model. *)
Definition ai_time_ist (response_text : string) : result datetime :=
  match search pattern response_text with
  | None => Raise ValueError
  | Some ai_time_str => strptime ai_time_str
  end.

(** [start_str] of [main], and [end_str] alike. *)
Definition start_str (event_start_ist : datetime) : string :=
  (strftime event_start_ist ++ "+05:30")%string.

End autointerviewbot_text.

(** ** textbasedbot.py: [parse_candidate_availability], the times of the
    event *)

Module textbasedbot_text.

(** [re.search(r"(\{.*\})", response, flags=re.DOTALL)], group 1: with
    [DOTALL] the greedy [.*] runs over line ends, from the first opening
    brace to the last closing brace after it. *)
Definition json_str (response : string) : option string :=
  match from_first "{" response with
  | Some (String _ rest) => option_map (String "{") (upto_last "}" rest)
  | _ => None
  end.

Definition dq : string := String (ascii_of_nat 34) EmptyString.
Definition nl : string := String (ascii_of_nat 10) EmptyString.

(** The f-string [prompt]. *)
Definition prompt (natural_text : string) : string :=
  (nl
   ++ "You are a date/time parser. Convert the following availability description "
   ++ nl
   ++ "into JSON with " ++ dq ++ "start" ++ dq ++ " and " ++ dq ++ "end" ++ dq
   ++ " in ISO8601 format (YYYY-MM-DDTHH:MM:SS), " ++ nl
   ++ "assuming the user is referring to the next occurrence of that day/time in the future."
   ++ nl ++ nl
   ++ "Input: " ++ natural_text ++ nl ++ nl
   ++ "Output only JSON, e.g.:" ++ nl
   ++ "{ " ++ dq ++ "start" ++ dq ++ ": " ++ dq ++ "2025-03-24T14:00:00" ++ dq
   ++ ", " ++ dq ++ "end" ++ dq ++ ": " ++ dq ++ "2025-03-24T16:00:00" ++ dq ++ " }"
   ++ nl
   ++ "No extra text." ++ nl)%string.

(** [try: ... except Exception as e: raise ValueError(...)]. *)
Definition except_Exception_raise_ValueError {A : Type} (r : result A)
  : result A :=
  match r with
  | Ok a => Ok a
  | Raise _ => Raise ValueError
  end.

Section Parse.

Context {World J : Type}.

(** [run_ollama_model]: the run of the model on a prompt, its output
    stripped. *)
Variable run_ollama_model : string -> M World string.

(** [json.loads]. *)
Variable json_loads : string -> result J.

Local Open Scope world_scope.

(** Asks the model to convert the candidate's text into a JSON with
    "start" and "end". *)
Definition parse_candidate_availability (natural_text : string) : M World J :=
  response <- run_ollama_model (prompt natural_text) ;;
  lift (except_Exception_raise_ValueError
          match json_str response with
          | None => Raise ValueError
          | Some json_str => json_loads json_str
          end).

End Parse.

(** [start_str] of [create_calendar_event], and [end_str] alike. *)
Definition start_str (slot_start_ist : datetime) : string :=
  (strftime slot_start_ist ++ "+05:30")%string.

End textbasedbot_text.

(** ** The vocabulary of the properties *)

(** The time of day, in microseconds since midnight. *)
Definition tod (t : datetime) : Z :=
  ((hour t * 60 + minute t) * 60 + second t) * 1000000 + microsecond t.

(** 09:00 on the day of ordinal [o]. *)
Definition day_at_nine (o : Z) : datetime :=
  let '(y, m, d) := _ord2ymd o in mkdt y m d 9 0 0 0.

(** Monday to Friday, from 09:00 up to 19:00. *)
Definition in_working_hours (t : datetime) : bool :=
  (weekday t <? 5) && (9 <=? hour t) && (hour t <? 19).

(** The days between a datetime outside working hours and the business
    day the clamp moves it to. *)
Definition days_to_open (t : datetime) : Z :=
  if 5 <=? weekday t then 7 - weekday t
  else if hour t <? 9 then 0
  else if weekday t =? 4 then 3
  else 1.

(** Specification 4.1: the case split of [clampToWorkingHours], in its
    words. Its weekend skip is the loop of the code that adds a day and
    resets the time to 09:00. *)
Definition clampToWorkingHours_spec (t : datetime) : result datetime :=
  if (weekday t =? 5) || (weekday t =? 6) then
    autointerviewbot.while_weekend_reset t
  else if hour t <? 9 then replace_time t 9 0 0 0
  else if 19 <=? hour t then
    (t <- add t (timedelta_new 1 0 0 0 0) ;;
     t <- replace_time t 9 0 0 0 ;;
     autointerviewbot.while_weekend_reset t)%result
  else Ok t.

(** [t] with its year replaced, the other fields kept. *)
Definition with_year (t : datetime) (y : Z) : datetime :=
  mkdt y (month t) (day t) (hour t) (minute t) (second t) (microsecond t).

(** The 29th of February. *)
Definition is_feb29 (t : datetime) : bool := (month t =? 2) && (day t =? 29).

(** "Now" re-anchored to the reference year. *)
Definition floor_2025 (now : datetime) : datetime := with_year now 2025.

(** *** The seed-time search as a state machine *)

(** How one round of the loop of [find_first_free_slot] ends. *)
Inductive round_outcome : Type :=
| Found (slot : datetime)
| Busy (next : datetime)
| Failed (e : exn).

Section SearchModel.

Context {World : Type}.
Variable utcnow : World -> datetime * World.
Variable service : Service World.

#[local] Abbreviation clamp_to_future_2025 :=
  (autointerviewbot.clamp_to_future_2025 utcnow).
#[local] Abbreviation get_now_ist := (autointerviewbot.get_now_ist utcnow).
#[local] Abbreviation is_slot_free :=
  (autointerviewbot.is_slot_free_for_both service
     autointerviewbot.RECRUITER_EMAIL autointerviewbot.CANDIDATE_EMAIL).

(** The body of the loop, from the state [current] of the scan. *)
Definition round (current : datetime) : World -> round_outcome * World :=
  fun w =>
    match clamp_to_future_2025 current w with
    | (Raise e, w1) => (Failed e, w1)
    | (Ok c1, w1) =>
        match autointerviewbot.clamp_to_working_hours c1 with
        | Raise e => (Failed e, w1)
        | Ok c2 =>
            match add c2 (timedelta_new 0 1 0 0 0) with
            | Raise e => (Failed e, w1)
            | Ok end_current =>
                match is_slot_free c2 end_current w1 with
                | (Raise e, w2) => (Failed e, w2)
                | (Ok true, w2) => (Found c2, w2)
                | (Ok false, w2) => (Busy end_current, w2)
                end
            end
        end
    end.

(** The state of the scan after [k] rounds that all found the slot busy. *)
Fixpoint advances (k : nat) (current : datetime) (w : World)
  : option (datetime * World) :=
  match k with
  | O => Some (current, w)
  | S k' =>
      match round current w with
      | (Busy next, w') => advances k' next w'
      | _ => None
      end
  end.

(** The oracle reports every interval of the years from 2025 on free. *)
Definition reports_free : Prop :=
  forall s e w, valid s = true -> valid e = true -> 2025 <= year s -> 2025 <= year e ->
    exists w', is_slot_free s e w = (Ok true, w').



End SearchModel.

(** *** The range-constrained search as a scan of a list *)

(** Specification 4.4: the start of the range, rounded up to the hour. *)
Definition normalizedStart (rangeStart : datetime) : result datetime :=
  if (minute rangeStart =? 0) && (second rangeStart =? 0)
     && (microsecond rangeStart =? 0)
  then Ok rangeStart
  else add (mkdt (year rangeStart) (month rangeStart) (day rangeStart)
              (hour rangeStart) 0 0 0)
           (timedelta_new 0 1 0 0 0).

(** The hourly slots from [current] on, [count] of them. *)
Fixpoint hourly_slots (count : nat) (current : datetime)
  : list (datetime * datetime) :=
  match count with
  | O => []
  | S count' =>
      match add current (timedelta_new 0 1 0 0 0) with
      | Ok next => (current, next) :: hourly_slots count' next
      | Raise _ => []
      end
  end.

(** The number of hourly slots from [current] that end by [rangeEnd]. *)
Definition slot_count (current rangeEnd : datetime) : nat :=
  Z.to_nat ((to_us rangeEnd - to_us current) / US_PER_HOUR).

Section ScanModel.

Context {World : Type}.
Variable probe : datetime -> datetime -> M World bool.

Local Open Scope world_scope.

(** The first slot of the list that the oracle reports free. *)
Fixpoint first_free (slots : list (datetime * datetime))
  : M World (option (datetime * datetime)) :=
  match slots with
  | [] => ret None
  | (slot_start, slot_end) :: rest =>
      free <- probe slot_start slot_end ;;
      if free then ret (Some (slot_start, slot_end)) else first_free rest
  end.

(** The world after the oracle was asked about every slot of the list,
    in order, and reported each busy. *)
Fixpoint all_busy (slots : list (datetime * datetime)) (w : World)
  : option World :=
  match slots with
  | [] => Some w
  | (slot_start, slot_end) :: rest =>
      match probe slot_start slot_end w with
      | (Ok false, w') => all_busy rest w'
      | _ => None
      end
  end.

End ScanModel.

(** The busy-interval query of one of the two identities raises [x]: the
    recruiter's, or the candidate's after the recruiter's was answered. *)
Definition query_fails {World : Type}
    (get_busy : string -> datetime -> datetime -> M World (list BusyInterval))
    (recruiter candidate : string) (s e : datetime) (w : World) (x : exn)
    (w' : World) : Prop :=
  get_busy recruiter s e w = (Raise x, w')
  \/ exists b w1, get_busy recruiter s e w = (Ok b, w1)
                  /\ get_busy candidate s e w1 = (Raise x, w').

(** *** The conversion to UTC, the queries and the texts *)

(** The offset of IST from UTC, in microseconds: 5 hours 30 minutes. *)
Definition IST_OFFSET_US : Z := 19800000000.

(** The request that [get_busy_slots] sends for the two bounds in UTC. *)
Definition query_body (email : string) (start_utc end_utc : datetime)
  : FreeBusyRequest :=
  {| timeMin := (isoformat start_utc ++ "Z")%string;
     timeMax := (isoformat end_utc ++ "Z")%string;
     timeZone := "UTC";
     items := [email] |}.

(** A service with the count of the requests it was sent. *)
Definition counted {World : Type} (service : Service World)
  : Service (World * nat) :=
  {| freebusy_query_execute := fun req wn =>
       let '(r, w') := freebusy_query_execute service req (fst wn) in
       (r, (w', S (snd wn))) |}.

(** The clock, in the world that counts the requests. *)
Definition beside_count {World : Type} (utcnow : World -> datetime * World)
  : World * nat -> datetime * (World * nat) :=
  fun wn => let '(t, w') := utcnow (fst wn) in (t, (w', snd wn)).

(** [t] with its microsecond dropped. *)
Definition to_the_second (t : datetime) : datetime :=
  mkdt (year t) (month t) (day t) (hour t) (minute t) (second t) 0.

(** The character of the last decimal digit of [n]. *)
Definition dch (n : Z) : ascii := ascii_of_nat (48 + Z.to_nat (n mod 10)).

(** The text has a decimal digit. *)
Fixpoint has_digit (s : string) : bool :=
  match s with
  | EmptyString => false
  | String c s' => isdigit c || has_digit s'
  end.

(** No match of the pattern in [pre ++ rest] starts inside [pre]. *)
Fixpoint no_match_within (p : list item) (pre rest : string) : bool :=
  match pre with
  | EmptyString => true
  | String _ pre' =>
      match match_here p (pre ++ rest) with
      | Some _ => false
      | None => no_match_within p pre' rest
      end
  end.

(** *** Worlds to run the code in *)

(** A clock stopped at [now_utc], in a world with no other state. *)
Definition fixed_clock (now_utc : datetime) : unit -> datetime * unit :=
  fun w => (now_utc, w).

(** The response that gives every calendar asked for the busy list [b]. *)
Definition answer (b : list BusyInterval) (req : FreeBusyRequest)
  : FreeBusyResponse :=
  {| calendars := map (fun id => (id, {| busy := b |})) (items req) |}.

(** A service that answers every query with the busy list [b]. *)
Definition constant_service (b : list BusyInterval) : Service unit :=
  {| freebusy_query_execute := fun req w => (Ok (answer b req), w) |}.

Definition free_service : Service unit := constant_service [].

Definition busy_service : Service unit :=
  constant_service
    [{| busy_start := "2025-01-01T00:00:00Z"; busy_end := "9999-12-31T00:00:00Z" |}].

(** A service that answers the recruiter's query with an empty busy list
    and fails on the candidate's. *)
Definition candidate_down : Service unit :=
  {| freebusy_query_execute := fun req w =>
       if existsb (String.eqb autointerviewbot.CANDIDATE_EMAIL) (items req)
       then (Raise (HttpError 503), w)
       else (Ok (answer [] req), w) |}.

(** A service that reports the recruiter busy in the query that starts
    at 14:00 IST of 24 March 2025, and everyone free otherwise. *)
Definition recruiter_busy_at_two : Service unit :=
  {| freebusy_query_execute := fun req w =>
       if existsb (String.eqb textbasedbot.RECRUITER_EMAIL) (items req)
          && String.eqb (timeMin req) "2025-03-24T08:30:00Z"
       then (Ok (answer [{| busy_start := "2025-03-24T08:30:00Z";
                            busy_end := "2025-03-24T09:30:00Z" |}] req), w)
       else (Ok (answer [] req), w) |}.

(** 17 March 2025, 06:30 UTC: a Monday, 12:00 in IST. *)
Definition monday_noon_utc : datetime := mkdt 2025 3 17 6 30 0 0.

(** Thursday 13 March 2025, 10:00: inside working hours, four days before
    the Monday of the stopped clock. *)
Definition thursday_ten : datetime := mkdt 2025 3 13 10 0 0 0.

(** Saturday 15 March 2025, 14:07:03.000005. *)
Definition saturday_afternoon : datetime := mkdt 2025 3 15 14 7 3 5.

(** Tuesday 18 March 2025, 10:00: the day after the stopped clock. *)
Definition tuesday_ten : datetime := mkdt 2025 3 18 10 0 0 0.

(** 29 February 2024, 10:00. *)
Definition leap_day : datetime := mkdt 2024 2 29 10 0 0 0.

(** A service that answers every query with no calendar at all. *)
Definition no_calendar : Service unit :=
  {| freebusy_query_execute := fun _ w => (Ok {| calendars := [] |}, w) |}.

(** 3 November 2026, 06:30 UTC: 12:00 in IST. *)
Definition november_2026_utc : datetime := mkdt 2026 11 3 6 30 0 0.

(** Monday 1 December 2025, 10:00. *)
Definition december_first : datetime := mkdt 2025 12 1 10 0 0 0.

(** 1 January of year 1, 03:00: less than 5 hours 30 minutes after the
    first moment a [datetime] can hold. *)
Definition first_morning : datetime := mkdt 1 1 1 3 0 0 0.

(** A model that gives the same reply to every prompt. *)
Definition canned_reply (reply : string) : string -> M unit string :=
  fun _ w => (Ok reply, w).

Ltac splits := repeat match goal with |- _ /\ _ => split end.

(** ** The loops, the clamps and the searches: facts *)

(** *** The loops, unfolded once *)

Lemma while_weekend_reset_eq t :
  autointerviewbot.while_weekend_reset t =
  if 5 <=? weekday t then
    (t1 <- add t (timedelta_new 1 0 0 0 0) ;;
     t2 <- replace_time t1 9 0 0 0 ;;
     autointerviewbot.while_weekend_reset t2)%result
  else Ok t.
Proof.
  rewrite autointerviewbot.while_weekend_reset_equation_1. unfold inspect.
  assert (G3 : forall t1 Hadd Hwd r (H : replace_time t1 9 0 0 0 = r),
    autointerviewbot.while_weekend_reset_unfold_clause_1_clause_2_clause_2
      t t1 (exist _ r H) Hadd Hwd
    = (t2 <- r ;; autointerviewbot.while_weekend_reset t2)%result).
  { intros t1 Hadd Hwd [t2|e] H;
      [ rewrite autointerviewbot.while_weekend_reset_clause_1_clause_2_clause_2_equation_1
      | rewrite autointerviewbot.while_weekend_reset_clause_1_clause_2_clause_2_equation_2 ];
      reflexivity. }
  assert (G2 : forall Hwd r (H : add t (timedelta_new 1 0 0 0 0) = r),
    autointerviewbot.while_weekend_reset_unfold_clause_1_clause_2 t (exist _ r H) Hwd
    = (t1 <- r ;; t2 <- replace_time t1 9 0 0 0 ;;
       autointerviewbot.while_weekend_reset t2)%result).
  { intros Hwd [t1|e] H;
      [ rewrite autointerviewbot.while_weekend_reset_clause_1_clause_2_equation_1; apply G3
      | rewrite autointerviewbot.while_weekend_reset_clause_1_clause_2_equation_2;
        reflexivity ]. }
  assert (G1 : forall b (H : (5 <=? weekday t) = b),
    autointerviewbot.while_weekend_reset_unfold_clause_1 t (exist _ b H)
    = if b then (t1 <- add t (timedelta_new 1 0 0 0 0) ;;
                 t2 <- replace_time t1 9 0 0 0 ;;
                 autointerviewbot.while_weekend_reset t2)%result
      else Ok t).
  { intros [] H;
      [ rewrite autointerviewbot.while_weekend_reset_clause_1_equation_1; apply G2
      | rewrite autointerviewbot.while_weekend_reset_clause_1_equation_2; reflexivity ]. }
  apply G1.
Qed.

Lemma while_weekend_eq t :
  autointerviewbot.while_weekend t =
  if 5 <=? weekday t then
    (t1 <- add t (timedelta_new 1 0 0 0 0) ;; autointerviewbot.while_weekend t1)%result
  else Ok t.
Proof.
  rewrite autointerviewbot.while_weekend_equation_1. unfold inspect.
  assert (G2 : forall Hwd r (H : add t (timedelta_new 1 0 0 0 0) = r),
    autointerviewbot.while_weekend_unfold_clause_1_clause_2 t (exist _ r H) Hwd
    = (t1 <- r ;; autointerviewbot.while_weekend t1)%result).
  { intros Hwd [t1|e] H;
      [ rewrite autointerviewbot.while_weekend_clause_1_clause_2_equation_1
      | rewrite autointerviewbot.while_weekend_clause_1_clause_2_equation_2 ];
      reflexivity. }
  assert (G1 : forall b (H : (5 <=? weekday t) = b),
    autointerviewbot.while_weekend_unfold_clause_1 t (exist _ b H)
    = if b then (t1 <- add t (timedelta_new 1 0 0 0 0) ;;
                 autointerviewbot.while_weekend t1)%result
      else Ok t).
  { intros [] H;
      [ rewrite autointerviewbot.while_weekend_clause_1_equation_1; apply G2
      | rewrite autointerviewbot.while_weekend_clause_1_equation_2; reflexivity ]. }
  apply G1.
Qed.

Section RangeLoop.
Context {World : Type}.
Local Open Scope world_scope.

Lemma while_in_range_eq (service : Service World) current candidate_end :
  textbasedbot.while_in_range service current candidate_end =
  match add current (timedelta_new 0 1 0 0 0) with
  | Raise e => lift (Raise e)
  | Ok next =>
      if leb next candidate_end then
        free <- textbasedbot.is_slot_free_for_both service
                  textbasedbot.RECRUITER_EMAIL textbasedbot.CANDIDATE_EMAIL
                  current next ;;
        if free then ret (Some (current, next))
        else textbasedbot.while_in_range service next candidate_end
      else ret None
  end.
Proof.
  rewrite textbasedbot.while_in_range_equation_1. unfold inspect.
  assert (G2 : forall next Hnext b (H : leb next candidate_end = b),
    textbasedbot.while_in_range_unfold_clause_1_clause_2 service current
      next Hnext candidate_end (exist _ b H)
    = if b then
        free <- textbasedbot.is_slot_free_for_both service
                  textbasedbot.RECRUITER_EMAIL textbasedbot.CANDIDATE_EMAIL
                  current next ;;
        if free then ret (Some (current, next))
        else textbasedbot.while_in_range service next candidate_end
      else ret None).
  { intros next Hnext [] H;
      [ rewrite textbasedbot.while_in_range_clause_1_clause_2_equation_1
      | rewrite textbasedbot.while_in_range_clause_1_clause_2_equation_2 ];
      reflexivity. }
  assert (G1 : forall r (H : add current (timedelta_new 0 1 0 0 0) = r),
    textbasedbot.while_in_range_unfold_clause_1 service current
      (exist _ r H) candidate_end
    = match r with
      | Raise e => lift (Raise e)
      | Ok next =>
          if leb next candidate_end then
            free <- textbasedbot.is_slot_free_for_both service
                      textbasedbot.RECRUITER_EMAIL textbasedbot.CANDIDATE_EMAIL
                      current next ;;
            if free then ret (Some (current, next))
            else textbasedbot.while_in_range service next candidate_end
          else ret None
      end).
  { intros [next|e] H;
      [ rewrite textbasedbot.while_in_range_clause_1_equation_1; apply G2
      | rewrite textbasedbot.while_in_range_clause_1_equation_2; reflexivity ]. }
  apply G1.
Qed.
End RangeLoop.

(** *** Datetimes by ordinal and time of day *)

Lemma to_us_split t : to_us t = toordinal t * US_PER_DAY + tod t.
Proof. unfold to_us, tod, US_PER_DAY. ring. Qed.

Lemma tod_range t : valid t = true -> 0 <= tod t < US_PER_DAY.
Proof. intros H. apply valid_iff in H. unfold tod, US_PER_DAY. lia. Qed.

Lemma toordinal_range t : valid t = true -> 1 <= toordinal t <= _MAXORDINAL.
Proof.
  intros H. apply valid_iff in H. destruct H as [H _]. now apply ymd2ord_bounds.
Qed.

Lemma hour_of_tod t : valid t = true -> hour t = tod t / US_PER_HOUR.
Proof.
  intros H. apply valid_iff in H. unfold tod, US_PER_HOUR.
  Z.to_euclidean_division_equations; lia.
Qed.

Lemma datetime_ext a b : valid a = true -> valid b = true ->
  toordinal a = toordinal b -> tod a = tod b -> a = b.
Proof.
  intros Va Vb Ho Ht. apply to_us_inj; auto. rewrite !to_us_split. congruence.
Qed.

Lemma ordinal_tod_of_us t o r : valid t = true ->
  to_us t = o * US_PER_DAY + r -> 0 <= r < US_PER_DAY -> toordinal t = o /\ tod t = r.
Proof.
  intros V E R. pose proof (tod_range t V). rewrite to_us_split in E.
  unfold US_PER_DAY in *. lia.
Qed.

Lemma day_at_nine_spec o : 1 <= o <= _MAXORDINAL ->
  valid (day_at_nine o) = true /\ toordinal (day_at_nine o) = o
  /\ tod (day_at_nine o) = 9 * US_PER_HOUR.
Proof.
  intros H. pose proof (ord2ymd_spec o ltac:(lia)) as S. unfold day_at_nine.
  destruct (_ord2ymd o) as [[y m] d]. destruct S as (Hy & Hmax & Hm & Hd & E).
  split; [|split; [exact E | reflexivity]].
  apply valid_iff. split; [|cbn; lia].
  apply date_ok_iff. cbn. unfold MAXYEAR in Hmax. lia.
Qed.

Lemma add_day_spec t : valid t = true ->
  if toordinal t + 1 <=? _MAXORDINAL then
    exists t', add t (timedelta_new 1 0 0 0 0) = Ok t' /\ valid t' = true
               /\ toordinal t' = toordinal t + 1 /\ tod t' = tod t
  else add t (timedelta_new 1 0 0 0 0) = Raise OverflowError.
Proof.
  intros V. pose proof (add_spec t (timedelta_new 1 0 0 0 0)) as S. cbv zeta in S.
  rewrite td_total_new in S.
  pose proof (tod_range t V) as R. pose proof (toordinal_range t V) as Ro.
  rewrite to_us_split in S. unfold US_PER_DAY, _MAXORDINAL in *.
  destruct (toordinal t + 1 <=? 3652059) eqn:L;
    [apply Z.leb_le in L | apply Z.leb_gt in L].
  - destruct (_ && _) eqn:C in S.
    + destruct S as (t' & E & V' & U). exists t'. split; [exact E|]. split; [exact V'|].
      apply (ordinal_tod_of_us t' (toordinal t + 1) (tod t) V');
        unfold US_PER_DAY; lia.
    + apply andb_false_iff in C. rewrite Z.leb_gt, Z.ltb_ge in C. lia.
  - destruct (_ && _) eqn:C in S; [|exact S].
    apply andb_true_iff in C. rewrite Z.leb_le, Z.ltb_lt in C. lia.
Qed.

Lemma replace_nine_spec t : valid t = true ->
  replace_time t 9 0 0 0 = Ok (day_at_nine (toordinal t)).
Proof.
  intros V. unfold replace_time, new.
  pose proof (toordinal_range t V) as Ro.
  destruct (day_at_nine_spec (toordinal t) Ro) as (V9 & O9 & T9).
  pose proof V as V'. apply valid_iff in V'. destruct V' as [D _].
  rewrite D. change (_check_time_fields 9 0 0 0) with true. cbn [andb]. f_equal.
  apply datetime_ext; auto.
  apply valid_iff. split; [exact D|cbn; lia].
Qed.

Lemma weekday_day_at_nine o : 1 <= o <= _MAXORDINAL ->
  weekday (day_at_nine o) = (o + 6) mod 7.
Proof.
  intros H. destruct (day_at_nine_spec o H) as (_ & O & _). unfold weekday. now rewrite O.
Qed.

Lemma while_weekend_reset_none t :
  (5 <=? weekday t) = false -> autointerviewbot.while_weekend_reset t = Ok t.
Proof. intros H. rewrite while_weekend_reset_eq, H. reflexivity. Qed.

Lemma while_weekend_none t :
  (5 <=? weekday t) = false -> autointerviewbot.while_weekend t = Ok t.
Proof. intros H. rewrite while_weekend_eq, H. reflexivity. Qed.

(** The last day of year 9999 is a Friday: a weekend day has a Monday
    after it. *)
Lemma weekend_room t : valid t = true -> 5 <= weekday t ->
  toordinal t + (7 - weekday t) <= _MAXORDINAL.
Proof.
  intros V H. pose proof (toordinal_range t V). unfold weekday, _MAXORDINAL in *.
  Z.to_euclidean_division_equations; lia.
Qed.

Lemma while_weekend_reset_spec t : valid t = true ->
  autointerviewbot.while_weekend_reset t =
  if 5 <=? weekday t then Ok (day_at_nine (toordinal t + (7 - weekday t))) else Ok t.
Proof.
  intros V. destruct (5 <=? weekday t) eqn:W; [|now apply while_weekend_reset_none].
  apply Z.leb_le in W. pose proof (weekend_room t V W) as Room.
  pose proof (toordinal_range t V) as Ro. pose proof (weekday_range t) as Rw.
  assert (Step : forall a, valid a = true -> 5 <= weekday a ->
            toordinal a + 1 <= _MAXORDINAL ->
            autointerviewbot.while_weekend_reset a
            = autointerviewbot.while_weekend_reset (day_at_nine (toordinal a + 1))).
  { intros a Va Wa La. rewrite while_weekend_reset_eq.
    replace (5 <=? weekday a) with true by (symmetry; now apply Z.leb_le).
    pose proof (add_day_spec a Va) as A.
    replace (toordinal a + 1 <=? _MAXORDINAL) with true in A
      by (symmetry; now apply Z.leb_le).
    destruct A as (a1 & -> & V1 & O1 & _). cbn [rbind].
    rewrite (replace_nine_spec a1 V1), O1. reflexivity. }
  assert (Cases : weekday t = 5 \/ weekday t = 6) by lia.
  rewrite (Step t V W ltac:(lia)).
  assert (R1 : 1 <= toordinal t + 1 <= _MAXORDINAL) by lia.
  destruct (day_at_nine_spec _ R1) as (V1 & O1 & T1).
  pose proof (weekday_day_at_nine _ R1) as W1.
  destruct Cases as [C|C].
  - assert (W1' : weekday (day_at_nine (toordinal t + 1)) = 6).
    { rewrite W1. unfold weekday in C. Z.to_euclidean_division_equations; lia. }
    rewrite (Step _ V1 ltac:(lia) ltac:(lia)). rewrite O1.
    assert (R2 : 1 <= toordinal t + 1 + 1 <= _MAXORDINAL) by lia.
    pose proof (weekday_day_at_nine _ R2) as W2.
    rewrite while_weekend_reset_none.
    + do 2 f_equal. lia.
    + apply Z.leb_gt. rewrite W2. unfold weekday in C.
      Z.to_euclidean_division_equations; lia.
  - rewrite while_weekend_reset_none.
    + do 2 f_equal. lia.
    + apply Z.leb_gt. rewrite W1. unfold weekday in C.
      Z.to_euclidean_division_equations; lia.
Qed.

Lemma while_weekend_spec t : valid t = true ->
  exists t', autointerviewbot.while_weekend t = Ok t' /\ valid t' = true
    /\ toordinal t' = toordinal t + (if 5 <=? weekday t then 7 - weekday t else 0)
    /\ tod t' = tod t.
Proof.
  intros V. destruct (5 <=? weekday t) eqn:W.
  2:{ exists t. rewrite (while_weekend_none t W). repeat split; auto; lia. }
  apply Z.leb_le in W. pose proof (weekend_room t V W) as Room.
  pose proof (toordinal_range t V) as Ro. pose proof (weekday_range t) as Rw.
  assert (Step : forall a, valid a = true -> 5 <= weekday a ->
            toordinal a + 1 <= _MAXORDINAL ->
            exists a1, autointerviewbot.while_weekend a = autointerviewbot.while_weekend a1
              /\ valid a1 = true /\ toordinal a1 = toordinal a + 1 /\ tod a1 = tod a).
  { intros a Va Wa La. rewrite while_weekend_eq.
    replace (5 <=? weekday a) with true by (symmetry; now apply Z.leb_le).
    pose proof (add_day_spec a Va) as A.
    replace (toordinal a + 1 <=? _MAXORDINAL) with true in A
      by (symmetry; now apply Z.leb_le).
    destruct A as (a1 & -> & V1 & O1 & T1). exists a1. cbn [rbind]. auto. }
  assert (Cases : weekday t = 5 \/ weekday t = 6) by lia.
  destruct (Step t V W ltac:(lia)) as (t1 & E1 & V1 & O1 & T1).
  rewrite E1.
  destruct Cases as [C|C].
  - assert (W1 : weekday t1 = 6).
    { unfold weekday in *. rewrite O1. Z.to_euclidean_division_equations; lia. }
    destruct (Step t1 V1 ltac:(lia) ltac:(lia)) as (t2 & E2 & V2 & O2 & T2).
    rewrite E2. exists t2. rewrite while_weekend_none.
    + repeat split; auto; lia.
    + apply Z.leb_gt. unfold weekday in *. rewrite O2, O1.
      Z.to_euclidean_division_equations; lia.
  - exists t1. rewrite while_weekend_none.
    + repeat split; auto; lia.
    + apply Z.leb_gt. unfold weekday in *. rewrite O1.
      Z.to_euclidean_division_equations; lia.
Qed.

(** *** [clamp_to_working_hours] in closed form *)

Lemma hour_day_at_nine o : hour (day_at_nine o) = 9.
Proof. unfold day_at_nine. destruct (_ord2ymd o) as [[y m] d]. reflexivity. Qed.

Lemma clamp_to_working_hours_closed t : valid t = true ->
  autointerviewbot.clamp_to_working_hours t =
  if in_working_hours t then Ok t
  else if toordinal t + days_to_open t <=? _MAXORDINAL
       then Ok (day_at_nine (toordinal t + days_to_open t))
       else Raise OverflowError.
Proof.
  intros V. unfold autointerviewbot.clamp_to_working_hours, in_working_hours, days_to_open.
  rewrite (while_weekend_reset_spec t V).
  pose proof (toordinal_range t V) as Ro. pose proof (weekday_range t) as Rw.
  destruct (5 <=? weekday t) eqn:W.
  - apply Z.leb_le in W. pose proof (weekend_room t V W) as Room.
    cbn [rbind]. rewrite hour_day_at_nine. cbn [Z.ltb Z.leb Z.compare Pos.compare Pos.compare_cont].
    replace (weekday t <? 5) with false by (symmetry; apply Z.ltb_ge; lia).
    cbn [andb].
    replace (toordinal t + (7 - weekday t) <=? _MAXORDINAL) with true
      by (symmetry; apply Z.leb_le; lia).
    reflexivity.
  - apply Z.leb_gt in W. cbn [rbind].
    replace (weekday t <? 5) with true by (symmetry; apply Z.ltb_lt; lia).
    cbn [andb].
    destruct (hour t <? 9) eqn:H9.
    + apply Z.ltb_lt in H9.
      replace (9 <=? hour t) with false by (symmetry; apply Z.leb_gt; lia).
      cbn [andb]. rewrite Z.add_0_r.
      replace (toordinal t <=? _MAXORDINAL) with true by (symmetry; apply Z.leb_le; lia).
      apply replace_nine_spec; assumption.
    + apply Z.ltb_ge in H9.
      replace (9 <=? hour t) with true by (symmetry; apply Z.leb_le; lia).
      cbn [andb].
      destruct (19 <=? hour t) eqn:H19.
      * apply Z.leb_le in H19.
        replace (hour t <? 19) with false by (symmetry; apply Z.ltb_ge; lia).
        pose proof (add_day_spec t V) as A.
        assert (Fri : weekday t = 4 -> toordinal t + 1 <= _MAXORDINAL ->
                      toordinal t + 3 <= _MAXORDINAL).
        { unfold weekday, _MAXORDINAL in *. Z.to_euclidean_division_equations; lia. }
        assert (Last : toordinal t = _MAXORDINAL -> weekday t = 4).
        { unfold weekday. intros ->. reflexivity. }
        destruct (toordinal t + 1 <=? _MAXORDINAL) eqn:L;
          [apply Z.leb_le in L | apply Z.leb_gt in L].
        -- destruct A as (t1 & -> & V1 & O1 & T1). cbn [rbind].
           destruct (while_weekend_spec t1 V1) as (t2 & -> & V2 & O2 & T2). cbn [rbind].
           rewrite (replace_nine_spec t2 V2).
           assert (W1 : weekday t1 = (weekday t + 1) mod 7).
           { unfold weekday. rewrite O1. Z.to_euclidean_division_equations; lia. }
           destruct (weekday t =? 4) eqn:F; [apply Z.eqb_eq in F | apply Z.eqb_neq in F].
           ++ replace (toordinal t + 3 <=? _MAXORDINAL) with true
                by (symmetry; apply Z.leb_le; auto).
              do 2 f_equal. rewrite O2, O1, W1, F.
              change ((4 + 1) mod 7) with 5. change (5 <=? 5) with true. cbv iota. lia.
           ++ replace (toordinal t + 1 <=? _MAXORDINAL) with true
                by (symmetry; apply Z.leb_le; auto).
              do 2 f_equal. rewrite O2, O1, W1.
              replace (5 <=? (weekday t + 1) mod 7) with false; [lia|].
              symmetry. apply Z.leb_gt. Z.to_euclidean_division_equations; lia.
        -- rewrite A. cbn [rbind].
           assert (toordinal t = _MAXORDINAL) by lia.
           rewrite (Last ltac:(assumption)). change (4 =? 4) with true. cbv iota.
           replace (toordinal t + 3 <=? _MAXORDINAL) with false
             by (symmetry; apply Z.leb_gt; lia).
           reflexivity.
      * apply Z.leb_gt in H19.
        replace (hour t <? 19) with true by (symmetry; apply Z.ltb_lt; lia).
        reflexivity.
Qed.

Lemma days_to_open_weekday t : valid t = true -> in_working_hours t = false ->
  toordinal t + days_to_open t <= _MAXORDINAL ->
  (toordinal t + days_to_open t + 6) mod 7 < 5
  /\ 1 <= toordinal t + days_to_open t <= _MAXORDINAL
  /\ 0 <= days_to_open t <= 3
  /\ (days_to_open t = 0 -> hour t < 9)
  /\ (days_to_open t = 3 -> 19 <= hour t).
Proof.
  intros V Hw L. pose proof (toordinal_range t V) as Ro.
  pose proof (weekday_range t) as Rw.
  unfold in_working_hours, days_to_open in *.
  destruct (5 <=? weekday t) eqn:W; [apply Z.leb_le in W | apply Z.leb_gt in W].
  - unfold weekday in *. Z.to_euclidean_division_equations; lia.
  - replace (weekday t <? 5) with true in Hw by (symmetry; apply Z.ltb_lt; lia).
    cbn [andb] in Hw.
    destruct (hour t <? 9) eqn:H9; [apply Z.ltb_lt in H9 | apply Z.ltb_ge in H9].
    + unfold weekday in *. Z.to_euclidean_division_equations; lia.
    + replace (9 <=? hour t) with true in Hw by (symmetry; apply Z.leb_le; lia).
      cbn [andb] in Hw. apply Z.ltb_ge in Hw.
      destruct (weekday t =? 4) eqn:F; [apply Z.eqb_eq in F | apply Z.eqb_neq in F];
        unfold weekday in *; Z.to_euclidean_division_equations; lia.
Qed.

Lemma in_working_hours_day_at_nine o : 1 <= o <= _MAXORDINAL -> (o + 6) mod 7 < 5 ->
  in_working_hours (day_at_nine o) = true.
Proof.
  intros R W. unfold in_working_hours. rewrite hour_day_at_nine, (weekday_day_at_nine o R).
  apply andb_true_iff. split; [|reflexivity].
  apply andb_true_iff. split; [|reflexivity]. now apply Z.ltb_lt.
Qed.

(** C3. For every datetime [t], [clamp_to_working_hours t] is the case
    split of the specification: on a Saturday or Sunday the weekend loop
    (a day later at 09:00, repeated); else before 09:00 the same day at
    09:00; else from 19:00 on the next day at 09:00 and the weekend loop
    again; else [t] itself. Both sides raise on the same inputs. *)
Theorem clamp_to_working_hours_case_split t : valid t = true ->
  autointerviewbot.clamp_to_working_hours t = clampToWorkingHours_spec t.
Proof.
  intros V. rewrite (clamp_to_working_hours_closed t V).
  unfold clampToWorkingHours_spec, in_working_hours, days_to_open.
  pose proof (toordinal_range t V) as Ro. pose proof (weekday_range t) as Rw.
  destruct (5 <=? weekday t) eqn:W; [apply Z.leb_le in W | apply Z.leb_gt in W].
  - replace ((weekday t =? 5) || (weekday t =? 6)) with true
      by (symmetry; apply orb_true_iff; rewrite !Z.eqb_eq; lia).
    replace (weekday t <? 5) with false by (symmetry; apply Z.ltb_ge; lia).
    cbn [andb]. rewrite (while_weekend_reset_spec t V).
    replace (5 <=? weekday t) with true by (symmetry; apply Z.leb_le; lia).
    pose proof (weekend_room t V W).
    replace (toordinal t + (7 - weekday t) <=? _MAXORDINAL) with true
      by (symmetry; apply Z.leb_le; lia).
    reflexivity.
  - replace ((weekday t =? 5) || (weekday t =? 6)) with false
      by (symmetry; apply orb_false_iff; rewrite !Z.eqb_neq; lia).
    replace (weekday t <? 5) with true by (symmetry; apply Z.ltb_lt; lia).
    cbn [andb].
    destruct (hour t <? 9) eqn:H9; [apply Z.ltb_lt in H9 | apply Z.ltb_ge in H9].
    + replace (9 <=? hour t) with false by (symmetry; apply Z.leb_gt; lia).
      cbn [andb]. rewrite Z.add_0_r.
      replace (toordinal t <=? _MAXORDINAL) with true by (symmetry; apply Z.leb_le; lia).
      symmetry. now apply replace_nine_spec.
    + replace (9 <=? hour t) with true by (symmetry; apply Z.leb_le; lia).
      cbn [andb].
      destruct (19 <=? hour t) eqn:H19; [apply Z.leb_le in H19 | apply Z.leb_gt in H19].
      * replace (hour t <? 19) with false by (symmetry; apply Z.ltb_ge; lia).
        pose proof (add_day_spec t V) as A.
        destruct (toordinal t + 1 <=? _MAXORDINAL) eqn:L;
          [apply Z.leb_le in L | apply Z.leb_gt in L].
        -- destruct A as (t1 & -> & V1 & O1 & T1). cbn [rbind].
           rewrite (replace_nine_spec t1 V1), O1. cbn [rbind].
           assert (R1 : 1 <= toordinal t + 1 <= _MAXORDINAL) by lia.
           destruct (day_at_nine_spec _ R1) as (V9 & O9 & T9).
           rewrite (while_weekend_reset_spec _ V9), O9, (weekday_day_at_nine _ R1).
           destruct (weekday t =? 4) eqn:F; [apply Z.eqb_eq in F | apply Z.eqb_neq in F].
           ++ assert (E : (toordinal t + 1 + 6) mod 7 = 5)
                by (unfold weekday in F; Z.to_euclidean_division_equations; lia).
              rewrite E. change (5 <=? 5) with true. cbv iota.
              assert (toordinal t + 3 <= _MAXORDINAL).
              { unfold weekday, _MAXORDINAL in *. Z.to_euclidean_division_equations; lia. }
              replace (toordinal t + 3 <=? _MAXORDINAL) with true
                by (symmetry; apply Z.leb_le; lia).
              do 2 f_equal. lia.
           ++ replace (5 <=? (toordinal t + 1 + 6) mod 7) with false.
              ** replace (toordinal t + 1 <=? _MAXORDINAL) with true
                   by (symmetry; apply Z.leb_le; lia).
                 reflexivity.
              ** symmetry. apply Z.leb_gt. unfold weekday in *.
                 Z.to_euclidean_division_equations; lia.
        -- rewrite A. cbn [rbind].
           assert (F : weekday t = 4).
           { unfold weekday. replace (toordinal t) with _MAXORDINAL by lia. reflexivity. }
           rewrite F. change (4 =? 4) with true. cbv iota.
           replace (toordinal t + 3 <=? _MAXORDINAL) with false
             by (symmetry; apply Z.leb_gt; lia).
           reflexivity.
      * replace (hour t <? 19) with true by (symmetry; apply Z.ltb_lt; lia).
        reflexivity.
Qed.

(** C8. [clamp_to_working_hours] is idempotent: clamping the clamped
    value changes nothing (and where the first clamp raises, so does the
    composition); a datetime already in working hours is returned as it
    is. *)
Theorem clamp_to_working_hours_idempotent t : valid t = true ->
  rbind (autointerviewbot.clamp_to_working_hours t) autointerviewbot.clamp_to_working_hours
  = autointerviewbot.clamp_to_working_hours t
  /\ (in_working_hours t = true -> autointerviewbot.clamp_to_working_hours t = Ok t).
Proof.
  intros V. rewrite (clamp_to_working_hours_closed t V).
  destruct (in_working_hours t) eqn:Hw.
  - split; [|reflexivity]. cbn [rbind].
    rewrite (clamp_to_working_hours_closed t V), Hw. reflexivity.
  - split; [|discriminate].
    destruct (toordinal t + days_to_open t <=? _MAXORDINAL) eqn:L; [|reflexivity].
    apply Z.leb_le in L. cbn [rbind].
    destruct (days_to_open_weekday t V Hw L) as (Wd & R & _).
    destruct (day_at_nine_spec _ R) as (V9 & _).
    rewrite (clamp_to_working_hours_closed _ V9).
    rewrite (in_working_hours_day_at_nine _ R Wd). reflexivity.
Qed.

(** The clamp moves forward, by at most three days, into working hours;
    it raises only from 19:00 on of the last day of year 9999. *)
Lemma clamp_to_working_hours_forward t : valid t = true ->
  match autointerviewbot.clamp_to_working_hours t with
  | Ok t' => valid t' = true /\ leb t t' = true /\ in_working_hours t' = true
             /\ to_us t' <= to_us t + 3 * US_PER_DAY
  | Raise e => e = OverflowError /\ toordinal t = _MAXORDINAL /\ 19 <= hour t
  end.
Proof.
  intros V. rewrite (clamp_to_working_hours_closed t V).
  pose proof (tod_range t V) as Rt. pose proof (toordinal_range t V) as Ro.
  destruct (in_working_hours t) eqn:Hw.
  - repeat split; auto; [rewrite (leb_to_us t t V V); apply Z.leb_le|unfold US_PER_DAY]; lia.
  - destruct (toordinal t + days_to_open t <=? _MAXORDINAL) eqn:L;
      [apply Z.leb_le in L | apply Z.leb_gt in L].
    + destruct (days_to_open_weekday t V Hw L) as (Wd & R & D0 & D9 & D19).
      destruct (day_at_nine_spec _ R) as (V9 & O9 & T9).
      split; [exact V9|].
      rewrite (leb_to_us _ _ V V9), (in_working_hours_day_at_nine _ R Wd).
      rewrite (to_us_split (day_at_nine _)), O9, T9, (to_us_split t).
      pose proof (hour_of_tod t V) as Hh.
      split; [|split; [reflexivity|]]; [apply Z.leb_le|];
      unfold US_PER_DAY, US_PER_HOUR in *.
      * destruct (Z.eq_dec (days_to_open t) 0) as [E|N].
        -- specialize (D9 E). rewrite E. Z.to_euclidean_division_equations; lia.
        -- nia.
      * destruct (Z.eq_dec (days_to_open t) 3) as [E|N].
        -- specialize (D19 E). rewrite E. Z.to_euclidean_division_equations; lia.
        -- nia.
    + split; [reflexivity|].
      unfold in_working_hours, days_to_open in *. pose proof (weekday_range t) as Rw.
      destruct (5 <=? weekday t) eqn:W; [apply Z.leb_le in W | apply Z.leb_gt in W].
      * pose proof (weekend_room t V W). lia.
      * replace (weekday t <? 5) with true in Hw by (symmetry; apply Z.ltb_lt; lia).
        cbn [andb] in Hw.
        destruct (hour t <? 9) eqn:H9; [lia|]. apply Z.ltb_ge in H9.
        replace (9 <=? hour t) with true in Hw by (symmetry; apply Z.leb_le; lia).
        cbn [andb] in Hw. apply Z.ltb_ge in Hw.
        destruct (weekday t =? 4) eqn:F; [apply Z.eqb_eq in F | apply Z.eqb_neq in F].
        -- unfold weekday, _MAXORDINAL in *. split; [|lia].
           Z.to_euclidean_division_equations; lia.
        -- split; lia.
Qed.

(** *** [clamp_to_future_2025] *)

Lemma days_in_month_2025 y m : 1 <= m <= 12 ->
  _days_in_month 2025 m = if m =? 2 then 28 else _days_in_month y m.
Proof.
  intros H. apply month_cases in H.
  repeat (destruct H as [-> | H]); try subst m; reflexivity.
Qed.

Lemma days_in_feb y : _days_in_month y 2 <= 29.
Proof. unfold _days_in_month. destruct (_is_leap y); vm_compute; discriminate. Qed.

Lemma new_2025 t : valid t = true ->
  new 2025 (month t) (day t) (hour t) (minute t) (second t) (microsecond t)
  = if is_feb29 t then Raise ValueError else Ok (with_year t 2025).
Proof.
  intros V. unfold new, is_feb29. pose proof V as V'. unfold valid in V'.
  apply andb_true_iff in V'. destruct V' as [D T]. rewrite T, andb_true_r.
  apply date_ok_iff in D. destruct D as (Hy & Hm & Hd).
  pose proof (days_in_month_2025 (year t) (month t) Hm) as E.
  pose proof (days_in_feb (year t)) as F.
  destruct (month t =? 2) eqn:M2; [apply Z.eqb_eq in M2 | apply Z.eqb_neq in M2].
  - cbn [andb]. rewrite M2 in Hd.
    destruct (day t =? 29) eqn:D29; [apply Z.eqb_eq in D29 | apply Z.eqb_neq in D29].
    + replace (_check_date_fields 2025 (month t) (day t)) with false; [reflexivity|].
      symmetry. rewrite D29, M2. reflexivity.
    + replace (_check_date_fields 2025 (month t) (day t)) with true; [reflexivity|].
      symmetry. apply date_ok_iff. rewrite E. lia.
  - cbn [andb].
    replace (_check_date_fields 2025 (month t) (day t)) with true; [reflexivity|].
    symmetry. apply date_ok_iff. rewrite E. lia.
Qed.

Lemma valid_with_year_2025 t : valid t = true -> is_feb29 t = false ->
  valid (with_year t 2025) = true.
Proof.
  intros V F. pose proof (new_2025 t V) as N. rewrite F in N.
  apply new_ok in N. tauto.
Qed.

Section Future.
Context {World : Type}.
Variable utcnow : World -> datetime * World.

Lemma get_now_ist_valid w now w' :
  autointerviewbot.get_now_ist utcnow w = (Ok now, w') -> valid now = true.
Proof.
  unfold autointerviewbot.get_now_ist. destruct (utcnow w) as [u w1].
  intros [= H _]. apply add_ok in H. tauto.
Qed.

Lemma clamp_to_future_2025_closed t w now w' :
  valid t = true -> autointerviewbot.get_now_ist utcnow w = (Ok now, w') ->
  autointerviewbot.clamp_to_future_2025 utcnow t w =
  if (year t <? 2025) && is_feb29 t then (Raise ValueError, w')
  else if is_feb29 now then (Raise ValueError, w')
  else
    let t1 := if year t <? 2025 then with_year t 2025 else t in
    (Ok (if ltb t1 (floor_2025 now) then floor_2025 now else t1), w').
Proof.
  intros V N. pose proof (get_now_ist_valid w now w' N) as Vn.
  unfold autointerviewbot.clamp_to_future_2025, bind, lift, ret. rewrite N.
  destruct (year t <? 2025) eqn:Y.
  - unfold replace_year. rewrite (new_2025 t V).
    destruct (is_feb29 t); cbn [andb]; [reflexivity|].
    rewrite (new_2025 now Vn). destruct (is_feb29 now); reflexivity.
  - cbn [andb]. rewrite (new_2025 now Vn). destruct (is_feb29 now); reflexivity.
Qed.


Lemma leb_refl t : leb t t = true.
Proof.
  unfold leb. assert (E : forall l, _cmp l l = Eq).
  { induction l as [|a l IH]; [reflexivity|]. cbn [_cmp]. now rewrite Z.compare_refl. }
  now rewrite E.
Qed.

Lemma leb_year a b : year a < year b -> leb a b = true.
Proof.
  intros H. unfold leb, fields. cbn [_cmp].
  apply Z.compare_lt_iff in H. now rewrite H.
Qed.

Lemma year_is_2025_range t : valid t = true -> year t = 2025 ->
  739252 * US_PER_DAY <= to_us t < 739617 * US_PER_DAY.
Proof.
  intros V Y. pose proof (tod_range t V) as R. rewrite to_us_split.
  pose proof V as V'. apply valid_iff in V'. destruct V' as [D _].
  pose proof (ymd2ord_range _ _ _ D) as O. fold (toordinal t) in O. rewrite Y in O.
  change (_days_before_year 2025) with 739251 in O.
  change (_days_before_year (2025 + 1)) with 739616 in O.
  unfold US_PER_DAY in *. lia.
Qed.

Lemma year_ge_2025_from t : valid t = true -> 2025 <= year t ->
  739252 * US_PER_DAY <= to_us t.
Proof.
  intros V Y. pose proof (tod_range t V) as R. rewrite to_us_split.
  pose proof V as V'. apply valid_iff in V'. destruct V' as [D _].
  pose proof (ymd2ord_range _ _ _ D) as O. fold (toordinal t) in O.
  pose proof (dby_mono 2025 (year t) Y) as Mn.
  change (_days_before_year 2025) with 739251 in Mn.
  unfold US_PER_DAY in *. lia.
Qed.

(** What [clamp_to_future_2025] returns when neither date is a 29th of
    February out of place. *)
Lemma clamp_to_future_2025_ok t w now w' :
  valid t = true -> autointerviewbot.get_now_ist utcnow w = (Ok now, w') ->
  (year t <? 2025) && is_feb29 t = false -> is_feb29 now = false ->
  exists t', autointerviewbot.clamp_to_future_2025 utcnow t w = (Ok t', w')
    /\ t' = (let t1 := if year t <? 2025 then with_year t 2025 else t in
             if ltb t1 (floor_2025 now) then floor_2025 now else t1)
    /\ valid t' = true /\ 2025 <= year t'
    /\ leb (floor_2025 now) t' = true /\ leb t t' = true
    /\ to_us t' <= Z.max (to_us t) (739617 * US_PER_DAY).
Proof.
  intros V N Ft Fn. pose proof (get_now_ist_valid w now w' N) as Vn.
  rewrite (clamp_to_future_2025_closed t w now w' V N), Ft, Fn. cbv zeta.
  eexists. split; [reflexivity|]. split; [reflexivity|].
  pose proof (valid_with_year_2025 now Vn Fn) as Vf. fold (floor_2025 now) in Vf.
  assert (Yf : year (floor_2025 now) = 2025) by reflexivity.
  pose proof (year_is_2025_range _ Vf Yf) as Rf.
  set (t1 := if year t <? 2025 then with_year t 2025 else t).
  assert (H1 : valid t1 = true /\ 2025 <= year t1 /\ leb t t1 = true
               /\ to_us t1 <= Z.max (to_us t) (739617 * US_PER_DAY)).
  { subst t1. destruct (year t <? 2025) eqn:Y.
    - cbn [andb] in Ft. pose proof (valid_with_year_2025 t V Ft) as V1.
      apply Z.ltb_lt in Y.
      pose proof (year_is_2025_range _ V1 eq_refl).
      splits; [exact V1 | cbn; lia | apply leb_year; cbn; lia | lia].
    - apply Z.ltb_ge in Y. splits; [exact V | lia | apply leb_refl | lia]. }
  destruct H1 as (V1 & Y1 & L1 & U1).
  rewrite (ltb_to_us _ _ V1 Vf).
  rewrite (leb_to_us _ _ V V1) in L1. apply Z.leb_le in L1.
  destruct (to_us t1 <? to_us (floor_2025 now)) eqn:C;
    [apply Z.ltb_lt in C | apply Z.ltb_ge in C].
  - splits; [exact Vf | lia | apply leb_refl | | lia].
    rewrite (leb_to_us _ _ V Vf). apply Z.leb_le. lia.
  - splits; [exact V1 | exact Y1 | | | exact U1].
    + rewrite (leb_to_us _ _ Vf V1). now apply Z.leb_le.
    + rewrite (leb_to_us _ _ V V1). now apply Z.leb_le.
Qed.

(** C4. With [t] and the clock off a misplaced 29th of February,
    [clamp_to_future_2025] forces the year of [t] to 2025 when it is
    lower, takes as floor the current moment with its year replaced by
    2025, and returns the floor when [t] is earlier: the result is never
    earlier than the floor. *)
Theorem clamp_to_future_2025_floor t w now w' :
  valid t = true -> autointerviewbot.get_now_ist utcnow w = (Ok now, w') ->
  (year t <? 2025) && is_feb29 t = false -> is_feb29 now = false ->
  let t1 := if year t <? 2025 then with_year t 2025 else t in
  let floor := floor_2025 now in
  autointerviewbot.clamp_to_future_2025 utcnow t w
  = (Ok (if ltb t1 floor then floor else t1), w')
  /\ leb floor (if ltb t1 floor then floor else t1) = true.
Proof.
  intros V N Ft Fn.
  destruct (clamp_to_future_2025_ok t w now w' V N Ft Fn)
    as (t' & E & -> & _ & _ & L & _).
  cbv zeta in *. split; assumption.
Qed.

(** C10. [clamp_to_future_2025] is not total: it raises [ValueError]
    exactly when [t] is a 29th of February of a year before 2025, or the
    current date is a 29th of February; for every other input it
    returns. *)
Theorem clamp_to_future_2025_not_total t w now w' :
  valid t = true -> autointerviewbot.get_now_ist utcnow w = (Ok now, w') ->
  if ((year t <? 2025) && is_feb29 t) || is_feb29 now
  then autointerviewbot.clamp_to_future_2025 utcnow t w = (Raise ValueError, w')
  else exists t', autointerviewbot.clamp_to_future_2025 utcnow t w = (Ok t', w').
Proof.
  intros V N. rewrite (clamp_to_future_2025_closed t w now w' V N).
  destruct ((year t <? 2025) && is_feb29 t); cbn [orb]; [reflexivity|].
  destruct (is_feb29 now); [reflexivity|]. eexists. reflexivity.
Qed.

End Future.

(** *** The seed-time search *)

Section Search.
Context {World : Type}.
Variable utcnow : World -> datetime * World.
Variable service : Service World.

#[local] Abbreviation clamp_to_future_2025 :=
  (autointerviewbot.clamp_to_future_2025 utcnow).
#[local] Abbreviation get_now_ist := (autointerviewbot.get_now_ist utcnow).
#[local] Abbreviation is_slot_free :=
  (autointerviewbot.is_slot_free_for_both service
     autointerviewbot.RECRUITER_EMAIL autointerviewbot.CANDIDATE_EMAIL).
#[local] Abbreviation while_attempts :=
  (autointerviewbot.while_attempts utcnow service).
#[local] Abbreviation find_first_free_slot :=
  (autointerviewbot.find_first_free_slot utcnow service).

Lemma while_attempts_round n current w :
  while_attempts (S n) current w =
  match round utcnow service current w with
  | (Found slot, w') => (Ok (Some slot), w')
  | (Busy next, w') => while_attempts n next w'
  | (Failed e, w') => (Raise e, w')
  end.
Proof.
  cbn [autointerviewbot.while_attempts]. unfold round, bind, lift, ret.
  destruct (clamp_to_future_2025 current w) as [[c1|e] w1]; [|reflexivity].
  destruct (autointerviewbot.clamp_to_working_hours c1) as [c2|e]; [|reflexivity].
  destruct (add c2 (timedelta_new 0 1 0 0 0)) as [e2|e]; [|reflexivity].
  destruct (is_slot_free c2 e2 w1) as [[[]|e] w2]; reflexivity.
Qed.

(** Every run of the loop is a number of busy rounds followed by the
    end of the budget, a free slot or an exception. *)
Lemma while_attempts_outcome n : forall current w,
  exists k ck wk, (k <= n)%nat /\ advances utcnow service k current w = Some (ck, wk) /\
    ((k = n /\ while_attempts n current w = (Ok None, wk))
     \/ ((k < n)%nat /\ exists slot w', round utcnow service ck wk = (Found slot, w')
           /\ while_attempts n current w = (Ok (Some slot), w'))
     \/ ((k < n)%nat /\ exists e w', round utcnow service ck wk = (Failed e, w')
           /\ while_attempts n current w = (Raise e, w'))).
Proof.
  induction n as [|n IH]; intros current w.
  - exists O, current, w. split; [lia|]. split; [reflexivity|]. left. auto.
  - rewrite while_attempts_round.
    destruct (round utcnow service current w) as [[slot|next|e] w'] eqn:R.
    + exists O, current, w. split; [lia|]. split; [reflexivity|].
      right. left. split; [lia|]. exists slot, w'. auto.
    + destruct (IH next w') as (k & ck & wk & Hk & Ha & Hc).
      exists (S k), ck, wk. split; [lia|].
      split; [cbn [advances]; rewrite R; exact Ha|].
      destruct Hc as [[-> E] | [[Hlt E] | [Hlt E]]].
      * left. auto.
      * right. left. split; [lia|exact E].
      * right. right. split; [lia|exact E].
    + exists O, current, w. split; [lia|]. split; [reflexivity|].
      right. right. split; [lia|]. exists e, w'. auto.
Qed.

Lemma while_attempts_advances k : forall n current w ck wk,
  advances utcnow service k current w = Some (ck, wk) ->
  while_attempts (k + n) current w = while_attempts n ck wk.
Proof.
  induction k as [|k IH]; intros n current w ck wk H.
  - injection H as -> ->. reflexivity.
  - cbn [advances] in H. change (S k + n)%nat with (S (k + n)).
    rewrite while_attempts_round.
    destruct (round utcnow service current w) as [[|next|] w']; try discriminate.
    now apply IH.
Qed.

Lemma advances_valid k : forall current w ck wk,
  valid current = true -> advances utcnow service k current w = Some (ck, wk) -> valid ck = true.
Proof.
  induction k as [|k IH]; intros current w ck wk V H.
  - now injection H as <- _.
  - cbn [advances] in H. destruct (round utcnow service current w) as [[|next|] w'] eqn:R;
      try discriminate.
    apply (IH next w' ck wk); [|exact H].
    unfold round in R.
    destruct (clamp_to_future_2025 current w) as [[c1|e] w1]; [|discriminate].
    destruct (autointerviewbot.clamp_to_working_hours c1) as [c2|e]; [|discriminate].
    destruct (add c2 (timedelta_new 0 1 0 0 0)) as [e2|e] eqn:A; [|discriminate].
    destruct (is_slot_free c2 e2 w1) as [[[]|e] w2]; try discriminate.
    injection R as <- _. apply add_ok in A. tauto.
Qed.


Lemma clamp_to_future_2025_inv t w t' w' :
  valid t = true -> clamp_to_future_2025 t w = (Ok t', w') ->
  exists now, get_now_ist w = (Ok now, w')
    /\ (year t <? 2025) && is_feb29 t = false /\ is_feb29 now = false.
Proof.
  intros V H.
  destruct (get_now_ist w) as [[now|e] w1] eqn:N.
  - rewrite (clamp_to_future_2025_closed utcnow t w now w1 V N) in H.
    destruct ((year t <? 2025) && is_feb29 t) eqn:Ft; [discriminate|].
    destruct (is_feb29 now) eqn:Fn; [discriminate|].
    injection H as _ <-. exists now. auto.
  - unfold autointerviewbot.clamp_to_future_2025, bind in H. rewrite N in H.
    discriminate.
Qed.

(** A round that ends in [Found]: what is known of the slot. *)
Lemma round_found current w slot w' :
  valid current = true -> round utcnow service current w = (Found slot, w') ->
  exists now w1, get_now_ist w = (Ok now, w1)
    /\ valid slot = true /\ in_working_hours slot = true
    /\ leb (floor_2025 now) slot = true /\ leb current slot = true.
Proof.
  intros V R. unfold round in R.
  destruct (clamp_to_future_2025 current w) as [[c1|e] w1] eqn:F; [|discriminate].
  destruct (clamp_to_future_2025_inv _ _ _ _ V F) as (now & N & Ft & Fn).
  destruct (clamp_to_future_2025_ok utcnow current w now w1 V N Ft Fn)
    as (c1' & F' & _ & V1 & Y1 & L1 & M1 & _).
  rewrite F in F'. injection F' as <-.
  pose proof (clamp_to_working_hours_forward c1 V1) as C.
  destruct (autointerviewbot.clamp_to_working_hours c1) as [c2|e]; [|discriminate].
  destruct C as (V2 & L2 & W2 & _).
  destruct (add c2 (timedelta_new 0 1 0 0 0)) as [e2|e]; [|discriminate].
  destruct (is_slot_free c2 e2 w1) as [[[]|e] w2]; try discriminate.
  injection R as <- _. exists now, w1. split; [exact N|].
  pose proof (get_now_ist_valid utcnow w now w1 N) as Vn.
  pose proof (valid_with_year_2025 now Vn Fn) as Vf. fold (floor_2025 now) in Vf.
  rewrite (leb_to_us _ _ Vf V1) in L1. rewrite (leb_to_us _ _ V1 V2) in L2.
  rewrite (leb_to_us _ _ V V1) in M1.
  rewrite (leb_to_us _ _ Vf V2), (leb_to_us _ _ V V2).
  rewrite Z.leb_le in *. splits; auto; apply Z.leb_le; lia.
Qed.

(** C6. A slot start that the seed-time search returns is on Monday to
    Friday, at an hour from 9 up to 19, and not earlier than the current
    moment re-anchored to 2025, for every valid seed and every oracle:
    the slot is found by a round that follows some [k] busy rounds, and
    in that very round the clock is read, the candidate goes through
    [clamp_to_future_2025] under that reading and then through
    [clamp_to_working_hours], and what comes out is the slot. *)
Theorem found_slot_is_clamped seed w slot w' :
  valid seed = true ->
  find_first_free_slot seed w = (Ok (Some slot), w') ->
  weekday slot < 5 /\ 9 <= hour slot < 19
  /\ exists k c wk now wk' c1, (k < autointerviewbot.max_attempts)%nat
       /\ advances utcnow service k seed w = Some (c, wk)
       /\ round utcnow service c wk = (Found slot, w')
       /\ get_now_ist wk = (Ok now, wk')
       /\ clamp_to_future_2025 c wk = (Ok c1, wk')
       /\ autointerviewbot.clamp_to_working_hours c1 = Ok slot
       /\ leb (floor_2025 now) slot = true.
Proof.
  intros V H. unfold autointerviewbot.find_first_free_slot in H.
  destruct (while_attempts_outcome autointerviewbot.max_attempts seed w)
    as (k & ck & wk & Hk & Ha & [[_ E] | [[Hlt (s & w1 & R & E)] | [_ (e & w1 & _ & E)]]]);
    rewrite E in H; try discriminate.
  injection H as -> ->.
  pose proof (advances_valid k seed w ck wk V Ha) as Vk.
  destruct (round_found ck wk slot w' Vk R) as (now & wk' & N & Vs & W & L & _).
  unfold in_working_hours in W. rewrite !andb_true_iff, Z.ltb_lt, Z.leb_le, Z.ltb_lt in W.
  assert (G : exists c1, clamp_to_future_2025 ck wk = (Ok c1, wk')
                /\ autointerviewbot.clamp_to_working_hours c1 = Ok slot).
  { pose proof R as R'. unfold round in R'.
    destruct (clamp_to_future_2025 ck wk) as [[c1|e] w1] eqn:F; [|discriminate].
    destruct (clamp_to_future_2025_inv _ _ _ _ Vk F) as (now' & N' & _).
    rewrite N in N'. injection N' as _ Ew. subst w1.
    destruct (autointerviewbot.clamp_to_working_hours c1) as [c2|e] eqn:C;
      [|discriminate].
    destruct (add c2 (timedelta_new 0 1 0 0 0)) as [e2|e]; [|discriminate].
    destruct (is_slot_free c2 e2 wk') as [[[]|e] w2]; try discriminate.
    injection R' as <- _. exists c1. split; [reflexivity | exact C]. }
  destruct G as (c1 & F & C).
  splits; try lia. exists k, ck, wk, now, wk', c1. splits; assumption.
Qed.


Lemma year_ge_2025_of_to_us t : valid t = true ->
  739252 * US_PER_DAY <= to_us t -> 2025 <= year t.
Proof.
  intros V U. destruct (Z_le_gt_dec 2025 (year t)) as [|G]; [assumption|exfalso].
  pose proof (tod_range t V) as R. rewrite to_us_split in U.
  pose proof V as V'. apply valid_iff in V'. destruct V' as [D _].
  pose proof (ymd2ord_range _ _ _ D) as O. fold (toordinal t) in O.
  pose proof (dby_mono (year t + 1) 2025 ltac:(lia)) as Mn.
  change (_days_before_year 2025) with 739251 in Mn.
  unfold US_PER_DAY in *. lia.
Qed.

Lemma add_hour_spec t : valid t = true ->
  to_us t + US_PER_HOUR < (_MAXORDINAL + 1) * US_PER_DAY ->
  exists e, add t (timedelta_new 0 1 0 0 0) = Ok e /\ valid e = true
            /\ to_us e = to_us t + US_PER_HOUR.
Proof.
  intros V B. pose proof (add_spec t (timedelta_new 0 1 0 0 0)) as S. cbv zeta in S.
  rewrite td_total_new in S.
  pose proof (tod_range t V) as R. pose proof (toordinal_range t V) as Ro.
  rewrite to_us_split in S, B. unfold US_PER_DAY, US_PER_HOUR, _MAXORDINAL in *.
  destruct (_ && _) eqn:C in S.
  - destruct S as (e & E & Ve & U). exists e. rewrite (to_us_split t).
    unfold US_PER_DAY. splits; auto; lia.
  - apply andb_false_iff in C. rewrite Z.leb_gt, Z.ltb_ge in C. lia.
Qed.

Lemma add_hour_in_working_hours t : valid t = true -> in_working_hours t = true ->
  exists e, add t (timedelta_new 0 1 0 0 0) = Ok e /\ valid e = true
            /\ to_us e = to_us t + US_PER_HOUR.
Proof.
  intros V W. apply add_hour_spec; [exact V|].
  unfold in_working_hours in W. rewrite !andb_true_iff, Z.ltb_lt, Z.leb_le, Z.ltb_lt in W.
  pose proof (hour_of_tod t V) as Hh. pose proof (tod_range t V) as R.
  pose proof (toordinal_range t V) as Ro. rewrite to_us_split.
  unfold US_PER_DAY, US_PER_HOUR, _MAXORDINAL in *.
  Z.to_euclidean_division_equations; lia.
Qed.

Lemma find_first_free_slot_round seed w :
  find_first_free_slot seed w =
  match round utcnow service seed w with
  | (Found slot, w') => (Ok (Some slot), w')
  | (Busy next, w') => while_attempts 2999 next w'
  | (Failed e, w') => (Raise e, w')
  end.
Proof. apply (while_attempts_round 2999). Qed.

(** C5, for a seed at or after the floor. For a seed inside working
    hours that is not earlier than the current moment re-anchored to 2025
    (the clock not on a 29th of February), the search against an oracle
    that reports every interval free returns the seed itself, the slot
    being [seed, seed + 1 hour). *)
Theorem all_free_returns_seed seed w now w1 :
  valid seed = true -> in_working_hours seed = true -> reports_free service ->
  get_now_ist w = (Ok now, w1) -> is_feb29 now = false ->
  leb (floor_2025 now) seed = true ->
  exists slot_end w',
    add seed (timedelta_new 0 1 0 0 0) = Ok slot_end
    /\ find_first_free_slot seed w = (Ok (Some seed), w').
Proof.
  intros V W Free N Fn L.
  pose proof (get_now_ist_valid utcnow w now w1 N) as Vn.
  pose proof (valid_with_year_2025 now Vn Fn) as Vf. fold (floor_2025 now) in Vf.
  rewrite (leb_to_us _ _ Vf V) in L. apply Z.leb_le in L.
  pose proof (year_is_2025_range _ Vf eq_refl) as Rf.
  assert (Y : 2025 <= year seed) by (apply year_ge_2025_of_to_us; [exact V|lia]).
  assert (Ylt : (year seed <? 2025) = false) by (apply Z.ltb_ge; lia).
  assert (Ft : (year seed <? 2025) && is_feb29 seed = false) by (now rewrite Ylt).
  destruct (clamp_to_future_2025_ok utcnow seed w now w1 V N Ft Fn)
    as (c1 & F & E1 & _).
  cbv zeta in E1. rewrite Ylt, (ltb_to_us _ _ V Vf) in E1.
  replace (to_us seed <? to_us (floor_2025 now)) with false in E1
    by (symmetry; apply Z.ltb_ge; lia).
  subst c1.
  destruct (add_hour_in_working_hours seed V W) as (e & A & Ve & Ue).
  assert (Ye : 2025 <= year e) by (apply year_ge_2025_of_to_us; [exact Ve|];
    unfold US_PER_HOUR in *; lia).
  destruct (Free seed e w1 V Ve Y Ye) as (w2 & Q).
  exists e, w2. split; [exact A|].
  rewrite find_first_free_slot_round. unfold round.
  rewrite F, (clamp_to_working_hours_closed seed V), W, A, Q. reflexivity.
Qed.

(** *** A busy oracle exhausts the budget *)



Lemma year_le_to_us t y : valid t = true -> year t <= y ->
  to_us t < (_days_before_year (y + 1) + 1) * US_PER_DAY.
Proof.
  intros V Y. pose proof (tod_range t V) as R. rewrite to_us_split.
  pose proof V as V'. apply valid_iff in V'. destruct V' as [D _].
  pose proof (ymd2ord_range _ _ _ D) as O. fold (toordinal t) in O.
  pose proof (dby_mono (year t + 1) (y + 1) ltac:(lia)) as Mn.
  unfold US_PER_DAY in *. nia.
Qed.



End Search.

(** *** The range-constrained search *)

Lemma bind_ext {World A B : Type} (m : M World A) (f g : A -> M World B) w :
  (forall a w', f a w' = g a w') -> bind m f w = bind m g w.
Proof. intros H. unfold bind. destruct (m w) as [[a|e] w']; auto. Qed.

Section Scan.
Context {World : Type}.
Variable probe : datetime -> datetime -> M World bool.

Local Open Scope world_scope.

(** What a scan of a list of slots returns. *)
Lemma first_free_outcome slots : forall w,
  match first_free probe slots w with
  | (Ok (Some slot), w') =>
      exists pre post wk, slots = pre ++ slot :: post /\ all_busy probe pre w = Some wk
        /\ probe (fst slot) (snd slot) wk = (Ok true, w')
  | (Ok None, w') => all_busy probe slots w = Some w'
  | (Raise x, w') =>
      exists pre slot post wk, slots = pre ++ slot :: post
        /\ all_busy probe pre w = Some wk
        /\ probe (fst slot) (snd slot) wk = (Raise x, w')
  end.
Proof.
  induction slots as [|[s e] rest IH]; intros w; [reflexivity|].
  cbn [first_free all_busy]. unfold bind.
  destruct (probe s e w) as [[[]|x] w1] eqn:Q.
  - cbn. exists [], rest, w. auto.
  - specialize (IH w1).
    destruct (first_free probe rest w1) as [[[slot|]|x] w2].
    + destruct IH as (pre & post & wk & -> & B & F).
      exists ((s, e) :: pre), post, wk. cbn [all_busy app]. rewrite Q. auto.
    + exact IH.
    + destruct IH as (pre & slot & post & wk & -> & B & F).
      exists ((s, e) :: pre), slot, post, wk. cbn [all_busy app]. rewrite Q. auto.
  - exists [], (s, e), rest, w. auto.
Qed.

Lemma first_free_fails pre : forall slot post w wk x w',
  all_busy probe pre w = Some wk ->
  probe (fst slot) (snd slot) wk = (Raise x, w') ->
  first_free probe (pre ++ slot :: post) w = (Raise x, w').
Proof.
  induction pre as [|[s e] pre IH]; intros [s1 e1] post w wk x w' B F.
  - injection B as <-. cbn [app first_free] in *. unfold bind. cbn [fst snd] in F.
    now rewrite F.
  - cbn [app first_free all_busy] in *. unfold bind.
    destruct (probe s e w) as [[[]|y] w1]; try discriminate.
    now apply (IH (s1, e1) post w1 wk).
Qed.

End Scan.

Section Range.
Context {World : Type}.
Variable service : Service World.

#[local] Abbreviation is_slot_free :=
  (textbasedbot.is_slot_free_for_both service
     textbasedbot.RECRUITER_EMAIL textbasedbot.CANDIDATE_EMAIL).

Local Open Scope world_scope.

Lemma replace_minute_zero s : valid s = true ->
  replace_minute s 0 0 0 = Ok (mkdt (year s) (month s) (day s) (hour s) 0 0 0)
  /\ valid (mkdt (year s) (month s) (day s) (hour s) 0 0 0) = true.
Proof.
  intros V. unfold replace_minute, new.
  assert (V0 : valid (mkdt (year s) (month s) (day s) (hour s) 0 0 0) = true).
  { apply valid_iff in V. apply valid_iff. cbn. intuition lia. }
  unfold valid in V0. cbn [year month day hour minute second microsecond] in V0.
  rewrite V0. auto.
Qed.

Lemma ltb_floor_hour s : valid s = true ->
  ltb (mkdt (year s) (month s) (day s) (hour s) 0 0 0) s
  = negb ((minute s =? 0) && (second s =? 0) && (microsecond s =? 0)).
Proof.
  intros V. apply valid_iff in V. destruct V as (_ & _ & Hm & Hs & Hu).
  unfold ltb, fields. cbn [_cmp year month day hour minute second microsecond].
  rewrite !Z.compare_refl.
  destruct (Z.compare_spec 0 (minute s)) as [E|L|G]; [|
    replace (minute s =? 0) with false by (symmetry; apply Z.eqb_neq; lia); reflexivity
    | lia].
  rewrite <- E. cbn [Z.eqb andb].
  destruct (Z.compare_spec 0 (second s)) as [E2|L2|G2]; [|
    replace (second s =? 0) with false by (symmetry; apply Z.eqb_neq; lia); reflexivity
    | lia].
  rewrite <- E2. cbn [Z.eqb andb].
  destruct (Z.compare_spec 0 (microsecond s)) as [E3|L3|G3]; [|
    replace (microsecond s =? 0) with false by (symmetry; apply Z.eqb_neq; lia); reflexivity
    | lia].
  rewrite <- E3. reflexivity.
Qed.

(** The two statements that normalise the start are the rounding up of
    the specification. *)
Lemma find_1hr_slot_within_range_normalized s e : valid s = true ->
  textbasedbot.find_1hr_slot_within_range service s e =
  (current <- lift (normalizedStart s) ;;
   textbasedbot.while_in_range service current e).
Proof.
  intros V. unfold textbasedbot.find_1hr_slot_within_range, normalizedStart.
  destruct (replace_minute_zero s V) as [-> V0].
  unfold bind at 1. unfold lift at 1.
  rewrite (ltb_floor_hour s V).
  destruct ((minute s =? 0) && (second s =? 0) && (microsecond s =? 0)) eqn:Z0;
    cbn [negb]; [|reflexivity].
  rewrite !andb_true_iff, !Z.eqb_eq in Z0. destruct Z0 as [[Em Es] Eu].
  replace (mkdt (year s) (month s) (day s) (hour s) 0 0 0) with s; [reflexivity|].
  destruct s; cbn in *. congruence.
Qed.

Lemma on_the_hour t : valid t = true ->
  (minute t = 0 /\ second t = 0 /\ microsecond t = 0) <-> to_us t mod US_PER_HOUR = 0.
Proof.
  intros V. apply valid_iff in V. destruct V as (_ & Hh & Hm & Hs & Hu).
  unfold to_us, US_PER_HOUR. split.
  - intros (-> & -> & ->). Z.to_euclidean_division_equations; lia.
  - intros H. Z.to_euclidean_division_equations; lia.
Qed.

Lemma year_le_9998 t : valid t = true -> year t <= 9998 ->
  to_us t < _MAXORDINAL * US_PER_DAY.
Proof.
  intros V Y. pose proof (year_le_to_us t 9998 V Y) as U.
  change (_days_before_year (9998 + 1)) with 3651694 in U.
  unfold _MAXORDINAL, US_PER_DAY in *. lia.
Qed.

Lemma normalizedStart_spec s : valid s = true ->
  to_us s < _MAXORDINAL * US_PER_DAY ->
  exists n, normalizedStart s = Ok n /\ valid n = true
    /\ (minute n = 0 /\ second n = 0 /\ microsecond n = 0)
    /\ to_us s <= to_us n < to_us s + US_PER_HOUR.
Proof.
  intros V B. unfold normalizedStart.
  destruct ((minute s =? 0) && (second s =? 0) && (microsecond s =? 0)) eqn:Z0.
  - rewrite !andb_true_iff, !Z.eqb_eq in Z0. exists s.
    unfold US_PER_HOUR. splits; try tauto; try lia.
  - destruct (replace_minute_zero s V) as [_ V0].
    set (s0 := mkdt (year s) (month s) (day s) (hour s) 0 0 0) in *.
    assert (U0 : to_us s0 = to_us s
                 - ((minute s * 60 + second s) * 1000000 + microsecond s)).
    { unfold to_us, toordinal, s0. cbn [year month day hour minute second microsecond].
      ring. }
    pose proof V as V'. apply valid_iff in V'. destruct V' as (_ & Hh & Hm & Hs & Hu).
    destruct (add_hour_spec s0 V0) as (n & A & Vn & Un).
    { unfold US_PER_HOUR, US_PER_DAY, _MAXORDINAL in *. lia. }
    exists n. split; [exact A|]. split; [exact Vn|].
    assert (Nz : (minute s * 60 + second s) * 1000000 + microsecond s <> 0).
    { rewrite !andb_false_iff, !Z.eqb_neq in Z0. lia. }
    split.
    + apply (on_the_hour n Vn). rewrite Un.
      assert (Z00 : to_us s0 mod US_PER_HOUR = 0) by (apply (on_the_hour s0 V0); auto).
      unfold US_PER_HOUR in *. Z.to_euclidean_division_equations; lia.
    + unfold US_PER_HOUR in *. lia.
Qed.

Lemma first_free_cons slot_start slot_end rest :
  first_free is_slot_free ((slot_start, slot_end) :: rest) =
  (free <- is_slot_free slot_start slot_end ;;
   if free then ret (Some (slot_start, slot_end))
   else first_free is_slot_free rest).
Proof. reflexivity. Qed.

Lemma hourly_slots_S count current :
  hourly_slots (S count) current =
  match add current (timedelta_new 0 1 0 0 0) with
  | Ok next => (current, next) :: hourly_slots count next
  | Raise _ => []
  end.
Proof. reflexivity. Qed.

Lemma slot_count_unfold n e :
  slot_count n e = Z.to_nat ((to_us e - to_us n) / US_PER_HOUR).
Proof. reflexivity. Qed.

Lemma slot_count_zero u v :
  Z.to_nat ((v - u) / US_PER_HOUR) = O -> v < u + US_PER_HOUR.
Proof. unfold US_PER_HOUR. intros H. Z.to_euclidean_division_equations; lia. Qed.

Lemma slot_count_succ u v c :
  Z.to_nat ((v - u) / US_PER_HOUR) = S c ->
  u + US_PER_HOUR <= v /\ Z.to_nat ((v - (u + US_PER_HOUR)) / US_PER_HOUR) = c.
Proof. unfold US_PER_HOUR. intros H. Z.to_euclidean_division_equations; lia. Qed.

Lemma while_in_range_scan e count : forall n w,
  valid n = true -> valid e = true ->
  to_us e < _MAXORDINAL * US_PER_DAY ->
  to_us n + US_PER_HOUR < (_MAXORDINAL + 1) * US_PER_DAY ->
  slot_count n e = count ->
  textbasedbot.while_in_range service n e w
  = first_free is_slot_free (hourly_slots count n) w.
Proof.
  induction count as [|c IH]; intros n w Vn Ve Be Bn Hc;
    rewrite while_in_range_eq;
    destruct (add_hour_spec n Vn Bn) as (next & A & Vx & Ux);
    rewrite ?hourly_slots_S, A, (leb_to_us _ _ Vx Ve), Ux;
    rewrite slot_count_unfold in Hc.
  - apply slot_count_zero in Hc.
    replace (to_us n + US_PER_HOUR <=? to_us e) with false; [reflexivity|].
    symmetry. apply Z.leb_gt. exact Hc.
  - apply slot_count_succ in Hc. destruct Hc as [Hle Hc].
    replace (to_us n + US_PER_HOUR <=? to_us e) with true
      by (symmetry; apply Z.leb_le; exact Hle).
    rewrite first_free_cons. apply bind_ext. intros [] w'; [reflexivity|].
    apply IH; [exact Vx | exact Ve | exact Be | | ].
    + rewrite Ux. unfold US_PER_HOUR, US_PER_DAY, _MAXORDINAL in Be, Hle |- *. lia.
    + rewrite slot_count_unfold, Ux. exact Hc.
Qed.

Lemma hourly_slots_nth count : forall n k slot,
  valid n = true ->
  to_us n + Z.of_nat count * US_PER_HOUR < (_MAXORDINAL + 1) * US_PER_DAY ->
  nth_error (hourly_slots count n) k = Some slot ->
  valid (fst slot) = true /\ valid (snd slot) = true
  /\ to_us (fst slot) = to_us n + Z.of_nat k * US_PER_HOUR
  /\ add (fst slot) (timedelta_new 0 1 0 0 0) = Ok (snd slot)
  /\ to_us (snd slot) = to_us (fst slot) + US_PER_HOUR
  /\ (k < count)%nat.
Proof.
  induction count as [|c IH]; intros n k slot Vn B H.
  - destruct k; discriminate.
  - rewrite hourly_slots_S in H.
    destruct (add_hour_spec n Vn) as (next & A & Vx & Ux).
    { unfold US_PER_HOUR in *. lia. }
    rewrite A in H. destruct k as [|k]; cbn [nth_error] in H.
    + injection H as <-. cbn [fst snd]. splits; auto; lia.
    + destruct (IH next k slot Vx ltac:(unfold US_PER_HOUR in *; lia) H)
        as (V1 & V2 & U1 & A1 & U2 & Lt).
      splits; auto; unfold US_PER_HOUR in *; lia.
Qed.

Lemma hourly_slots_length count : forall n,
  valid n = true ->
  to_us n + Z.of_nat count * US_PER_HOUR < (_MAXORDINAL + 1) * US_PER_DAY ->
  List.length (hourly_slots count n) = count.
Proof.
  induction count as [|c IH]; intros n Vn B; [reflexivity|].
  rewrite hourly_slots_S.
  destruct (add_hour_spec n Vn) as (next & A & Vx & Ux).
  { unfold US_PER_HOUR in *. lia. }
  rewrite A. cbn [List.length]. f_equal. apply IH; [exact Vx|].
  unfold US_PER_HOUR in *. lia.
Qed.

Lemma find_1hr_slot_within_range_slots s e w :
  valid s = true -> valid e = true -> year s <= 9998 -> year e <= 9998 ->
  exists n, normalizedStart s = Ok n /\ valid n = true
    /\ (minute n = 0 /\ second n = 0 /\ microsecond n = 0)
    /\ to_us s <= to_us n < to_us s + US_PER_HOUR
    /\ textbasedbot.find_1hr_slot_within_range service s e w
       = first_free is_slot_free (hourly_slots (slot_count n e) n) w
    /\ to_us n + Z.of_nat (slot_count n e) * US_PER_HOUR
       < (_MAXORDINAL + 1) * US_PER_DAY.
Proof.
  intros Vs Ve Ys Ye.
  pose proof (year_le_9998 s Vs Ys) as Bs. pose proof (year_le_9998 e Ve Ye) as Be.
  destruct (normalizedStart_spec s Vs Bs) as (n & N & Vn & Hz & Hn).
  exists n. splits; try tauto; try lia.
  - rewrite (find_1hr_slot_within_range_normalized s e Vs), N.
    unfold bind at 1. unfold lift at 1.
    apply while_in_range_scan; auto.
    unfold US_PER_HOUR, US_PER_DAY, _MAXORDINAL in *. lia.
  - rewrite slot_count_unfold. unfold US_PER_HOUR, US_PER_DAY, _MAXORDINAL in *.
    Z.to_euclidean_division_equations; lia.
Qed.

End Range.

Section Claims.
Context {World : Type}.
Variable utcnow : World -> datetime * World.
Variable service : Service World.

Lemma round_busy_forward current w next w' :
  valid current = true -> round utcnow service current w = (Busy next, w') ->
  valid next = true /\ ltb current next = true.
Proof.
  intros V R. unfold round in R.
  destruct (autointerviewbot.clamp_to_future_2025 utcnow current w) as [[c1|e] w1] eqn:F;
    [|discriminate].
  destruct (clamp_to_future_2025_inv utcnow _ _ _ _ V F) as (now & N & Ft & Fn).
  destruct (clamp_to_future_2025_ok utcnow current w now w1 V N Ft Fn)
    as (c1' & F' & _ & V1 & _ & _ & M1 & _).
  rewrite F in F'. injection F' as <-.
  pose proof (clamp_to_working_hours_forward c1 V1) as C.
  destruct (autointerviewbot.clamp_to_working_hours c1) as [c2|e]; [|discriminate].
  destruct C as (V2 & L2 & _).
  destruct (add c2 (timedelta_new 0 1 0 0 0)) as [e2|e] eqn:A; [|discriminate].
  destruct (autointerviewbot.is_slot_free_for_both service _ _ c2 e2 w1) as [[[]|e] w2];
    try discriminate.
  injection R as <- _. apply add_ok in A. destruct A as [Ve Ue].
  rewrite td_total_new in Ue. split; [exact Ve|].
  rewrite (leb_to_us _ _ V V1) in M1. rewrite (leb_to_us _ _ V1 V2) in L2.
  rewrite (ltb_to_us _ _ V Ve). rewrite Z.leb_le in *. apply Z.ltb_lt. lia.
Qed.

End Claims.

(** C9. [clamp_to_working_hours] never moves a datetime backward: the
    value it returns is at or after its input (it raises only where no
    later business day exists), and so each busy round of the search
    leaves a candidate strictly after the one it started from. *)
Theorem clamp_to_working_hours_never_backward t :
  valid t = true ->
  match autointerviewbot.clamp_to_working_hours t with
  | Ok t' => leb t t' = true
  | Raise e => e = OverflowError /\ toordinal t = _MAXORDINAL /\ 19 <= hour t
  end
  /\ (forall (World : Type) (utcnow : World -> datetime * World)
             (service : Service World) w next w',
        round utcnow service t w = (Busy next, w') -> ltb t next = true).
Proof.
  intros V. split.
  - pose proof (clamp_to_working_hours_forward t V) as C.
    destruct (autointerviewbot.clamp_to_working_hours t); tauto.
  - intros World utcnow service w next w' R.
    now destruct (round_busy_forward utcnow service t w next w' V R).
Qed.

Section RangeClaims.
Context {World : Type}.
Variable service : Service World.

#[local] Abbreviation is_slot_free :=
  (textbasedbot.is_slot_free_for_both service
     textbasedbot.RECRUITER_EMAIL textbasedbot.CANDIDATE_EMAIL).

(** C2. The range search rounds the start up to the hour [n], which is
    the start itself when that is on the hour; it probes the slots
    [n + k hours, n + (k+1) hours) that end by the end of the range, in
    increasing order and with no clamp; it returns the first slot the
    oracle reports free, [None] when all are busy, and the exception of
    the probe that failed. *)
Theorem find_1hr_slot_within_range_scan s e w :
  valid s = true -> valid e = true -> year s <= 9998 -> year e <= 9998 ->
  exists n slots,
    normalizedStart s = Ok n
    /\ (minute n = 0 /\ second n = 0 /\ microsecond n = 0)
    /\ to_us s <= to_us n < to_us s + US_PER_HOUR
    /\ slots = hourly_slots (slot_count n e) n
    /\ List.length slots = slot_count n e
    /\ to_us e < to_us n + (Z.of_nat (slot_count n e) + 1) * US_PER_HOUR
    /\ (forall k slot, nth_error slots k = Some slot ->
          to_us (fst slot) = to_us n + Z.of_nat k * US_PER_HOUR
          /\ (minute (fst slot) = 0 /\ second (fst slot) = 0
              /\ microsecond (fst slot) = 0)
          /\ add (fst slot) (timedelta_new 0 1 0 0 0) = Ok (snd slot)
          /\ leb (snd slot) e = true)
    /\ match textbasedbot.find_1hr_slot_within_range service s e w with
       | (Ok (Some slot), w') =>
           exists pre post wk, slots = pre ++ slot :: post
             /\ all_busy is_slot_free pre w = Some wk
             /\ is_slot_free (fst slot) (snd slot) wk = (Ok true, w')
       | (Ok None, w') => all_busy is_slot_free slots w = Some w'
       | (Raise x, w') =>
           exists pre slot post wk, slots = pre ++ slot :: post
             /\ all_busy is_slot_free pre w = Some wk
             /\ is_slot_free (fst slot) (snd slot) wk = (Raise x, w')
       end.
Proof.
  intros Vs Ve Ys Ye.
  destruct (find_1hr_slot_within_range_slots service s e w Vs Ve Ys Ye)
    as (n & N & Vn & Hz & Hn & E & B).
  exists n, (hourly_slots (slot_count n e) n).
  split; [exact N|]. split; [exact Hz|]. split; [exact Hn|]. split; [reflexivity|].
  split; [now apply hourly_slots_length|].
  assert (Cnt : Z.of_nat (slot_count n e) * US_PER_HOUR <= Z.max 0 (to_us e - to_us n)
                /\ to_us e - to_us n < (Z.of_nat (slot_count n e) + 1) * US_PER_HOUR).
  { rewrite slot_count_unfold. unfold US_PER_HOUR.
    Z.to_euclidean_division_equations; lia. }
  split; [lia|]. split.
  - intros k slot H.
    destruct (hourly_slots_nth _ _ _ _ Vn B H) as (V1 & V2 & U1 & A1 & U2 & Lt).
    split; [exact U1|]. split; [|split; [exact A1|]].
    + apply (on_the_hour _ V1). rewrite U1.
      apply (on_the_hour n Vn) in Hz. unfold US_PER_HOUR in *.
      Z.to_euclidean_division_equations; lia.
    + rewrite (leb_to_us _ _ V2 Ve). apply Z.leb_le. rewrite U2, U1.
      unfold US_PER_HOUR in *. nia.
  - rewrite E. apply first_free_outcome.
Qed.

End RangeClaims.

(** *** Failures of the oracle *)

Section Failures.
Context {World : Type}.
Variable utcnow : World -> datetime * World.
Variable service : Service World.

Lemma is_slot_free_for_both_fails r c s e w x w' :
  query_fails (autointerviewbot.get_busy_slots service) r c s e w x w' ->
  autointerviewbot.is_slot_free_for_both service r c s e w = (Raise x, w').
Proof.
  unfold autointerviewbot.is_slot_free_for_both, bind.
  intros [H | (b & w1 & H1 & H2)].
  - now rewrite H.
  - now rewrite H1, H2.
Qed.

Lemma textbasedbot_is_slot_free_for_both_fails r c s e w x w' :
  query_fails (textbasedbot.get_busy_slots service) r c s e w x w' ->
  textbasedbot.is_slot_free_for_both service r c s e w = (Raise x, w').
Proof.
  unfold textbasedbot.is_slot_free_for_both, bind.
  intros [H | (b & w1 & H1 & H2)].
  - now rewrite H.
  - now rewrite H1, H2.
Qed.

Lemma find_first_free_slot_fails seed w k c wk x w' :
  (k < autointerviewbot.max_attempts)%nat ->
  advances utcnow service k seed w = Some (c, wk) ->
  round utcnow service c wk = (Failed x, w') ->
  autointerviewbot.find_first_free_slot utcnow service seed w = (Raise x, w').
Proof.
  intros Hk A R. unfold autointerviewbot.find_first_free_slot.
  replace autointerviewbot.max_attempts
    with (k + S (autointerviewbot.max_attempts - S k))%nat by lia.
  rewrite (while_attempts_advances utcnow service k _ seed w c wk A).
  now rewrite while_attempts_round, R.
Qed.

End Failures.

(** C7. In both search variants an exception of the busy-interval query
    of either identity, the candidate's after an answered recruiter's
    included, is the result of the availability check and of the whole
    search, unchanged: no slot is returned. *)
Theorem oracle_failure_propagates (World : Type)
    (utcnow : World -> datetime * World) (service : Service World) :
  (forall r c s e w x w',
      query_fails (autointerviewbot.get_busy_slots service) r c s e w x w' ->
      autointerviewbot.is_slot_free_for_both service r c s e w = (Raise x, w'))
  /\ (forall r c s e w x w',
      query_fails (textbasedbot.get_busy_slots service) r c s e w x w' ->
      textbasedbot.is_slot_free_for_both service r c s e w = (Raise x, w'))
  /\ (forall seed w k c wk c1 w1 c2 e2 x w2,
      (k < autointerviewbot.max_attempts)%nat ->
      advances utcnow service k seed w = Some (c, wk) ->
      autointerviewbot.clamp_to_future_2025 utcnow c wk = (Ok c1, w1) ->
      autointerviewbot.clamp_to_working_hours c1 = Ok c2 ->
      add c2 (timedelta_new 0 1 0 0 0) = Ok e2 ->
      query_fails (autointerviewbot.get_busy_slots service)
        autointerviewbot.RECRUITER_EMAIL autointerviewbot.CANDIDATE_EMAIL
        c2 e2 w1 x w2 ->
      autointerviewbot.find_first_free_slot utcnow service seed w = (Raise x, w2))
  /\ (forall s e w n pre slot post wk x w',
      valid s = true -> valid e = true -> year s <= 9998 -> year e <= 9998 ->
      normalizedStart s = Ok n ->
      hourly_slots (slot_count n e) n = pre ++ slot :: post ->
      all_busy (textbasedbot.is_slot_free_for_both service
                  textbasedbot.RECRUITER_EMAIL textbasedbot.CANDIDATE_EMAIL)
        pre w = Some wk ->
      query_fails (textbasedbot.get_busy_slots service)
        textbasedbot.RECRUITER_EMAIL textbasedbot.CANDIDATE_EMAIL
        (fst slot) (snd slot) wk x w' ->
      textbasedbot.find_1hr_slot_within_range service s e w = (Raise x, w')).
Proof.
  split; [|split; [|split]].
  - apply is_slot_free_for_both_fails.
  - apply textbasedbot_is_slot_free_for_both_fails.
  - intros seed w k c wk c1 w1 c2 e2 x w2 Hk A F C E Q.
    apply (find_first_free_slot_fails utcnow service seed w k c wk x w2 Hk A).
    unfold round. rewrite F, C, E.
    now rewrite (is_slot_free_for_both_fails service _ _ _ _ _ _ _ Q).
  - intros s e w n pre slot post wk x w' Vs Ve Ys Ye N S B Q.
    destruct (find_1hr_slot_within_range_slots service s e w Vs Ve Ys Ye)
      as (n' & N' & _ & _ & _ & E & _).
    rewrite N in N'. injection N' as <-. rewrite E, S.
    apply (first_free_fails _ pre slot post w wk x w' B).
    now apply textbasedbot_is_slot_free_for_both_fails.
Qed.

(** ** The rest of the two files: facts *)

(** *** The conversion to UTC and the busy-interval query *)

Lemma td_total_ist : td_total (timedelta_new 0 5 30 0 0) = IST_OFFSET_US.
Proof. rewrite td_total_new. reflexivity. Qed.

Lemma td_total_neg_ist :
  td_total (td_neg (timedelta_new 0 5 30 0 0)) = - IST_OFFSET_US.
Proof. unfold td_neg. rewrite td_total_of_us, td_total_new. reflexivity. Qed.

Lemma valid_to_us_range t : valid t = true ->
  US_PER_DAY <= to_us t < (_MAXORDINAL + 1) * US_PER_DAY.
Proof.
  intros V. pose proof (tod_range t V). pose proof (toordinal_range t V).
  rewrite to_us_split. unfold US_PER_DAY, _MAXORDINAL in *. lia.
Qed.

Lemma sub_ist_spec t : valid t = true ->
  if US_PER_DAY + IST_OFFSET_US <=? to_us t then
    exists u, sub t (timedelta_new 0 5 30 0 0) = Ok u /\ valid u = true
              /\ to_us u = to_us t - IST_OFFSET_US
  else sub t (timedelta_new 0 5 30 0 0) = Raise OverflowError.
Proof.
  intros V. unfold sub.
  pose proof (add_spec t (td_neg (timedelta_new 0 5 30 0 0))) as S. cbv zeta in S.
  rewrite td_total_neg_ist in S. pose proof (valid_to_us_range t V) as R.
  unfold IST_OFFSET_US, US_PER_DAY, _MAXORDINAL in *.
  destruct (_ <=? to_us t) eqn:L; [apply Z.leb_le in L | apply Z.leb_gt in L].
  - destruct (_ && _) eqn:C in S.
    + destruct S as (u & E & Vu & U). exists u. splits; auto; lia.
    + apply andb_false_iff in C. rewrite Z.leb_gt, Z.ltb_ge in C. lia.
  - destruct (_ && _) eqn:C in S; [|exact S].
    apply andb_true_iff in C. rewrite Z.leb_le, Z.ltb_lt in C. lia.
Qed.

Lemma to_utc_spec t : valid t = true ->
  if US_PER_DAY + IST_OFFSET_US <=? to_us t then
    exists u, autointerviewbot.to_utc t = Ok u /\ valid u = true
              /\ to_us u = to_us t - IST_OFFSET_US
  else autointerviewbot.to_utc t = Raise OverflowError.
Proof. exact (sub_ist_spec t). Qed.

(** The two files hold the same [to_utc] and the same [get_busy_slots]. *)
Lemma textbasedbot_to_utc t : textbasedbot.to_utc t = autointerviewbot.to_utc t.
Proof. unfold textbasedbot.to_utc, autointerviewbot.to_utc. reflexivity. Qed.

(** X1. [to_utc], in both files, moves a datetime back by exactly 5 hours
    30 minutes on the time line; it raises [OverflowError] exactly for
    the datetimes of the first 5 hours 30 minutes of year 1, which have
    no UTC counterpart. *)
Theorem to_utc_shifts_or_overflows t : valid t = true ->
  if US_PER_DAY + IST_OFFSET_US <=? to_us t then
    exists u, autointerviewbot.to_utc t = Ok u /\ textbasedbot.to_utc t = Ok u
              /\ valid u = true /\ to_us u = to_us t - IST_OFFSET_US
  else autointerviewbot.to_utc t = Raise OverflowError
       /\ textbasedbot.to_utc t = Raise OverflowError.
Proof.
  intros V. pose proof (to_utc_spec t V) as S.
  destruct (US_PER_DAY + IST_OFFSET_US <=? to_us t).
  - destruct S as (u & E & Vu & U). exists u.
    split; [exact E|]. split; [exact (eq_trans (textbasedbot_to_utc t) E)|].
    split; [exact Vu | exact U].
  - split; [exact S | exact (eq_trans (textbasedbot_to_utc t) S)].
Qed.

Section Clock.
Context {World : Type}.
Variable utcnow : World -> datetime * World.

(** X2. [get_now_ist] is the clock reading moved forward by 5 hours 30
    minutes, and it leaves the world as the clock left it; [to_utc]
    undoes it: the IST now converts back to the UTC reading. *)
Theorem get_now_ist_to_utc_round_trip w now w' :
  valid (fst (utcnow w)) = true ->
  autointerviewbot.get_now_ist utcnow w = (Ok now, w') ->
  to_us now = to_us (fst (utcnow w)) + IST_OFFSET_US
  /\ w' = snd (utcnow w)
  /\ autointerviewbot.to_utc now = Ok (fst (utcnow w)).
Proof.
  intros V G. unfold autointerviewbot.get_now_ist in G.
  destruct (utcnow w) as [u w1]. cbn [fst snd] in *.
  injection G as A <-. apply add_ok in A. destruct A as [Vn Un].
  rewrite td_total_ist in Un. splits; auto.
  pose proof (to_utc_spec now Vn) as S. pose proof (valid_to_us_range u V) as R.
  destruct (US_PER_DAY + IST_OFFSET_US <=? to_us now) eqn:L;
    [|apply Z.leb_gt in L; lia].
  destruct S as (u' & E & Vu & U). rewrite E. f_equal. apply to_us_inj; auto. lia.
Qed.

End Clock.

Section Queries.
Context {World : Type}.
Variable service : Service World.

Lemma getitem_missing {V : Type} (d : list (string * V)) key :
  (forall k v, In (k, v) d -> k <> key) -> getitem d key = Raise (KeyError key).
Proof.
  induction d as [|[k v] d IH]; intros H; [reflexivity|]. cbn [getitem].
  destruct (String.eqb k key) eqn:E.
  - apply String.eqb_eq in E. exfalso. apply (H k v); [left; reflexivity | exact E].
  - apply IH. intros k' v' I. apply (H k' v'). right. exact I.
Qed.

(** [get_busy_slots], step by step. *)
Lemma get_busy_slots_eq email s e w :
  autointerviewbot.get_busy_slots service email s e w =
  match autointerviewbot.to_utc s with
  | Raise x => (Raise x, w)
  | Ok start_utc =>
      match autointerviewbot.to_utc e with
      | Raise x => (Raise x, w)
      | Ok end_utc =>
          match freebusy_query_execute service
                  (query_body email start_utc end_utc) w with
          | (Raise x, w') => (Raise x, w')
          | (Ok response, w') =>
              match getitem (calendars response) email with
              | Raise x => (Raise x, w')
              | Ok calendar => (Ok (busy calendar), w')
              end
          end
      end
  end.
Proof.
  unfold autointerviewbot.get_busy_slots, bind, lift, ret, query_body.
  destruct (autointerviewbot.to_utc s); [|reflexivity].
  destruct (autointerviewbot.to_utc e); reflexivity.
Qed.

Lemma textbasedbot_get_busy_slots email s e w :
  textbasedbot.get_busy_slots service email s e w
  = autointerviewbot.get_busy_slots service email s e w.
Proof.
  unfold textbasedbot.get_busy_slots, autointerviewbot.get_busy_slots,
    textbasedbot.to_utc, autointerviewbot.to_utc.
  reflexivity.
Qed.

(** X3. When the service answers without an entry for the identity
    asked for, [get_busy_slots] raises [KeyError] on that identity, in
    the world the service left: a missing calendar is an error, not an
    empty busy list. *)
Theorem get_busy_slots_missing_calendar email s e su eu w response w' :
  autointerviewbot.to_utc s = Ok su -> autointerviewbot.to_utc e = Ok eu ->
  freebusy_query_execute service (query_body email su eu) w = (Ok response, w') ->
  (forall k c, In (k, c) (calendars response) -> k <> email) ->
  autointerviewbot.get_busy_slots service email s e w = (Raise (KeyError email), w')
  /\ textbasedbot.get_busy_slots service email s e w = (Raise (KeyError email), w').
Proof.
  intros Es Ee Q Miss.
  assert (G : autointerviewbot.get_busy_slots service email s e w
              = (Raise (KeyError email), w')).
  { rewrite get_busy_slots_eq, Es, Ee, Q, (getitem_missing _ _ Miss). reflexivity. }
  split; [exact G | exact (eq_trans (textbasedbot_get_busy_slots email s e w) G)].
Qed.

(** X4. When a bound of the interval lies in the first 5 hours 30
    minutes of year 1, [get_busy_slots] raises [OverflowError] and the
    world is untouched: no request is sent to the service. *)
Theorem get_busy_slots_overflow_sends_nothing email s e w :
  valid s = true -> valid e = true ->
  to_us s < US_PER_DAY + IST_OFFSET_US \/ to_us e < US_PER_DAY + IST_OFFSET_US ->
  autointerviewbot.get_busy_slots service email s e w = (Raise OverflowError, w)
  /\ textbasedbot.get_busy_slots service email s e w = (Raise OverflowError, w).
Proof.
  intros Vs Ve H.
  assert (G : autointerviewbot.get_busy_slots service email s e w
              = (Raise OverflowError, w)).
  { rewrite get_busy_slots_eq.
    pose proof (to_utc_spec s Vs) as Ss. pose proof (to_utc_spec e Ve) as Se.
    destruct (US_PER_DAY + IST_OFFSET_US <=? to_us s) eqn:Ls.
    - destruct Ss as (su & -> & _). apply Z.leb_le in Ls.
      destruct (US_PER_DAY + IST_OFFSET_US <=? to_us e) eqn:Le;
        [apply Z.leb_le in Le; lia|].
      rewrite Se. reflexivity.
    - rewrite Ss. reflexivity. }
  split; [exact G | exact (eq_trans (textbasedbot_get_busy_slots email s e w) G)].
Qed.

(** X5. [is_slot_free_for_both] answers [True] exactly when the
    recruiter's query and then the candidate's, in the world the first
    one left, both return an empty busy list. *)
Theorem is_slot_free_for_both_true_iff recruiter candidate s e w w' :
  autointerviewbot.is_slot_free_for_both service recruiter candidate s e w
    = (Ok true, w')
  <-> exists w1,
        autointerviewbot.get_busy_slots service recruiter s e w = (Ok [], w1)
        /\ autointerviewbot.get_busy_slots service candidate s e w1 = (Ok [], w').
Proof.
  unfold autointerviewbot.is_slot_free_for_both, bind, ret. split.
  - intros H.
    destruct (autointerviewbot.get_busy_slots service recruiter s e w)
      as [[rb|x] w1]; [|discriminate].
    destruct (autointerviewbot.get_busy_slots service candidate s e w1)
      as [[cb|x] w2] eqn:C; [|discriminate].
    injection H as B <-. apply andb_true_iff in B. destruct B as [Br Bc].
    destruct rb; [|discriminate]. destruct cb; [|discriminate].
    exists w1. split; [reflexivity | exact C].
  - intros (w1 & -> & ->). reflexivity.
Qed.

(** X6. A busy recruiter does not spare the candidate's query:
    [is_slot_free_for_both] still asks for the candidate's busy list,
    answers [False] when that query returns, and fails with its exception
    when it raises. *)
Theorem is_slot_free_for_both_asks_both recruiter candidate s e w rb w1 :
  autointerviewbot.get_busy_slots service recruiter s e w = (Ok rb, w1) ->
  rb <> [] ->
  autointerviewbot.is_slot_free_for_both service recruiter candidate s e w
  = match autointerviewbot.get_busy_slots service candidate s e w1 with
    | (Ok _, w2) => (Ok false, w2)
    | (Raise x, w2) => (Raise x, w2)
    end.
Proof.
  intros R N. unfold autointerviewbot.is_slot_free_for_both, bind, ret. rewrite R.
  destruct (autointerviewbot.get_busy_slots service candidate s e w1) as [[cb|x] w2];
    [|reflexivity].
  destruct rb; [congruence | reflexivity].
Qed.

End Queries.

(** *** More on [clamp_to_working_hours] *)

Lemma not_in_working_hours t : in_working_hours t = false ->
  5 <= weekday t \/ hour t < 9 \/ 19 <= hour t.
Proof.
  unfold in_working_hours. rewrite !andb_false_iff, !Z.ltb_ge, Z.leb_gt. lia.
Qed.

Lemma is_in_working_hours t : in_working_hours t = true ->
  weekday t < 5 /\ 9 <= hour t < 19.
Proof.
  unfold in_working_hours. rewrite !andb_true_iff, !Z.ltb_lt, Z.leb_le. lia.
Qed.

Lemma days_to_open_cases t :
  (5 <= weekday t /\ days_to_open t = 7 - weekday t)
  \/ (weekday t < 5 /\ hour t < 9 /\ days_to_open t = 0)
  \/ (weekday t = 4 /\ 9 <= hour t /\ days_to_open t = 3)
  \/ (weekday t < 4 /\ 9 <= hour t /\ days_to_open t = 1).
Proof.
  unfold days_to_open. pose proof (weekday_range t).
  destruct (5 <=? weekday t) eqn:A; [apply Z.leb_le in A; lia | apply Z.leb_gt in A].
  destruct (hour t <? 9) eqn:B; [apply Z.ltb_lt in B; lia | apply Z.ltb_ge in B].
  destruct (weekday t =? 4) eqn:C; [apply Z.eqb_eq in C; lia | apply Z.eqb_neq in C; lia].
Qed.

(** The clamp of a datetime outside working hours, on the time line. *)
Lemma clamp_to_working_hours_moved t t' :
  valid t = true -> in_working_hours t = false ->
  autointerviewbot.clamp_to_working_hours t = Ok t' ->
  t' = day_at_nine (toordinal t + days_to_open t)
  /\ valid t' = true
  /\ to_us t' = (toordinal t + days_to_open t) * US_PER_DAY + 9 * US_PER_HOUR.
Proof.
  intros V W C. rewrite (clamp_to_working_hours_closed t V), W in C.
  destruct (toordinal t + days_to_open t <=? _MAXORDINAL) eqn:B; [|discriminate].
  injection C as <-. apply Z.leb_le in B.
  destruct (days_to_open_weekday t V W B) as (_ & R & _).
  destruct (day_at_nine_spec _ R) as (V9 & O9 & T9).
  splits; auto. rewrite to_us_split, O9, T9. reflexivity.
Qed.

Lemma clamp_to_working_hours_below t t' u :
  valid t = true -> autointerviewbot.clamp_to_working_hours t = Ok t' ->
  valid u = true -> in_working_hours u = true -> to_us t <= to_us u ->
  valid t' = true /\ to_us t' <= to_us u.
Proof.
  intros V C Vu Wu L.
  destruct (in_working_hours t) eqn:W.
  - rewrite (clamp_to_working_hours_closed t V), W in C. injection C as <-. auto.
  - destruct (clamp_to_working_hours_moved t t' V W C) as (_ & V' & U').
    split; [exact V'|]. rewrite U'.
    rewrite (to_us_split u). rewrite (to_us_split t), (to_us_split u) in L.
    pose proof (tod_range t V) as Rt. pose proof (tod_range u Vu) as Ru.
    apply is_in_working_hours in Wu. destruct Wu as [Wk Wh].
    apply not_in_working_hours in W.
    pose proof (days_to_open_cases t) as D.
    rewrite (hour_of_tod u Vu) in Wh. rewrite (hour_of_tod t V) in W, D.
    unfold weekday in *.
    set (o := toordinal t) in *. set (ou := toordinal u) in *.
    set (r := tod t) in *. set (ru := tod u) in *.
    set (d := days_to_open t) in *. clearbody o ou r ru d.
    unfold US_PER_DAY, US_PER_HOUR in *.
    Z.to_euclidean_division_equations; lia.
Qed.

(** X7. The result of [clamp_to_working_hours] is the earliest moment of
    working hours at or after its argument: it is a datetime of Monday
    to Friday, 9 to 19, it is not before the argument, and every datetime
    of Monday to Friday, 9 to 19, that is not before the argument is not
    before the result. *)
Theorem clamp_to_working_hours_least t t' :
  valid t = true -> autointerviewbot.clamp_to_working_hours t = Ok t' ->
  valid t' = true /\ in_working_hours t' = true /\ leb t t' = true
  /\ forall u, valid u = true -> in_working_hours u = true -> leb t u = true ->
       leb t' u = true.
Proof.
  intros V C.
  pose proof (clamp_to_working_hours_forward t V) as F. rewrite C in F.
  destruct F as (V' & L & W & _). splits; auto.
  intros u Vu Wu Lu. rewrite (leb_to_us _ _ V Vu) in Lu. apply Z.leb_le in Lu.
  destruct (clamp_to_working_hours_below t t' u V C Vu Wu Lu) as [_ L'].
  rewrite (leb_to_us _ _ V' Vu). apply Z.leb_le, L'.
Qed.

(** X8. [clamp_to_working_hours] keeps the order of time: of two
    datetimes, the later one is clamped to a moment that is not before
    the clamp of the earlier one. *)
Theorem clamp_to_working_hours_monotone t u t' u' :
  valid t = true -> valid u = true -> leb t u = true ->
  autointerviewbot.clamp_to_working_hours t = Ok t' ->
  autointerviewbot.clamp_to_working_hours u = Ok u' ->
  leb t' u' = true.
Proof.
  intros Vt Vu L Ct Cu.
  pose proof (clamp_to_working_hours_forward u Vu) as F. rewrite Cu in F.
  destruct F as (Vu' & Lu & Wu & _).
  rewrite (leb_to_us _ _ Vt Vu) in L. rewrite (leb_to_us _ _ Vu Vu') in Lu.
  rewrite Z.leb_le in *.
  destruct (clamp_to_working_hours_below t t' u' Vt Ct Vu' Wu ltac:(lia)) as [V' L'].
  rewrite (leb_to_us _ _ V' Vu'). apply Z.leb_le, L'.
Qed.

(** X9. A datetime outside working hours is moved to 09:00:00.000000
    sharp, strictly later, and by no more than 62 hours, the way from
    Friday 19:00 to Monday 09:00. *)
Theorem clamp_to_working_hours_moves_to_nine t t' :
  valid t = true -> in_working_hours t = false ->
  autointerviewbot.clamp_to_working_hours t = Ok t' ->
  hour t' = 9 /\ minute t' = 0 /\ second t' = 0 /\ microsecond t' = 0
  /\ ltb t t' = true /\ to_us t' - to_us t <= 62 * US_PER_HOUR.
Proof.
  intros V W C.
  destruct (clamp_to_working_hours_moved t t' V W C) as (E & V' & U').
  assert (F : hour t' = 9 /\ minute t' = 0 /\ second t' = 0 /\ microsecond t' = 0).
  { rewrite E. unfold day_at_nine. destruct (_ord2ymd _) as [[y m] d]. cbn. auto. }
  destruct F as (F1 & F2 & F3 & F4).
  pose proof (tod_range t V) as Rt. pose proof (days_to_open_cases t) as D.
  apply not_in_working_hours in W.
  rewrite (hour_of_tod t V) in D, W. pose proof (weekday_range t) as Rw.
  assert (G : to_us t < to_us t' /\ to_us t' - to_us t <= 62 * US_PER_HOUR).
  { rewrite U', (to_us_split t).
    set (o := toordinal t) in *. set (r := tod t) in *. set (wd := weekday t) in *.
    set (d := days_to_open t) in *. clearbody o r d wd.
    unfold US_PER_DAY, US_PER_HOUR in *.
    Z.to_euclidean_division_equations; lia. }
  splits; auto; try apply G.
  rewrite (ltb_to_us _ _ V V'). apply Z.ltb_lt, G.
Qed.

(** *** More on [clamp_to_future_2025] *)

Lemma ltb_year a b : year a < year b -> ltb a b = true.
Proof.
  intros H. unfold ltb, fields. cbn [_cmp].
  apply Z.compare_lt_iff in H. rewrite H. reflexivity.
Qed.

Section FutureMore.
Context {World : Type}.
Variable utcnow : World -> datetime * World.

(** X10. When [clamp_to_future_2025] returns, its result is in a year
    from 2025 on and not before its argument, and the clamp leaves it
    unchanged whenever the clock reads the same again: the function moves
    forward only, and it is idempotent under a clock that stands still. *)
Theorem clamp_to_future_2025_forward_and_stable t w t' w' :
  valid t = true ->
  autointerviewbot.clamp_to_future_2025 utcnow t w = (Ok t', w') ->
  valid t' = true /\ 2025 <= year t' /\ leb t t' = true
  /\ exists now, autointerviewbot.get_now_ist utcnow w = (Ok now, w')
       /\ forall w2 w2', autointerviewbot.get_now_ist utcnow w2 = (Ok now, w2') ->
            autointerviewbot.clamp_to_future_2025 utcnow t' w2 = (Ok t', w2').
Proof.
  intros V F.
  destruct (clamp_to_future_2025_inv utcnow _ _ _ _ V F) as (now & N & Ft & Fn).
  destruct (clamp_to_future_2025_ok utcnow t w now w' V N Ft Fn)
    as (c & F' & _ & V' & Y' & L' & M' & _).
  rewrite F in F'. injection F' as <-.
  splits; auto. exists now. split; [exact N|]. intros w2 w2' N2.
  pose proof (get_now_ist_valid utcnow w now w' N) as Vn.
  pose proof (valid_with_year_2025 now Vn Fn) as Vf. fold (floor_2025 now) in Vf.
  rewrite (clamp_to_future_2025_closed utcnow t' w2 now w2' V' N2).
  replace (year t' <? 2025) with false by (symmetry; apply Z.ltb_ge; lia).
  cbn [andb]. rewrite Fn. cbv zeta.
  rewrite (ltb_to_us _ _ V' Vf). rewrite (leb_to_us _ _ Vf V') in L'.
  apply Z.leb_le in L'.
  replace (to_us t' <? to_us (floor_2025 now)) with false
    by (symmetry; apply Z.ltb_ge; lia).
  reflexivity.
Qed.

(** X11. The floor of [clamp_to_future_2025] is tied to the year 2025,
    not to the year of the clock: once the clock is in 2026 or later, an
    argument of a year up to 2025 is clamped to a datetime of 2025, which
    is before the real now. *)
Theorem clamp_to_future_2025_blind_to_later_years t w now w' :
  valid t = true -> autointerviewbot.get_now_ist utcnow w = (Ok now, w') ->
  (year t <? 2025) && is_feb29 t = false -> is_feb29 now = false ->
  year t <= 2025 -> 2026 <= year now ->
  exists t', autointerviewbot.clamp_to_future_2025 utcnow t w = (Ok t', w')
    /\ year t' = 2025 /\ ltb t' now = true.
Proof.
  intros V N Ft Fn Y Yn.
  destruct (clamp_to_future_2025_ok utcnow t w now w' V N Ft Fn)
    as (t' & F & E & _).
  exists t'. split; [exact F|].
  assert (Y' : year t' = 2025).
  { rewrite E. cbv zeta.
    destruct (year t <? 2025) eqn:Lt; [|apply Z.ltb_ge in Lt];
      destruct (ltb _ _); cbn [floor_2025 with_year year]; lia. }
  split; [exact Y'|]. apply ltb_year. lia.
Qed.

End FutureMore.

(** *** More on the seed-time search *)

Section SearchMore.
Context {World : Type}.
Variable utcnow : World -> datetime * World.
Variable service : Service World.

Lemma round_busy_hour current w next w' :
  valid current = true -> round utcnow service current w = (Busy next, w') ->
  valid next = true /\ to_us current + US_PER_HOUR <= to_us next.
Proof.
  intros V R. unfold round in R.
  destruct (autointerviewbot.clamp_to_future_2025 utcnow current w) as [[c1|e] w1] eqn:F;
    [|discriminate].
  destruct (clamp_to_future_2025_inv utcnow _ _ _ _ V F) as (now & N & Ft & Fn).
  destruct (clamp_to_future_2025_ok utcnow current w now w1 V N Ft Fn)
    as (c1' & F' & _ & V1 & _ & _ & M1 & _).
  rewrite F in F'. injection F' as <-.
  pose proof (clamp_to_working_hours_forward c1 V1) as C.
  destruct (autointerviewbot.clamp_to_working_hours c1) as [c2|e]; [|discriminate].
  destruct C as (V2 & L2 & _).
  destruct (add c2 (timedelta_new 0 1 0 0 0)) as [e2|e] eqn:A; [|discriminate].
  destruct (autointerviewbot.is_slot_free_for_both service _ _ c2 e2 w1) as [[[]|e] w2];
    try discriminate.
  injection R as <- _. apply add_ok in A. destruct A as [Ve Ue].
  rewrite td_total_new in Ue. split; [exact Ve|].
  rewrite (leb_to_us _ _ V V1) in M1. rewrite (leb_to_us _ _ V1 V2) in L2.
  rewrite Z.leb_le in *. unfold US_PER_HOUR. lia.
Qed.

Lemma advances_progress k : forall current w ck wk,
  valid current = true -> advances utcnow service k current w = Some (ck, wk) ->
  valid ck = true /\ to_us current + Z.of_nat k * US_PER_HOUR <= to_us ck.
Proof.
  induction k as [|k IH]; intros current w ck wk V H.
  - injection H as <- _. split; [exact V|]. lia.
  - cbn [advances] in H.
    destruct (round utcnow service current w) as [[|next|] w'] eqn:R; try discriminate.
    destruct (round_busy_hour current w next w' V R) as [Vn Un].
    destruct (IH next w' ck wk Vn H) as [Vk Uk]. split; [exact Vk|].
    unfold US_PER_HOUR in *. lia.
Qed.

(** A slot that the search returns: the free round that found it. *)
Lemma find_first_free_slot_found seed w slot w' :
  autointerviewbot.find_first_free_slot utcnow service seed w = (Ok (Some slot), w') ->
  exists k c wk, (k < autointerviewbot.max_attempts)%nat
    /\ advances utcnow service k seed w = Some (c, wk)
    /\ round utcnow service c wk = (Found slot, w').
Proof.
  intros H. unfold autointerviewbot.find_first_free_slot in H.
  destruct (while_attempts_outcome utcnow service autointerviewbot.max_attempts seed w)
    as (k & ck & wk & Hk & Ha & [[_ E] | [[Hlt (s & w1 & R & E)] | [_ (e & w1 & _ & E)]]]);
    rewrite E in H; try discriminate.
  injection H as -> ->. exists k, ck, wk. auto.
Qed.

(** X12. The seed-time search never returns a slot before its seed: a
    slot found after [k] busy rounds starts at least [k] hours after the
    seed. *)
Theorem find_first_free_slot_not_before_seed seed w slot w' :
  valid seed = true ->
  autointerviewbot.find_first_free_slot utcnow service seed w = (Ok (Some slot), w') ->
  leb seed slot = true
  /\ exists k c wk, (k < autointerviewbot.max_attempts)%nat
       /\ advances utcnow service k seed w = Some (c, wk)
       /\ round utcnow service c wk = (Found slot, w')
       /\ to_us seed + Z.of_nat k * US_PER_HOUR <= to_us c
       /\ to_us c <= to_us slot.
Proof.
  intros V H.
  destruct (find_first_free_slot_found seed w slot w' H) as (k & ck & wk & Hlt & Ha & R).
  destruct (advances_progress k seed w ck wk V Ha) as [Vk Uk].
  destruct (round_found utcnow service ck wk slot w' Vk R)
    as (now & wk' & N & Vs & _ & _ & L).
  rewrite (leb_to_us _ _ Vk Vs) in L. apply Z.leb_le in L.
  split.
  - rewrite (leb_to_us _ _ V Vs). apply Z.leb_le. unfold US_PER_HOUR in *. lia.
  - exists k, ck, wk. splits; auto.
Qed.

(** X13. A seed that, once a year before 2025 has been raised to 2025
    with its month, day and time kept, lies before the floor, "now"
    re-anchored to 2025: when the floor lies inside working hours and the
    oracle reports every interval free, the search returns the floor
    itself, with the minute, second and microsecond of the clock reading.
    The comparison is made after the year is raised: a seed of an earlier
    year whose month and day come after those of the floor is not before
    the floor in this sense, and the search then starts from the raised
    seed. *)
Theorem past_seed_returns_floor seed w now w1 :
  valid seed = true -> (year seed <? 2025) && is_feb29 seed = false ->
  reports_free service ->
  autointerviewbot.get_now_ist utcnow w = (Ok now, w1) -> is_feb29 now = false ->
  ltb (if year seed <? 2025 then with_year seed 2025 else seed) (floor_2025 now) = true ->
  in_working_hours (floor_2025 now) = true ->
  exists w', autointerviewbot.find_first_free_slot utcnow service seed w
             = (Ok (Some (floor_2025 now)), w').
Proof.
  intros V Ft Free N Fn L W.
  pose proof (get_now_ist_valid utcnow w now w1 N) as Vn.
  pose proof (valid_with_year_2025 now Vn Fn) as Vf. fold (floor_2025 now) in Vf.
  destruct (clamp_to_future_2025_ok utcnow seed w now w1 V N Ft Fn)
    as (c1 & F & E1 & _).
  cbv zeta in E1. rewrite L in E1. subst c1.
  destruct (add_hour_in_working_hours _ Vf W) as (e & A & Ve & Ue).
  pose proof (year_is_2025_range _ Vf eq_refl) as Rf.
  assert (Ye : 2025 <= year e) by (apply year_ge_2025_of_to_us; [exact Ve|];
    unfold US_PER_HOUR in *; lia).
  assert (Yf : 2025 <= year (floor_2025 now)) by (cbn; lia).
  destruct (Free _ e w1 Vf Ve Yf Ye) as (w2 & Q).
  exists w2.
  rewrite find_first_free_slot_round. unfold round.
  rewrite F, (clamp_to_working_hours_closed _ Vf), W, A, Q. reflexivity.
Qed.

(** X14. The hour after a slot that the search returns, the
    [event_end_ist = free_slot_ist + timedelta(hours=1)] of [main], always
    exists and lies on the day of the slot: the minute, second and
    microsecond are those of the slot, the hour is one more, from 10 up
    to 19. The meeting can end as late as 19:59:59.999999. *)
Theorem found_slot_ends_the_same_day seed w slot w' :
  valid seed = true ->
  autointerviewbot.find_first_free_slot utcnow service seed w = (Ok (Some slot), w') ->
  exists event_end_ist,
    add slot (timedelta_new 0 1 0 0 0) = Ok event_end_ist
    /\ valid event_end_ist = true
    /\ toordinal event_end_ist = toordinal slot
    /\ hour event_end_ist = hour slot + 1
    /\ minute event_end_ist = minute slot /\ second event_end_ist = second slot
    /\ microsecond event_end_ist = microsecond slot
    /\ 10 <= hour event_end_ist <= 19.
Proof.
  intros V H.
  destruct (find_first_free_slot_found seed w slot w' H) as (k & ck & wk & Hlt & Ha & R).
  pose proof (advances_valid utcnow service k seed w ck wk V Ha) as Vk.
  destruct (round_found utcnow service ck wk slot w' Vk R) as (now & wk' & N & Vs & W & _).
  destruct (add_hour_in_working_hours slot Vs W) as (e & A & Ve & Ue).
  exists e. split; [exact A|]. split; [exact Ve|].
  apply is_in_working_hours in W. destruct W as [_ Wh].
  pose proof Vs as Vs'. apply valid_iff in Vs'. destruct Vs' as (_ & Hh & Hm & Hs & Hu).
  pose proof Ve as Ve'. apply valid_iff in Ve'. destruct Ve' as (_ & Eh & Em & Es & Eu).
  pose proof (tod_range slot Vs) as Rs.
  destruct (ordinal_tod_of_us e (toordinal slot) (tod slot + US_PER_HOUR) Ve) as [Oe Te].
  { rewrite Ue, (to_us_split slot). ring. }
  { rewrite (hour_of_tod slot Vs) in Wh. unfold US_PER_DAY, US_PER_HOUR in *.
    Z.to_euclidean_division_equations; lia. }
  split; [exact Oe|]. unfold tod, US_PER_HOUR in Te.
  assert (hour e = hour slot + 1 /\ minute e = minute slot /\ second e = second slot
          /\ microsecond e = microsecond slot) by lia.
  lia.
Qed.

End SearchMore.

(** *** The requests of a search *)

Section Counting.
Context {World : Type}.
Variable utcnow : World -> datetime * World.
Variable service : Service World.

Lemma get_busy_slots_counted email s e wn r wn' :
  autointerviewbot.get_busy_slots (counted service) email s e wn = (r, wn') ->
  (snd wn <= snd wn' <= snd wn + 1)%nat.
Proof.
  rewrite get_busy_slots_eq.
  destruct (autointerviewbot.to_utc s) as [su|x]; [|intros H; injection H as _ <-; lia].
  destruct (autointerviewbot.to_utc e) as [eu|x]; [|intros H; injection H as _ <-; lia].
  cbn [counted freebusy_query_execute].
  destruct (freebusy_query_execute service (query_body email su eu) (fst wn))
    as [[response|x] w1].
  - destruct (getitem (calendars response) email); intros H; injection H as _ <-;
      cbn [snd]; lia.
  - intros H. injection H as _ <-. cbn [snd]. lia.
Qed.

Lemma is_slot_free_for_both_counted r c s e wn b wn' :
  autointerviewbot.is_slot_free_for_both (counted service) r c s e wn = (b, wn') ->
  (snd wn <= snd wn' <= snd wn + 2)%nat.
Proof.
  unfold autointerviewbot.is_slot_free_for_both, bind, ret.
  destruct (autointerviewbot.get_busy_slots (counted service) r s e wn)
    as [[rb|x] wn1] eqn:R.
  - destruct (autointerviewbot.get_busy_slots (counted service) c s e wn1)
      as [[cb|x] wn2] eqn:C; intros H; injection H as _ <-;
      apply get_busy_slots_counted in R; apply get_busy_slots_counted in C; lia.
  - intros H. injection H as _ <-. apply get_busy_slots_counted in R. lia.
Qed.

Lemma textbasedbot_is_slot_free_for_both_counted r c s e wn b wn' :
  textbasedbot.is_slot_free_for_both (counted service) r c s e wn = (b, wn') ->
  (snd wn <= snd wn' <= snd wn + 2)%nat.
Proof.
  unfold textbasedbot.is_slot_free_for_both, bind, ret.
  destruct (textbasedbot.get_busy_slots (counted service) r s e wn)
    as [[rb|x] wn1] eqn:R;
    apply (eq_trans (eq_sym (textbasedbot_get_busy_slots _ _ _ _ _))) in R;
    apply get_busy_slots_counted in R.
  - destruct (textbasedbot.get_busy_slots (counted service) c s e wn1)
      as [[cb|x] wn2] eqn:C;
      apply (eq_trans (eq_sym (textbasedbot_get_busy_slots _ _ _ _ _))) in C;
      apply get_busy_slots_counted in C; intros H; injection H as _ <-; lia.
  - intros H. injection H as _ <-. lia.
Qed.

Lemma clamp_to_future_2025_counted t wn r wn' :
  autointerviewbot.clamp_to_future_2025 (beside_count utcnow) t wn = (r, wn') ->
  snd wn' = snd wn.
Proof.
  unfold autointerviewbot.clamp_to_future_2025, autointerviewbot.get_now_ist,
    bind, lift, ret, beside_count.
  destruct (utcnow (fst wn)) as [u w1].
  destruct (add u (timedelta_new 0 5 30 0 0)) as [now|x];
    [|intros H; now injection H as _ <-].
  destruct (if year t <? 2025 then replace_year t 2025 else Ok t) as [t1|x];
    [|intros H; now injection H as _ <-].
  destruct (new 2025 _ _ _ _ _ _) as [v|x]; intros H; now injection H as _ <-.
Qed.

Lemma round_counted current wn o wn' :
  round (beside_count utcnow) (counted service) current wn = (o, wn') ->
  (snd wn <= snd wn' <= snd wn + 2)%nat.
Proof.
  unfold round.
  destruct (autointerviewbot.clamp_to_future_2025 (beside_count utcnow) current wn)
    as [[c1|x] wn1] eqn:F;
    apply clamp_to_future_2025_counted in F;
    [|intros H; injection H as _ <-; lia].
  destruct (autointerviewbot.clamp_to_working_hours c1) as [c2|x];
    [|intros H; injection H as _ <-; lia].
  destruct (add c2 (timedelta_new 0 1 0 0 0)) as [e2|x];
    [|intros H; injection H as _ <-; lia].
  destruct (autointerviewbot.is_slot_free_for_both (counted service) _ _ c2 e2 wn1)
    as [[[]|x] wn2] eqn:Q; apply is_slot_free_for_both_counted in Q;
    intros H; injection H as _ <-; lia.
Qed.

Lemma while_attempts_counted k : forall current wn r wn',
  autointerviewbot.while_attempts (beside_count utcnow) (counted service) k current wn
    = (r, wn') ->
  (snd wn <= snd wn' <= snd wn + 2 * k)%nat.
Proof.
  induction k as [|k IH]; intros current wn r wn' H.
  - cbn [autointerviewbot.while_attempts] in H. unfold ret in H.
    injection H as _ <-. lia.
  - rewrite while_attempts_round in H.
    destruct (round (beside_count utcnow) (counted service) current wn)
      as [[slot|next|x] wn1] eqn:R;
      apply round_counted in R.
    + injection H as _ <-. lia.
    + apply IH in H. lia.
    + injection H as _ <-. lia.
Qed.

Lemma first_free_counted (probe : datetime -> datetime -> M (World * nat) bool) :
  (forall a b wn r wn', probe a b wn = (r, wn') ->
     (snd wn <= snd wn' <= snd wn + 2)%nat) ->
  forall slots wn r wn', first_free probe slots wn = (r, wn') ->
    (snd wn <= snd wn' <= snd wn + 2 * List.length slots)%nat.
Proof.
  intros P. induction slots as [|[a b] slots IH]; intros wn r wn' H.
  - cbn [first_free] in H. unfold ret in H. injection H as _ <-. cbn [List.length]. lia.
  - cbn [first_free] in H. unfold bind, ret in H.
    destruct (probe a b wn) as [[[]|x] wn1] eqn:Q; apply P in Q.
    + injection H as _ <-. cbn [List.length]. lia.
    + apply IH in H. cbn [List.length]. lia.
    + injection H as _ <-. cbn [List.length]. lia.
Qed.

(** X15. One run of the seed-time search sends the calendar service at
    most two requests for each round of its budget, 6000 in all, however
    it ends. *)
Theorem find_first_free_slot_requests_bounded seed w n r w' n' :
  autointerviewbot.find_first_free_slot (beside_count utcnow) (counted service)
    seed (w, n) = (r, (w', n')) ->
  (n <= n' <= n + 2 * autointerviewbot.max_attempts)%nat.
Proof.
  intros H. unfold autointerviewbot.find_first_free_slot in H.
  apply while_attempts_counted in H. exact H.
Qed.

(** X16. One run of the range search sends the calendar service at most
    two requests for each whole hour between the start and the end of the
    range, however it ends. *)
Theorem find_1hr_slot_within_range_requests_bounded s e w n r w' n' :
  valid s = true -> valid e = true -> year s <= 9998 -> year e <= 9998 ->
  textbasedbot.find_1hr_slot_within_range (counted service) s e (w, n)
    = (r, (w', n')) ->
  (n <= n' <= n + 2 * Z.to_nat ((to_us e - to_us s) / US_PER_HOUR))%nat.
Proof.
  intros Vs Ve Ys Ye H.
  destruct (find_1hr_slot_within_range_slots (counted service) s e (w, n) Vs Ve Ys Ye)
    as (k & N & Vk & _ & Uk & E & B).
  rewrite E in H.
  apply (first_free_counted _ (textbasedbot_is_slot_free_for_both_counted _ _)) in H.
  rewrite (hourly_slots_length _ k Vk B) in H. cbn [snd] in H.
  pose proof (slot_count_unfold k e) as Sc.
  assert (L : (slot_count k e <= Z.to_nat ((to_us e - to_us s) / US_PER_HOUR))%nat).
  { rewrite Sc.
    assert (D : (to_us e - to_us k) / US_PER_HOUR <= (to_us e - to_us s) / US_PER_HOUR)
      by (apply Z.div_le_mono; unfold US_PER_HOUR; lia).
    revert D. generalize ((to_us e - to_us k) / US_PER_HOUR).
    generalize ((to_us e - to_us s) / US_PER_HOUR). intros. lia. }
  lia.
Qed.

End Counting.

(** *** More on the range search *)

Section RangeMore.
Context {World : Type}.
Variable service : Service World.

(** X17. A range too short for a whole hour after its start is rounded
    up, and so every range shorter than an hour, empty or reversed, gives
    [None], and the world is untouched: the oracle is not asked. *)
Theorem find_1hr_slot_within_range_short_range s e w :
  valid s = true -> valid e = true -> year s <= 9998 ->
  exists n, normalizedStart s = Ok n
    /\ (to_us e < to_us n + US_PER_HOUR ->
        textbasedbot.find_1hr_slot_within_range service s e w = (Ok None, w))
    /\ (to_us e < to_us s + US_PER_HOUR ->
        textbasedbot.find_1hr_slot_within_range service s e w = (Ok None, w)).
Proof.
  intros Vs Ve Ys.
  pose proof (year_le_9998 s Vs Ys) as Bs.
  destruct (normalizedStart_spec s Vs Bs) as (n & N & Vn & _ & Un).
  exists n. split; [exact N|].
  assert (G : to_us e < to_us n + US_PER_HOUR ->
              textbasedbot.find_1hr_slot_within_range service s e w = (Ok None, w)).
  { intros Short.
    rewrite (find_1hr_slot_within_range_normalized service s e Vs).
    unfold bind, lift. rewrite N. rewrite while_in_range_eq.
    destruct (add_hour_spec n Vn) as (next & A & Vx & Ux).
    { unfold US_PER_DAY, US_PER_HOUR, _MAXORDINAL in *. lia. }
    rewrite A. rewrite (leb_to_us _ _ Vx Ve).
    replace (to_us next <=? to_us e) with false by (symmetry; apply Z.leb_gt; lia).
    reflexivity. }
  split; [exact G|]. intros Short. apply G. lia.
Qed.

(** X18. A slot that the range search returns lies inside the range: it
    starts at or after the start of the range, ends at or before its end,
    lasts exactly one hour, and both its ends are on the hour. *)
Theorem find_1hr_slot_within_range_inside s e w slot_start slot_end w' :
  valid s = true -> valid e = true -> year s <= 9998 -> year e <= 9998 ->
  textbasedbot.find_1hr_slot_within_range service s e w
    = (Ok (Some (slot_start, slot_end)), w') ->
  leb s slot_start = true /\ leb slot_end e = true
  /\ to_us slot_end = to_us slot_start + US_PER_HOUR
  /\ minute slot_start = 0 /\ second slot_start = 0 /\ microsecond slot_start = 0
  /\ minute slot_end = 0 /\ second slot_end = 0 /\ microsecond slot_end = 0.
Proof.
  intros Vs Ve Ys Ye H.
  destruct (find_1hr_slot_within_range_slots service s e w Vs Ve Ys Ye)
    as (n & N & Vn & Hn & Un & E & B).
  rewrite E in H.
  pose proof (first_free_outcome
                (textbasedbot.is_slot_free_for_both service
                   textbasedbot.RECRUITER_EMAIL textbasedbot.CANDIDATE_EMAIL)
                (hourly_slots (slot_count n e) n) w) as O.
  rewrite H in O. destruct O as (pre & post & wk & S & _ & _).
  assert (Nth : nth_error (hourly_slots (slot_count n e) n) (List.length pre)
                = Some (slot_start, slot_end)).
  { rewrite S, nth_error_app2 by lia. now rewrite Nat.sub_diag. }
  destruct (hourly_slots_nth _ n _ _ Vn B Nth) as (V1 & V2 & U1 & _ & U2 & Lt).
  cbn [fst snd] in *.
  pose proof (slot_count_unfold n e) as Sc.
  apply (on_the_hour n Vn) in Hn.
  assert (H1 : to_us slot_start mod US_PER_HOUR = 0).
  { rewrite U1. unfold US_PER_HOUR in *. Z.to_euclidean_division_equations; lia. }
  assert (H2 : to_us slot_end mod US_PER_HOUR = 0).
  { rewrite U2. unfold US_PER_HOUR in *. Z.to_euclidean_division_equations; lia. }
  apply (on_the_hour _ V1) in H1. apply (on_the_hour _ V2) in H2.
  rewrite (leb_to_us _ _ Vs V1), (leb_to_us _ _ V2 Ve).
  assert (K : Z.of_nat (List.length pre) + 1 <= Z.of_nat (slot_count n e)) by lia.
  rewrite Sc in K.
  assert (Le : to_us slot_end <= to_us e).
  { rewrite U2, U1. unfold US_PER_HOUR in *. Z.to_euclidean_division_equations; nia. }
  assert (Ls : to_us s <= to_us slot_start).
  { rewrite U1. unfold US_PER_HOUR in *. lia. }
  splits; try tauto; try (apply Z.leb_le; assumption).
Qed.

End RangeMore.

(** *** The texts *)

Lemma nat_of_dch n : nat_of_ascii (dch n) = (48 + Z.to_nat (n mod 10))%nat.
Proof.
  unfold dch. apply nat_ascii_embedding.
  pose proof (Z.mod_pos_bound n 10 ltac:(lia)). lia.
Qed.

Lemma isdigit_dch n : isdigit (dch n) = true.
Proof.
  unfold isdigit. rewrite nat_of_dch. pose proof (Z.mod_pos_bound n 10 ltac:(lia)).
  apply andb_true_iff. split; apply Nat.leb_le; lia.
Qed.

Lemma digit_value_dch n : digit_value (dch n) = n mod 10.
Proof.
  unfold digit_value. rewrite nat_of_dch.
  pose proof (Z.mod_pos_bound n 10 ltac:(lia)). lia.
Qed.

Lemma isdigit_range c : isdigit c = true -> 0 <= digit_value c <= 9.
Proof.
  unfold isdigit, digit_value. rewrite andb_true_iff, !Nat.leb_le. lia.
Qed.

Lemma dch_digit_value c n : isdigit c = true -> n mod 10 = digit_value c -> dch n = c.
Proof.
  intros D E. pose proof (isdigit_range c D) as R. unfold dch. rewrite E.
  unfold digit_value in *.
  replace (48 + Z.to_nat (Z.of_nat (nat_of_ascii c) - 48))%nat
    with (nat_of_ascii c) by lia.
  apply ascii_nat_embedding.
Qed.

Lemma zero_padded_4 n :
  zero_padded 4 n
  = String (dch (n / 10 / 10 / 10)) (String (dch (n / 10 / 10))
      (String (dch (n / 10)) (String (dch n) EmptyString))).
Proof. reflexivity. Qed.

Lemma zero_padded_2 n :
  zero_padded 2 n = String (dch (n / 10)) (String (dch n) EmptyString).
Proof. reflexivity. Qed.

(** The nineteen characters of [timestamp]. *)
Lemma timestamp_chars t post :
  (timestamp t ++ post)%string =
  String (dch (year t / 10 / 10 / 10)) (String (dch (year t / 10 / 10))
    (String (dch (year t / 10)) (String (dch (year t))
    (String "-" (String (dch (month t / 10)) (String (dch (month t))
    (String "-" (String (dch (day t / 10)) (String (dch (day t))
    (String "T" (String (dch (hour t / 10)) (String (dch (hour t))
    (String ":" (String (dch (minute t / 10)) (String (dch (minute t))
    (String ":" (String (dch (second t / 10)) (String (dch (second t))
    post)))))))))))))))))).
Proof.
  unfold timestamp. rewrite zero_padded_4, !zero_padded_2. reflexivity.
Qed.

Lemma string_app_nil_r s : (s ++ EmptyString)%string = s.
Proof. induction s as [|c s IH]; [reflexivity|]. cbn [append]. now rewrite IH. Qed.

Lemma string_app_assoc a b c : ((a ++ b) ++ c)%string = (a ++ (b ++ c))%string.
Proof. induction a as [|x a IH]; [reflexivity|]. cbn [append]. now rewrite IH. Qed.

Lemma decimal_4 n : 0 <= n <= 9999 ->
  (((0 * 10 + (n / 10 / 10 / 10) mod 10) * 10 + (n / 10 / 10) mod 10) * 10
   + (n / 10) mod 10) * 10 + n mod 10 = n.
Proof. intros H. Z.to_euclidean_division_equations; lia. Qed.

Lemma decimal_2 n : 0 <= n <= 99 ->
  (0 * 10 + (n / 10) mod 10) * 10 + n mod 10 = n.
Proof. intros H. Z.to_euclidean_division_equations; lia. Qed.

Lemma match_here_timestamp t post :
  match_here autointerviewbot_text.pattern (timestamp t ++ post) = Some (timestamp t).
Proof.
  rewrite <- (string_app_nil_r (timestamp t)) at 2. rewrite !timestamp_chars.
  unfold autointerviewbot_text.pattern. cbn [match_here item_matches].
  rewrite !isdigit_dch. reflexivity.
Qed.

Lemma strptime_timestamp t : valid t = true ->
  autointerviewbot_text.strptime (timestamp t) = Ok (to_the_second t).
Proof.
  intros V. rewrite <- (string_app_nil_r (timestamp t)), timestamp_chars.
  unfold autointerviewbot_text.strptime. cbn [substring int int_from].
  unfold int. cbn [int_from]. rewrite !digit_value_dch.
  pose proof V as V'. apply valid_iff in V'. destruct V' as (Dt & Hh & Hm & Hs & _).
  pose proof Dt as Dt'. apply date_ok_iff in Dt'. destruct Dt' as (Hy & Hmo & Hd).
  assert (Hd31 : day t <= 31).
  { rewrite days_in_month_dim in Hd.
    pose proof (dbm_bounds (_is_leap (year t)) (month t) Hmo). lia. }
  rewrite (decimal_4 (year t)), (decimal_2 (month t)), (decimal_2 (day t)),
    (decimal_2 (hour t)), (decimal_2 (minute t)), (decimal_2 (second t)) by lia.
  unfold new. rewrite Dt.
  replace (_check_time_fields (hour t) (minute t) (second t) 0) with true
    by (symmetry; apply time_ok_iff; lia).
  reflexivity.
Qed.

Lemma match_here_prefix p : forall s g, match_here p s = Some g ->
  exists post, s = (g ++ post)%string /\ match_here p g = Some g.
Proof.
  induction p as [|i p IH]; intros s g H; cbn [match_here] in H.
  - injection H as <-. exists s. split; reflexivity.
  - destruct s as [|c s]; [discriminate|].
    destruct (item_matches i c) eqn:I; [|discriminate].
    destruct (match_here p s) as [g'|] eqn:M; [|discriminate].
    cbn [option_map] in H. injection H as <-.
    destruct (IH s g' M) as (post & -> & M'). exists post. split; [reflexivity|].
    cbn [match_here]. rewrite I, M'. reflexivity.
Qed.

Lemma search_app p pre rest :
  no_match_within p pre rest = true -> search p (pre ++ rest) = search p rest.
Proof.
  induction pre as [|c pre IH]; intros H; [reflexivity|].
  cbn [no_match_within] in H.
  destruct (match_here p (String c pre ++ rest)) eqn:M; [discriminate|].
  change (String c pre ++ rest)%string with (String c (pre ++ rest)) in *.
  cbn [search]. rewrite M. apply IH, H.
Qed.

Lemma search_here p s g : match_here p s = Some g -> search p s = Some g.
Proof. intros H. destruct s; cbn [search]; rewrite H; reflexivity. Qed.

Lemma search_split p : forall s g, search p s = Some g ->
  exists pre post, s = (pre ++ g ++ post)%string /\ match_here p g = Some g
    /\ no_match_within p pre (g ++ post) = true.
Proof.
  induction s as [|c s IH]; intros g H.
  - cbn [search] in H. destruct (match_here p EmptyString) as [g'|] eqn:M; [|discriminate].
    injection H as ->. destruct (match_here_prefix p _ _ M) as (post & E & M').
    exists EmptyString, post. split; [exact E|]. split; [exact M' | reflexivity].
  - cbn [search] in H. destruct (match_here p (String c s)) as [g'|] eqn:M.
    + injection H as ->. destruct (match_here_prefix p _ _ M) as (post & E & M').
      exists EmptyString, post. split; [exact E|]. split; [exact M' | reflexivity].
    + destruct (IH g H) as (pre & post & E & M' & N).
      exists (String c pre), post. split; [cbn [append]; now rewrite E|].
      split; [exact M'|]. cbn [no_match_within].
      change (String c pre ++ (g ++ post))%string with (String c (pre ++ g ++ post)).
      rewrite <- E, M. exact N.
Qed.

Lemma has_digit_no_match pre rest :
  has_digit pre = false -> no_match_within autointerviewbot_text.pattern pre rest = true.
Proof.
  induction pre as [|c pre IH]; intros H; [reflexivity|].
  cbn [has_digit] in H. apply orb_false_iff in H. destruct H as [Hc Hp].
  cbn [no_match_within append]. unfold autointerviewbot_text.pattern at 1.
  cbn [match_here item_matches]. rewrite Hc. apply IH, Hp.
Qed.

Ltac match_step M g :=
  destruct g as [|? g]; cbn [match_here item_matches option_map] in M;
  [discriminate M|];
  match type of M with
  | context [if ?b then _ else _] =>
      destruct b eqn:?; cbn [option_map] in M; [|discriminate M]
  end.

(** A matched string that [strptime] accepts is the text of the
    datetime it gives. *)
Lemma strptime_inv g t :
  match_here autointerviewbot_text.pattern g = Some g ->
  autointerviewbot_text.strptime g = Ok t ->
  g = timestamp t /\ valid t = true /\ microsecond t = 0.
Proof.
  intros M P. unfold autointerviewbot_text.pattern in M.
  do 19 (match_step M g).
  cbn [match_here option_map] in M.
  assert (G : g = EmptyString) by congruence. subst g. clear M.
  repeat match goal with
         | H : Ascii.eqb _ _ = true |- _ => apply Ascii.eqb_eq in H; subst
         end.
  unfold autointerviewbot_text.strptime in P. cbn [substring] in P.
  unfold int in P. cbn [int_from] in P.
  apply new_ok in P. destruct P as [-> V]. split; [|split; [exact V | reflexivity]].
  rewrite <- (string_app_nil_r (timestamp _)), timestamp_chars.
  cbn [year month day hour minute second].
  repeat match goal with
         | H : isdigit _ = true |- _ =>
             pose proof (isdigit_range _ H); revert H
         end.
  intros.
  repeat match goal with |- String _ _ = String _ _ => f_equal end;
    symmetry; (apply dch_digit_value; [assumption|]);
    Z.to_euclidean_division_equations; lia.
Qed.

Lemma ai_time_ist_timestamp t post : valid t = true ->
  autointerviewbot_text.ai_time_ist (timestamp t ++ post) = Ok (to_the_second t).
Proof.
  intros V. unfold autointerviewbot_text.ai_time_ist.
  rewrite (search_here _ _ _ (match_here_timestamp t post)).
  apply strptime_timestamp, V.
Qed.

(** X19. The seed that [main] reads in the reply of the model is [t]
    exactly when the reply holds the nineteen characters of [t],
    [YYYY-MM-DDTHH:MM:SS], at the leftmost place where the pattern
    matches, and [t] is a valid datetime with microsecond 0. Text around
    the match is ignored, digits included, and a leftmost match that is
    no date is not passed over for a later one. *)
Theorem ai_time_ist_reads_first_timestamp response_text t :
  autointerviewbot_text.ai_time_ist response_text = Ok t
  <-> exists pre post,
        response_text = (pre ++ timestamp t ++ post)%string
        /\ no_match_within autointerviewbot_text.pattern pre (timestamp t ++ post) = true
        /\ valid t = true /\ microsecond t = 0.
Proof.
  unfold autointerviewbot_text.ai_time_ist. split.
  - intros H.
    destruct (search autointerviewbot_text.pattern response_text) as [g|] eqn:S;
      [|discriminate].
    destruct (search_split _ _ _ S) as (pre & post & E & M & N).
    destruct (strptime_inv g t M H) as (G & V & U). subst g.
    exists pre, post. auto.
  - intros (pre & post & -> & N & V & U).
    rewrite (search_app _ _ _ N), (search_here _ _ _ (match_here_timestamp t post)).
    rewrite (strptime_timestamp t V). f_equal. destruct t. cbn in *. now subst.
Qed.

(** X20. Round trip: from a reply that holds the text of a valid
    datetime, with no digit before it and anything after it, [main] reads
    that datetime back, to the second. *)
Theorem ai_time_ist_round_trip pre t post :
  valid t = true -> has_digit pre = false ->
  autointerviewbot_text.ai_time_ist (pre ++ timestamp t ++ post) = Ok (to_the_second t).
Proof.
  intros V D. unfold autointerviewbot_text.ai_time_ist.
  rewrite (search_app _ _ _ (has_digit_no_match pre _ D)).
  rewrite (search_here _ _ _ (match_here_timestamp t post)).
  apply strptime_timestamp, V.
Qed.

(** *** The braces of the JSON object *)

Lemma has_app c a b : has c (a ++ b) = has c a || has c b.
Proof.
  induction a as [|x a IH]; [reflexivity|]. cbn [append has]. rewrite IH.
  now rewrite orb_assoc.
Qed.

Lemma from_first_app c pre x :
  has c pre = false -> from_first c (pre ++ String c x) = Some (String c x).
Proof.
  induction pre as [|a pre IH]; intros H.
  - cbn [append from_first]. now rewrite Ascii.eqb_refl.
  - cbn [has] in H. apply orb_false_iff in H. destruct H as [Ha Hp].
    cbn [append from_first]. rewrite Ha. apply IH, Hp.
Qed.

Lemma from_first_some c : forall s r, from_first c s = Some r ->
  exists pre x, s = (pre ++ String c x)%string /\ r = String c x /\ has c pre = false.
Proof.
  induction s as [|a s IH]; intros r H; [discriminate|].
  cbn [from_first] in H. destruct (Ascii.eqb a c) eqn:E.
  - injection H as <-. apply Ascii.eqb_eq in E. subst a.
    exists EmptyString, s. auto.
  - destruct (IH r H) as (pre & x & -> & -> & Hp).
    exists (String a pre), x. splits; auto. cbn [has]. now rewrite E, Hp.
Qed.

Lemma from_first_none c s : from_first c s = None -> has c s = false.
Proof.
  induction s as [|a s IH]; [reflexivity|]. cbn [from_first has].
  destruct (Ascii.eqb a c); [discriminate | exact IH].
Qed.

Lemma upto_last_none c s : upto_last c s = None <-> has c s = false.
Proof.
  induction s as [|a s IH]; [cbn; tauto|]. cbn [upto_last has].
  destruct (upto_last c s) as [p|].
  - split; [discriminate|]. intros H. apply orb_false_iff in H.
    destruct H as [_ H]. apply IH in H. discriminate.
  - destruct (Ascii.eqb a c); cbn [orb].
    + split; discriminate.
    + split; intros _; [now apply IH | reflexivity].
Qed.

Lemma upto_last_app c post : has c post = false -> forall mid,
  upto_last c (mid ++ String c post) = Some (mid ++ String c EmptyString)%string.
Proof.
  intros H. apply upto_last_none in H. induction mid as [|a mid IH].
  - cbn [append upto_last]. now rewrite H, Ascii.eqb_refl.
  - cbn [append upto_last]. now rewrite IH.
Qed.

Lemma upto_last_some c : forall s p, upto_last c s = Some p ->
  exists mid post, s = (mid ++ String c post)%string
    /\ p = (mid ++ String c EmptyString)%string /\ has c post = false.
Proof.
  induction s as [|a s IH]; intros p H; [discriminate|].
  cbn [upto_last] in H. destruct (upto_last c s) as [q|] eqn:U.
  - injection H as <-. destruct (IH q eq_refl) as (mid & post & -> & -> & Hp).
    exists (String a mid), post. auto.
  - destruct (Ascii.eqb a c) eqn:E; [|discriminate]. injection H as <-.
    apply Ascii.eqb_eq in E. subst a. apply upto_last_none in U.
    exists EmptyString, s. auto.
Qed.

(** What follows the first [c] holds what follows any [c]. *)
Lemma first_occurrence c y post : forall pre' pre,
  has c pre' = false -> (pre' ++ String c y)%string = (pre ++ String c post)%string ->
  exists z, y = (z ++ post)%string.
Proof.
  induction pre' as [|a pre' IH]; intros pre H E.
  - destruct pre as [|b pre]; cbn [append] in E.
    + injection E as ->. exists EmptyString. reflexivity.
    + injection E as _ ->. exists (pre ++ String c EmptyString)%string.
      now rewrite string_app_assoc.
  - cbn [has] in H. apply orb_false_iff in H. destruct H as [Ha Hp].
    destruct pre as [|b pre]; cbn [append] in E.
    + injection E as -> _. now rewrite Ascii.eqb_refl in Ha.
    + injection E as _ E. apply (IH pre Hp E).
Qed.

Lemma json_str_app pre mid post :
  has "{" pre = false -> has "}" post = false ->
  textbasedbot_text.json_str (pre ++ "{" ++ mid ++ "}" ++ post)
  = Some ("{" ++ mid ++ "}")%string.
Proof.
  intros Hp Hq. unfold textbasedbot_text.json_str.
  cbn [append]. rewrite (from_first_app _ pre _ Hp), (upto_last_app _ post Hq mid).
  reflexivity.
Qed.

Lemma json_str_some response g :
  textbasedbot_text.json_str response = Some g ->
  exists pre mid post,
    response = (pre ++ "{" ++ mid ++ "}" ++ post)%string
    /\ g = ("{" ++ mid ++ "}")%string
    /\ has "{" pre = false /\ has "}" post = false.
Proof.
  intros H. unfold textbasedbot_text.json_str in H.
  destruct (from_first "{" response) as [r|] eqn:F; [|discriminate].
  destruct (from_first_some _ _ _ F) as (pre & x & -> & -> & Hp).
  destruct (upto_last "}" x) as [p|] eqn:U; [|discriminate].
  cbn [option_map] in H. injection H as <-.
  destruct (upto_last_some _ _ _ U) as (mid & post & -> & -> & Hq).
  exists pre, mid, post. auto.
Qed.

(** X21. The JSON text that [parse_candidate_availability] cuts out of
    the reply runs from the first opening brace to the last closing brace
    after it, whatever stands between them, line ends and further braces
    included; there is none exactly when no opening brace has a closing
    brace after it. *)
Theorem json_str_spans_first_to_last_brace :
  (forall pre mid post,
      has "{" pre = false -> has "}" post = false ->
      textbasedbot_text.json_str (pre ++ "{" ++ mid ++ "}" ++ post)
      = Some ("{" ++ mid ++ "}")%string)
  /\ (forall response g,
      textbasedbot_text.json_str response = Some g ->
      exists pre mid post,
        response = (pre ++ "{" ++ mid ++ "}" ++ post)%string
        /\ g = ("{" ++ mid ++ "}")%string
        /\ has "{" pre = false /\ has "}" post = false)
  /\ (forall response,
      textbasedbot_text.json_str response = None
      <-> forall pre post, response = (pre ++ "{" ++ post)%string -> has "}" post = false).
Proof.
  split; [exact json_str_app|]. split; [exact json_str_some|]. intros response. split.
  - intros N pre post E. unfold textbasedbot_text.json_str in N.
    destruct (from_first "{" response) as [r|] eqn:F.
    + destruct (from_first_some _ _ _ F) as (pre' & y & E' & -> & Hp).
      destruct (upto_last "}" y) as [p|] eqn:U; [discriminate|].
      apply upto_last_none in U. rewrite E in E'. cbn [append] in E'.
      destruct (first_occurrence _ _ _ _ _ Hp (eq_sym E')) as (z & ->).
      rewrite has_app in U. apply orb_false_iff in U. tauto.
    + exfalso. apply from_first_none in F. subst response.
      rewrite has_app in F. cbn [append has] in F. rewrite Ascii.eqb_refl in F.
      cbn [orb] in F. now rewrite orb_true_r in F.
  - intros H. destruct (textbasedbot_text.json_str response) as [g|] eqn:J;
      [|reflexivity].
    destruct (json_str_some _ _ J) as (pre & mid & post & E & _).
    specialize (H pre (mid ++ "}" ++ post)%string E).
    rewrite has_app in H. cbn [append has] in H. rewrite Ascii.eqb_refl in H.
    cbn [orb] in H. now rewrite orb_true_r in H.
Qed.

Section ParseFacts.
Context {World J : Type}.
Variable run_ollama_model : string -> M World string.
Variable json_loads : string -> result J.

(** X22. [parse_candidate_availability] returns a value exactly when the
    model replied and [json.loads] accepted the text from the first
    opening to the last closing brace of the reply. Everything that goes
    wrong after the reply, a reply without braces or an exception of
    [json.loads] of any class, surfaces as [ValueError]; only an
    exception of the run of the model itself passes unchanged. *)
Theorem parse_candidate_availability_outcome natural_text w :
  (forall availability w',
      textbasedbot_text.parse_candidate_availability run_ollama_model json_loads
        natural_text w = (Ok availability, w')
      <-> exists response pre mid post,
            run_ollama_model (textbasedbot_text.prompt natural_text) w
              = (Ok response, w')
            /\ response = (pre ++ "{" ++ mid ++ "}" ++ post)%string
            /\ has "{" pre = false /\ has "}" post = false
            /\ json_loads ("{" ++ mid ++ "}") = Ok availability)
  /\ (forall x w',
      textbasedbot_text.parse_candidate_availability run_ollama_model json_loads
        natural_text w = (Raise x, w') ->
      x = ValueError
      \/ run_ollama_model (textbasedbot_text.prompt natural_text) w = (Raise x, w')).
Proof.
  unfold textbasedbot_text.parse_candidate_availability, bind, lift. split.
  - intros availability w'. split.
    + intros H.
      destruct (run_ollama_model (textbasedbot_text.prompt natural_text) w)
        as [[response|x] w1]; [|discriminate].
      destruct (textbasedbot_text.json_str response) as [g|] eqn:G; [|discriminate].
      destruct (json_str_some _ _ G) as (pre & mid & post & E & -> & Hp & Hq).
      destruct (json_loads _) as [v|x] eqn:L; [|discriminate].
      injection H as <- <-. exists response, pre, mid, post. auto.
    + intros (response & pre & mid & post & -> & -> & Hp & Hq & L).
      rewrite (json_str_app pre mid post Hp Hq), L. reflexivity.
  - intros x w' H.
    destruct (run_ollama_model (textbasedbot_text.prompt natural_text) w)
      as [[response|x'] w1]; [|right; injection H as -> ->; reflexivity].
    left. destruct (textbasedbot_text.json_str response) as [g|].
    + destruct (json_loads g); cbn in H; congruence.
    + cbn in H. congruence.
Qed.

End ParseFacts.

(** *** The times that the bots write *)

Lemma isoformat_timestamp t :
  isoformat t = (timestamp t ++ (if (microsecond t =? 0)%Z then EmptyString
                                else "." ++ zero_padded 6 (microsecond t)))%string.
Proof. unfold isoformat, timestamp. rewrite !string_app_assoc. reflexivity. Qed.

Lemma to_us_to_the_second t : to_us (to_the_second t) = to_us t - microsecond t.
Proof. unfold to_us, toordinal, to_the_second. cbn. ring. Qed.

Lemma microsecond_of_to_us t : valid t = true -> microsecond t = to_us t mod 1000000.
Proof.
  intros V. apply valid_iff in V. unfold to_us.
  Z.to_euclidean_division_equations; lia.
Qed.

(** From year 1000 on [strftime] writes the nineteen characters. *)
Lemma strftime_timestamp t : 1000 <= year t -> strftime t = timestamp t.
Proof.
  intros Y. unfold strftime, timestamp, year_text.
  destruct (year t <? 10) eqn:A; [apply Z.ltb_lt in A; lia|].
  destruct (year t <? 100) eqn:B; [apply Z.ltb_lt in B; lia|].
  destruct (year t <? 1000) eqn:C; [apply Z.ltb_lt in C; lia|].
  reflexivity.
Qed.

(** X23. For a slot of a year from 1000 on, the start of the event and
    the lower bound of the query of the same slot name the same moment:
    the text of the start, which carries [+05:30], reads back as the
    slot, and the [timeMin] sent for it, which carries [Z], reads back as
    the moment exactly 5 hours 30 minutes earlier, both to the second.
    The text of the event drops the microsecond of the slot. (An earlier
    year is written by [strftime] with fewer than four digits, and the
    text of the event does not read back.) *)
Theorem event_start_and_query_agree email slot slot_utc end_utc :
  valid slot = true -> 1000 <= year slot ->
  autointerviewbot.to_utc slot = Ok slot_utc ->
  autointerviewbot_text.ai_time_ist (autointerviewbot_text.start_str slot)
    = Ok (to_the_second slot)
  /\ autointerviewbot_text.ai_time_ist (textbasedbot_text.start_str slot)
     = Ok (to_the_second slot)
  /\ autointerviewbot_text.ai_time_ist (timeMin (query_body email slot_utc end_utc))
     = Ok (to_the_second slot_utc)
  /\ to_us (to_the_second slot) = to_us (to_the_second slot_utc) + IST_OFFSET_US
  /\ to_us slot - to_us (to_the_second slot) = microsecond slot.
Proof.
  intros V Y U. pose proof (to_utc_spec slot V) as S.
  destruct (US_PER_DAY + IST_OFFSET_US <=? to_us slot); [|congruence].
  destruct S as (u & E & Vu & Eu). rewrite E in U. injection U as <-.
  splits.
  - unfold autointerviewbot_text.start_str. rewrite (strftime_timestamp slot Y).
    apply ai_time_ist_timestamp, V.
  - unfold textbasedbot_text.start_str. rewrite (strftime_timestamp slot Y).
    apply ai_time_ist_timestamp, V.
  - cbn [query_body timeMin]. rewrite isoformat_timestamp, string_app_assoc.
    apply ai_time_ist_timestamp, Vu.
  - rewrite !to_us_to_the_second, (microsecond_of_to_us _ V),
      (microsecond_of_to_us _ Vu), Eu.
    unfold IST_OFFSET_US. Z.to_euclidean_division_equations; lia.
  - rewrite to_us_to_the_second. lia.
Qed.

(** ** The code in concrete worlds *)

Lemma to_utc_ok s : valid s = true -> 2025 <= year s ->
  exists u, autointerviewbot.to_utc s = Ok u.
Proof.
  intros V Y. unfold autointerviewbot.to_utc, sub.
  pose proof (add_spec s (td_neg (timedelta_new 0 5 30 0 0))) as S. cbv zeta in S.
  unfold td_neg in S. rewrite td_total_of_us, td_total_new in S.
  pose proof (year_ge_2025_from s V Y) as G.
  pose proof (tod_range s V) as R. pose proof (toordinal_range s V) as Ro.
  rewrite to_us_split in S, G. unfold US_PER_DAY, _MAXORDINAL in *.
  destruct (_ && _) eqn:C in S.
  - destruct S as (u & E & _). exists u. exact E.
  - apply andb_false_iff in C. rewrite Z.leb_gt, Z.ltb_ge in C. lia.
Qed.

Lemma get_busy_slots_constant b email s e w :
  valid s = true -> valid e = true -> 2025 <= year s -> 2025 <= year e ->
  autointerviewbot.get_busy_slots (constant_service b) email s e w = (Ok b, w).
Proof.
  intros Vs Ve Ys Ye.
  destruct (to_utc_ok s Vs Ys) as (su & Es). destruct (to_utc_ok e Ve Ye) as (eu & Ee).
  unfold autointerviewbot.get_busy_slots, bind, lift, ret. rewrite Es, Ee.
  cbn [constant_service freebusy_query_execute answer items calendars map getitem].
  rewrite String.eqb_refl. reflexivity.
Qed.

Lemma is_slot_free_constant b r c s e w :
  valid s = true -> valid e = true -> 2025 <= year s -> 2025 <= year e ->
  autointerviewbot.is_slot_free_for_both (constant_service b) r c s e w
  = (Ok (not_ b && not_ b), w).
Proof.
  intros Vs Ve Ys Ye. unfold autointerviewbot.is_slot_free_for_both, bind, ret.
  rewrite !(get_busy_slots_constant b _ s e w Vs Ve Ys Ye). reflexivity.
Qed.

Lemma free_service_reports_free : reports_free free_service.
Proof.
  intros s e w Vs Ve Ys Ye. exists w. unfold free_service.
  rewrite (is_slot_free_constant _ _ _ s e w Vs Ve Ys Ye). reflexivity.
Qed.




(** C5 as stated fails: with the clock at Monday 17 March 2025, 12:00 IST,
    and an oracle that reports every interval free, the search from
    Thursday 13 March 2025, 10:00, a seed inside working hours, returns
    Monday 12:00 and not the seed. *)
Lemma all_free_seed_in_the_past_is_moved :
  valid thursday_ten = true
  /\ in_working_hours thursday_ten = true
  /\ reports_free free_service
  /\ autointerviewbot.find_first_free_slot (fixed_clock monday_noon_utc)
       free_service thursday_ten tt
     = (Ok (Some (mkdt 2025 3 17 12 0 0 0)), tt)
  /\ mkdt 2025 3 17 12 0 0 0 <> thursday_ten.
Proof.
  split; [reflexivity|]. split; [reflexivity|].
  split; [exact free_service_reports_free|].
  split; [vm_compute; reflexivity | discriminate].
Qed.

Example clamp_saturday :
  autointerviewbot.clamp_to_working_hours saturday_afternoon
  = Ok (mkdt 2025 3 17 9 0 0 0).
Proof. vm_compute. reflexivity. Qed.

Example clamp_friday_nineteen :
  autointerviewbot.clamp_to_working_hours (mkdt 2025 3 14 19 0 0 0)
  = Ok (mkdt 2025 3 17 9 0 0 0).
Proof. vm_compute. reflexivity. Qed.

Example clamp_friday_nine :
  autointerviewbot.clamp_to_working_hours (mkdt 2025 3 14 9 0 0 0)
  = Ok (mkdt 2025 3 14 9 0 0 0).
Proof. vm_compute. reflexivity. Qed.

Example clamp_last_evening :
  autointerviewbot.clamp_to_working_hours (mkdt 9999 12 31 19 0 0 0)
  = Raise OverflowError.
Proof. vm_compute. reflexivity. Qed.

Example range_start_rounds_up :
  normalizedStart (mkdt 2025 3 24 14 7 0 0) = Ok (mkdt 2025 3 24 15 0 0 0).
Proof. vm_compute. reflexivity. Qed.

Example range_search_all_free :
  textbasedbot.find_1hr_slot_within_range free_service
    (mkdt 2025 3 24 14 7 0 0) (mkdt 2025 3 24 18 0 0 0) tt
  = (Ok (Some (mkdt 2025 3 24 15 0 0 0, mkdt 2025 3 24 16 0 0 0)), tt).
Proof. vm_compute. reflexivity. Qed.

Example range_search_recruiter_busy_at_two :
  textbasedbot.find_1hr_slot_within_range recruiter_busy_at_two
    (mkdt 2025 3 24 13 40 0 0) (mkdt 2025 3 24 16 0 0 0) tt
  = (Ok (Some (mkdt 2025 3 24 15 0 0 0, mkdt 2025 3 24 16 0 0 0)), tt).
Proof. vm_compute. reflexivity. Qed.

Example range_search_all_busy :
  textbasedbot.find_1hr_slot_within_range busy_service
    (mkdt 2025 3 24 14 7 0 0) (mkdt 2025 3 24 18 0 0 0) tt
  = (Ok None, tt).
Proof. vm_compute. reflexivity. Qed.


Lemma find_1hr_slot_within_range_scan_witness :
  valid (mkdt 2025 3 24 14 7 0 0) = true
  /\ valid (mkdt 2025 3 24 18 0 0 0) = true
  /\ year (mkdt 2025 3 24 14 7 0 0) <= 9998
  /\ year (mkdt 2025 3 24 18 0 0 0) <= 9998
  /\ exists n slots,
       normalizedStart (mkdt 2025 3 24 14 7 0 0) = Ok n
       /\ slots = hourly_slots (slot_count n (mkdt 2025 3 24 18 0 0 0)) n
       /\ List.length slots = slot_count n (mkdt 2025 3 24 18 0 0 0).
Proof.
  assert (Y : 2025 <= 9998) by lia.
  split; [reflexivity|]. split; [reflexivity|]. split; [exact Y|]. split; [exact Y|].
  destruct (find_1hr_slot_within_range_scan free_service
              (mkdt 2025 3 24 14 7 0 0) (mkdt 2025 3 24 18 0 0 0) tt
              eq_refl eq_refl Y Y)
    as (n & slots & N & _ & _ & S & L & _).
  exists n, slots. auto.
Defined.

Lemma clamp_to_working_hours_case_split_witness :
  valid saturday_afternoon = true
  /\ autointerviewbot.clamp_to_working_hours saturday_afternoon
     = clampToWorkingHours_spec saturday_afternoon.
Proof.
  split; [reflexivity|].
  exact (clamp_to_working_hours_case_split saturday_afternoon eq_refl).
Defined.

Lemma clamp_to_future_2025_floor_witness :
  valid thursday_ten = true
  /\ autointerviewbot.get_now_ist (fixed_clock monday_noon_utc) tt
     = (Ok (mkdt 2025 3 17 12 0 0 0), tt)
  /\ (year thursday_ten <? 2025) && is_feb29 thursday_ten = false
  /\ is_feb29 (mkdt 2025 3 17 12 0 0 0) = false
  /\ autointerviewbot.clamp_to_future_2025 (fixed_clock monday_noon_utc)
       thursday_ten tt
     = (Ok (mkdt 2025 3 17 12 0 0 0), tt)
  /\ leb (floor_2025 (mkdt 2025 3 17 12 0 0 0)) (mkdt 2025 3 17 12 0 0 0) = true.
Proof.
  split; [reflexivity|]. split; [reflexivity|]. split; [reflexivity|].
  split; [reflexivity|].
  exact (clamp_to_future_2025_floor (fixed_clock monday_noon_utc) thursday_ten tt
           (mkdt 2025 3 17 12 0 0 0) tt eq_refl eq_refl eq_refl eq_refl).
Defined.

Lemma all_free_returns_seed_witness :
  valid tuesday_ten = true
  /\ in_working_hours tuesday_ten = true
  /\ reports_free free_service
  /\ autointerviewbot.get_now_ist (fixed_clock monday_noon_utc) tt
     = (Ok (mkdt 2025 3 17 12 0 0 0), tt)
  /\ is_feb29 (mkdt 2025 3 17 12 0 0 0) = false
  /\ leb (floor_2025 (mkdt 2025 3 17 12 0 0 0)) tuesday_ten = true
  /\ exists slot_end w',
       add tuesday_ten (timedelta_new 0 1 0 0 0) = Ok slot_end
       /\ autointerviewbot.find_first_free_slot (fixed_clock monday_noon_utc)
            free_service tuesday_ten tt = (Ok (Some tuesday_ten), w').
Proof.
  split; [reflexivity|]. split; [reflexivity|].
  split; [exact free_service_reports_free|]. split; [reflexivity|].
  split; [reflexivity|]. split; [reflexivity|].
  exact (all_free_returns_seed (fixed_clock monday_noon_utc) free_service
           tuesday_ten tt (mkdt 2025 3 17 12 0 0 0) tt eq_refl eq_refl
           free_service_reports_free eq_refl eq_refl eq_refl).
Defined.

Lemma found_slot_is_clamped_witness :
  valid thursday_ten = true
  /\ autointerviewbot.find_first_free_slot (fixed_clock monday_noon_utc)
       free_service thursday_ten tt
     = (Ok (Some (mkdt 2025 3 17 12 0 0 0)), tt)
  /\ weekday (mkdt 2025 3 17 12 0 0 0) < 5
  /\ 9 <= hour (mkdt 2025 3 17 12 0 0 0) < 19
  /\ exists k c wk now wk' c1, (k < autointerviewbot.max_attempts)%nat
       /\ advances (fixed_clock monday_noon_utc) free_service k thursday_ten tt
          = Some (c, wk)
       /\ round (fixed_clock monday_noon_utc) free_service c wk
          = (Found (mkdt 2025 3 17 12 0 0 0), tt)
       /\ autointerviewbot.get_now_ist (fixed_clock monday_noon_utc) wk = (Ok now, wk')
       /\ autointerviewbot.clamp_to_future_2025 (fixed_clock monday_noon_utc) c wk
          = (Ok c1, wk')
       /\ autointerviewbot.clamp_to_working_hours c1 = Ok (mkdt 2025 3 17 12 0 0 0)
       /\ leb (floor_2025 now) (mkdt 2025 3 17 12 0 0 0) = true.
Proof.
  assert (H : autointerviewbot.find_first_free_slot (fixed_clock monday_noon_utc)
                free_service thursday_ten tt
              = (Ok (Some (mkdt 2025 3 17 12 0 0 0)), tt))
    by (vm_compute; reflexivity).
  split; [reflexivity|]. split; [exact H|].
  destruct (found_slot_is_clamped (fixed_clock monday_noon_utc) free_service
              thursday_ten tt (mkdt 2025 3 17 12 0 0 0) tt eq_refl H)
    as (W & Hh & E).
  split; [exact W|]. split; [exact Hh | exact E].
Defined.

Lemma oracle_failure_propagates_witness :
  query_fails (autointerviewbot.get_busy_slots candidate_down)
    autointerviewbot.RECRUITER_EMAIL autointerviewbot.CANDIDATE_EMAIL
    (mkdt 2025 3 17 12 0 0 0) (mkdt 2025 3 17 13 0 0 0) tt (HttpError 503) tt
  /\ autointerviewbot.is_slot_free_for_both candidate_down
       autointerviewbot.RECRUITER_EMAIL autointerviewbot.CANDIDATE_EMAIL
       (mkdt 2025 3 17 12 0 0 0) (mkdt 2025 3 17 13 0 0 0) tt
     = (Raise (HttpError 503), tt)
  /\ autointerviewbot.find_first_free_slot (fixed_clock monday_noon_utc)
       candidate_down thursday_ten tt
     = (Raise (HttpError 503), tt).
Proof.
  assert (Q : query_fails (autointerviewbot.get_busy_slots candidate_down)
                autointerviewbot.RECRUITER_EMAIL autointerviewbot.CANDIDATE_EMAIL
                (mkdt 2025 3 17 12 0 0 0) (mkdt 2025 3 17 13 0 0 0) tt
                (HttpError 503) tt).
  { right. exists [], tt. split; vm_compute; reflexivity. }
  split; [exact Q|]. split.
  - exact (proj1 (oracle_failure_propagates unit (fixed_clock monday_noon_utc)
                    candidate_down) _ _ _ _ _ _ _ Q).
  - refine (proj1 (proj2 (proj2 (oracle_failure_propagates unit
                                   (fixed_clock monday_noon_utc) candidate_down)))
              thursday_ten tt O thursday_ten tt (mkdt 2025 3 17 12 0 0 0) tt
              (mkdt 2025 3 17 12 0 0 0) (mkdt 2025 3 17 13 0 0 0)
              (HttpError 503) tt _ eq_refl _ _ _ Q).
    + unfold autointerviewbot.max_attempts. lia.
    + vm_compute. reflexivity.
    + vm_compute. reflexivity.
    + vm_compute. reflexivity.
Defined.

Lemma clamp_to_working_hours_idempotent_witness :
  valid saturday_afternoon = true
  /\ rbind (autointerviewbot.clamp_to_working_hours saturday_afternoon)
       autointerviewbot.clamp_to_working_hours
     = autointerviewbot.clamp_to_working_hours saturday_afternoon.
Proof.
  split; [reflexivity|].
  exact (proj1 (clamp_to_working_hours_idempotent saturday_afternoon eq_refl)).
Defined.

Lemma clamp_to_working_hours_never_backward_witness :
  valid saturday_afternoon = true
  /\ match autointerviewbot.clamp_to_working_hours saturday_afternoon with
     | Ok t' => leb saturday_afternoon t' = true
     | Raise e => e = OverflowError /\ toordinal saturday_afternoon = _MAXORDINAL
                  /\ 19 <= hour saturday_afternoon
     end.
Proof.
  assert (V : valid saturday_afternoon = true) by reflexivity.
  split; [exact V|].
  destruct (clamp_to_working_hours_never_backward saturday_afternoon V) as [H _].
  exact H.
Defined.

Lemma clamp_to_future_2025_not_total_witness :
  valid leap_day = true
  /\ autointerviewbot.get_now_ist (fixed_clock monday_noon_utc) tt
     = (Ok (mkdt 2025 3 17 12 0 0 0), tt)
  /\ autointerviewbot.clamp_to_future_2025 (fixed_clock monday_noon_utc)
       leap_day tt
     = (Raise ValueError, tt).
Proof.
  split; [reflexivity|]. split; [reflexivity|].
  exact (clamp_to_future_2025_not_total (fixed_clock monday_noon_utc) leap_day tt
           (mkdt 2025 3 17 12 0 0 0) tt eq_refl eq_refl).
Defined.

(** *** The rest of the two files on concrete inputs *)

Example to_utc_tuesday_ten :
  autointerviewbot.to_utc tuesday_ten = Ok (mkdt 2025 3 18 4 30 0 0).
Proof. vm_compute. reflexivity. Qed.

Example to_utc_first_morning :
  autointerviewbot.to_utc first_morning = Raise OverflowError.
Proof. vm_compute. reflexivity. Qed.

Example ai_time_ist_inside_digits :
  autointerviewbot_text.ai_time_ist "Slot 120250-03-24T14:00:009"
  = Ok (mkdt 250 3 24 14 0 0 0).
Proof. vm_compute. reflexivity. Qed.

Example ai_time_ist_first_is_no_date :
  autointerviewbot_text.ai_time_ist "2025-02-30T10:00:00 or 2025-03-03T10:00:00"
  = Raise ValueError.
Proof. vm_compute. reflexivity. Qed.

Example start_str_year_999 :
  textbasedbot_text.start_str (mkdt 999 3 18 10 0 0 0)
  = "999-03-18T10:00:00+05:30"%string
  /\ autointerviewbot_text.ai_time_ist
       (textbasedbot_text.start_str (mkdt 999 3 18 10 0 0 0))
     = Raise ValueError.
Proof. split; vm_compute; reflexivity. Qed.

Example start_str_year_2025 :
  autointerviewbot_text.start_str (mkdt 2025 3 17 12 0 0 0)
  = "2025-03-17T12:00:00+05:30"%string.
Proof. vm_compute. reflexivity. Qed.

Example json_str_two_objects :
  textbasedbot_text.json_str "a {x} b {y} c" = Some "{x} b {y}"%string.
Proof. vm_compute. reflexivity. Qed.

Lemma to_utc_shifts_or_overflows_witness :
  valid tuesday_ten = true
  /\ exists u, autointerviewbot.to_utc tuesday_ten = Ok u
       /\ textbasedbot.to_utc tuesday_ten = Ok u
       /\ to_us u = to_us tuesday_ten - IST_OFFSET_US.
Proof.
  assert (V : valid tuesday_ten = true) by reflexivity.
  assert (C : (US_PER_DAY + IST_OFFSET_US <=? to_us tuesday_ten) = true)
    by (vm_compute; reflexivity).
  split; [exact V|].
  pose proof (to_utc_shifts_or_overflows tuesday_ten V) as H. rewrite C in H.
  destruct H as (u & E1 & E2 & _ & U). exists u. auto.
Defined.

Lemma get_now_ist_to_utc_round_trip_witness :
  valid (fst (fixed_clock monday_noon_utc tt)) = true
  /\ autointerviewbot.get_now_ist (fixed_clock monday_noon_utc) tt
     = (Ok (mkdt 2025 3 17 12 0 0 0), tt)
  /\ autointerviewbot.to_utc (mkdt 2025 3 17 12 0 0 0)
     = Ok (fst (fixed_clock monday_noon_utc tt)).
Proof.
  assert (V : valid (fst (fixed_clock monday_noon_utc tt)) = true) by reflexivity.
  assert (G : autointerviewbot.get_now_ist (fixed_clock monday_noon_utc) tt
              = (Ok (mkdt 2025 3 17 12 0 0 0), tt)) by reflexivity.
  split; [exact V|]. split; [exact G|].
  destruct (get_now_ist_to_utc_round_trip (fixed_clock monday_noon_utc) tt
              (mkdt 2025 3 17 12 0 0 0) tt V G) as (_ & _ & H).
  exact H.
Defined.

Lemma get_busy_slots_missing_calendar_witness :
  autointerviewbot.to_utc tuesday_ten = Ok (mkdt 2025 3 18 4 30 0 0)
  /\ autointerviewbot.to_utc (mkdt 2025 3 18 11 0 0 0) = Ok (mkdt 2025 3 18 5 30 0 0)
  /\ freebusy_query_execute no_calendar
       (query_body autointerviewbot.RECRUITER_EMAIL (mkdt 2025 3 18 4 30 0 0)
          (mkdt 2025 3 18 5 30 0 0)) tt
     = (Ok {| calendars := [] |}, tt)
  /\ autointerviewbot.get_busy_slots no_calendar autointerviewbot.RECRUITER_EMAIL
       tuesday_ten (mkdt 2025 3 18 11 0 0 0) tt
     = (Raise (KeyError autointerviewbot.RECRUITER_EMAIL), tt).
Proof.
  assert (Es : autointerviewbot.to_utc tuesday_ten = Ok (mkdt 2025 3 18 4 30 0 0))
    by (vm_compute; reflexivity).
  assert (Ee : autointerviewbot.to_utc (mkdt 2025 3 18 11 0 0 0)
               = Ok (mkdt 2025 3 18 5 30 0 0)) by (vm_compute; reflexivity).
  assert (Q : freebusy_query_execute no_calendar
                (query_body autointerviewbot.RECRUITER_EMAIL (mkdt 2025 3 18 4 30 0 0)
                   (mkdt 2025 3 18 5 30 0 0)) tt
              = (Ok {| calendars := [] |}, tt)) by reflexivity.
  split; [exact Es|]. split; [exact Ee|]. split; [exact Q|].
  assert (Miss : forall k (c : Calendar),
             In (k, c) (calendars {| calendars := [] |}) ->
             k <> autointerviewbot.RECRUITER_EMAIL) by (intros k c []).
  destruct (get_busy_slots_missing_calendar no_calendar
              autointerviewbot.RECRUITER_EMAIL tuesday_ten (mkdt 2025 3 18 11 0 0 0)
              (mkdt 2025 3 18 4 30 0 0) (mkdt 2025 3 18 5 30 0 0) tt
              {| calendars := [] |} tt Es Ee Q Miss)
    as [H _].
  exact H.
Defined.

Lemma get_busy_slots_overflow_sends_nothing_witness :
  valid first_morning = true
  /\ valid tuesday_ten = true
  /\ to_us first_morning < US_PER_DAY + IST_OFFSET_US
  /\ autointerviewbot.get_busy_slots free_service autointerviewbot.RECRUITER_EMAIL
       first_morning tuesday_ten tt
     = (Raise OverflowError, tt).
Proof.
  assert (L : to_us first_morning < US_PER_DAY + IST_OFFSET_US)
    by (vm_compute; reflexivity).
  split; [reflexivity|]. split; [reflexivity|]. split; [exact L|].
  destruct (get_busy_slots_overflow_sends_nothing free_service
              autointerviewbot.RECRUITER_EMAIL first_morning tuesday_ten tt
              eq_refl eq_refl (or_introl L)) as [H _].
  exact H.
Defined.

Lemma is_slot_free_for_both_true_iff_witness :
  autointerviewbot.get_busy_slots free_service autointerviewbot.RECRUITER_EMAIL
    tuesday_ten (mkdt 2025 3 18 11 0 0 0) tt = (Ok [], tt)
  /\ autointerviewbot.get_busy_slots free_service autointerviewbot.CANDIDATE_EMAIL
       tuesday_ten (mkdt 2025 3 18 11 0 0 0) tt = (Ok [], tt)
  /\ autointerviewbot.is_slot_free_for_both free_service
       autointerviewbot.RECRUITER_EMAIL autointerviewbot.CANDIDATE_EMAIL
       tuesday_ten (mkdt 2025 3 18 11 0 0 0) tt
     = (Ok true, tt).
Proof.
  assert (R : autointerviewbot.get_busy_slots free_service
                autointerviewbot.RECRUITER_EMAIL
                tuesday_ten (mkdt 2025 3 18 11 0 0 0) tt = (Ok [], tt))
    by (vm_compute; reflexivity).
  assert (C : autointerviewbot.get_busy_slots free_service
                autointerviewbot.CANDIDATE_EMAIL
                tuesday_ten (mkdt 2025 3 18 11 0 0 0) tt = (Ok [], tt))
    by (vm_compute; reflexivity).
  split; [exact R|]. split; [exact C|].
  destruct (is_slot_free_for_both_true_iff free_service
              autointerviewbot.RECRUITER_EMAIL autointerviewbot.CANDIDATE_EMAIL
              tuesday_ten (mkdt 2025 3 18 11 0 0 0) tt tt) as [_ H].
  apply H. exists tt. split; [exact R | exact C].
Defined.

Lemma is_slot_free_for_both_asks_both_witness :
  autointerviewbot.get_busy_slots recruiter_busy_at_two
    autointerviewbot.RECRUITER_EMAIL
    (mkdt 2025 3 24 14 0 0 0) (mkdt 2025 3 24 15 0 0 0) tt
  = (Ok [{| busy_start := "2025-03-24T08:30:00Z";
            busy_end := "2025-03-24T09:30:00Z" |}], tt)
  /\ [{| busy_start := "2025-03-24T08:30:00Z";
         busy_end := "2025-03-24T09:30:00Z" |}] <> []
  /\ autointerviewbot.is_slot_free_for_both recruiter_busy_at_two
       autointerviewbot.RECRUITER_EMAIL autointerviewbot.CANDIDATE_EMAIL
       (mkdt 2025 3 24 14 0 0 0) (mkdt 2025 3 24 15 0 0 0) tt
     = (Ok false, tt).
Proof.
  assert (R : autointerviewbot.get_busy_slots recruiter_busy_at_two
                autointerviewbot.RECRUITER_EMAIL
                (mkdt 2025 3 24 14 0 0 0) (mkdt 2025 3 24 15 0 0 0) tt
              = (Ok [{| busy_start := "2025-03-24T08:30:00Z";
                        busy_end := "2025-03-24T09:30:00Z" |}], tt))
    by (vm_compute; reflexivity).
  assert (N : [{| busy_start := "2025-03-24T08:30:00Z";
                  busy_end := "2025-03-24T09:30:00Z" |}] <> []) by discriminate.
  split; [exact R|]. split; [exact N|].
  rewrite (is_slot_free_for_both_asks_both recruiter_busy_at_two
             autointerviewbot.RECRUITER_EMAIL autointerviewbot.CANDIDATE_EMAIL
             (mkdt 2025 3 24 14 0 0 0) (mkdt 2025 3 24 15 0 0 0) tt _ tt R N).
  vm_compute. reflexivity.
Defined.

Lemma clamp_to_working_hours_least_witness :
  valid saturday_afternoon = true
  /\ autointerviewbot.clamp_to_working_hours saturday_afternoon
     = Ok (mkdt 2025 3 17 9 0 0 0)
  /\ in_working_hours (mkdt 2025 3 17 9 0 0 0) = true
  /\ leb saturday_afternoon (mkdt 2025 3 17 9 0 0 0) = true
  /\ valid tuesday_ten = true
  /\ in_working_hours tuesday_ten = true
  /\ leb saturday_afternoon tuesday_ten = true
  /\ leb (mkdt 2025 3 17 9 0 0 0) tuesday_ten = true.
Proof.
  assert (C : autointerviewbot.clamp_to_working_hours saturday_afternoon
              = Ok (mkdt 2025 3 17 9 0 0 0)) by (vm_compute; reflexivity).
  destruct (clamp_to_working_hours_least saturday_afternoon (mkdt 2025 3 17 9 0 0 0)
              eq_refl C) as (_ & W & L & Least).
  split; [reflexivity|]. split; [exact C|]. split; [exact W|]. split; [exact L|].
  split; [reflexivity|]. split; [reflexivity|]. split; [reflexivity|].
  exact (Least tuesday_ten eq_refl eq_refl eq_refl).
Defined.

Lemma clamp_to_working_hours_monotone_witness :
  valid saturday_afternoon = true
  /\ valid (mkdt 2025 3 18 20 0 0 0) = true
  /\ leb saturday_afternoon (mkdt 2025 3 18 20 0 0 0) = true
  /\ autointerviewbot.clamp_to_working_hours saturday_afternoon
     = Ok (mkdt 2025 3 17 9 0 0 0)
  /\ autointerviewbot.clamp_to_working_hours (mkdt 2025 3 18 20 0 0 0)
     = Ok (mkdt 2025 3 19 9 0 0 0)
  /\ leb (mkdt 2025 3 17 9 0 0 0) (mkdt 2025 3 19 9 0 0 0) = true.
Proof.
  assert (Ct : autointerviewbot.clamp_to_working_hours saturday_afternoon
               = Ok (mkdt 2025 3 17 9 0 0 0)) by (vm_compute; reflexivity).
  assert (Cu : autointerviewbot.clamp_to_working_hours (mkdt 2025 3 18 20 0 0 0)
               = Ok (mkdt 2025 3 19 9 0 0 0)) by (vm_compute; reflexivity).
  split; [reflexivity|]. split; [reflexivity|]. split; [reflexivity|].
  split; [exact Ct|]. split; [exact Cu|].
  exact (clamp_to_working_hours_monotone saturday_afternoon (mkdt 2025 3 18 20 0 0 0)
           (mkdt 2025 3 17 9 0 0 0) (mkdt 2025 3 19 9 0 0 0)
           eq_refl eq_refl eq_refl Ct Cu).
Defined.

Lemma clamp_to_working_hours_moves_to_nine_witness :
  valid (mkdt 2025 3 14 19 0 0 0) = true
  /\ in_working_hours (mkdt 2025 3 14 19 0 0 0) = false
  /\ autointerviewbot.clamp_to_working_hours (mkdt 2025 3 14 19 0 0 0)
     = Ok (mkdt 2025 3 17 9 0 0 0)
  /\ to_us (mkdt 2025 3 17 9 0 0 0) - to_us (mkdt 2025 3 14 19 0 0 0)
     <= 62 * US_PER_HOUR.
Proof.
  assert (C : autointerviewbot.clamp_to_working_hours (mkdt 2025 3 14 19 0 0 0)
              = Ok (mkdt 2025 3 17 9 0 0 0)) by (vm_compute; reflexivity).
  split; [reflexivity|]. split; [reflexivity|]. split; [exact C|].
  destruct (clamp_to_working_hours_moves_to_nine (mkdt 2025 3 14 19 0 0 0)
              (mkdt 2025 3 17 9 0 0 0) eq_refl eq_refl C) as (_ & _ & _ & _ & _ & H).
  exact H.
Defined.

Lemma clamp_to_future_2025_forward_and_stable_witness :
  valid thursday_ten = true
  /\ autointerviewbot.clamp_to_future_2025 (fixed_clock monday_noon_utc)
       thursday_ten tt
     = (Ok (mkdt 2025 3 17 12 0 0 0), tt)
  /\ 2025 <= year (mkdt 2025 3 17 12 0 0 0)
  /\ leb thursday_ten (mkdt 2025 3 17 12 0 0 0) = true.
Proof.
  assert (F : autointerviewbot.clamp_to_future_2025 (fixed_clock monday_noon_utc)
                thursday_ten tt
              = (Ok (mkdt 2025 3 17 12 0 0 0), tt)) by (vm_compute; reflexivity).
  split; [reflexivity|]. split; [exact F|].
  destruct (clamp_to_future_2025_forward_and_stable (fixed_clock monday_noon_utc)
              thursday_ten tt (mkdt 2025 3 17 12 0 0 0) tt eq_refl F)
    as (_ & Y & L & _).
  split; [exact Y | exact L].
Defined.

Lemma clamp_to_future_2025_blind_to_later_years_witness :
  valid december_first = true
  /\ autointerviewbot.get_now_ist (fixed_clock november_2026_utc) tt
     = (Ok (mkdt 2026 11 3 12 0 0 0), tt)
  /\ (year december_first <? 2025) && is_feb29 december_first = false
  /\ is_feb29 (mkdt 2026 11 3 12 0 0 0) = false
  /\ year december_first <= 2025
  /\ 2026 <= year (mkdt 2026 11 3 12 0 0 0)
  /\ exists t', autointerviewbot.clamp_to_future_2025 (fixed_clock november_2026_utc)
                  december_first tt = (Ok t', tt)
       /\ year t' = 2025 /\ ltb t' (mkdt 2026 11 3 12 0 0 0) = true.
Proof.
  assert (Y : year december_first <= 2025) by (cbn [december_first year]; lia).
  assert (Yn : 2026 <= year (mkdt 2026 11 3 12 0 0 0)) by (cbn [year]; lia).
  split; [reflexivity|]. split; [reflexivity|]. split; [reflexivity|].
  split; [reflexivity|]. split; [exact Y|]. split; [exact Yn|].
  exact (clamp_to_future_2025_blind_to_later_years (fixed_clock november_2026_utc)
           december_first tt (mkdt 2026 11 3 12 0 0 0) tt
           eq_refl eq_refl eq_refl eq_refl Y Yn).
Defined.

Lemma find_first_free_slot_not_before_seed_witness :
  valid thursday_ten = true
  /\ autointerviewbot.find_first_free_slot (fixed_clock monday_noon_utc)
       free_service thursday_ten tt
     = (Ok (Some (mkdt 2025 3 17 12 0 0 0)), tt)
  /\ leb thursday_ten (mkdt 2025 3 17 12 0 0 0) = true.
Proof.
  assert (H : autointerviewbot.find_first_free_slot (fixed_clock monday_noon_utc)
                free_service thursday_ten tt
              = (Ok (Some (mkdt 2025 3 17 12 0 0 0)), tt))
    by (vm_compute; reflexivity).
  split; [reflexivity|]. split; [exact H|].
  destruct (find_first_free_slot_not_before_seed (fixed_clock monday_noon_utc)
              free_service thursday_ten tt (mkdt 2025 3 17 12 0 0 0) tt eq_refl H)
    as [L _].
  exact L.
Defined.

Lemma past_seed_returns_floor_witness :
  valid thursday_ten = true
  /\ (year thursday_ten <? 2025) && is_feb29 thursday_ten = false
  /\ reports_free free_service
  /\ autointerviewbot.get_now_ist (fixed_clock monday_noon_utc) tt
     = (Ok (mkdt 2025 3 17 12 0 0 0), tt)
  /\ is_feb29 (mkdt 2025 3 17 12 0 0 0) = false
  /\ ltb (if year thursday_ten <? 2025 then with_year thursday_ten 2025
          else thursday_ten) (floor_2025 (mkdt 2025 3 17 12 0 0 0)) = true
  /\ in_working_hours (floor_2025 (mkdt 2025 3 17 12 0 0 0)) = true
  /\ exists w', autointerviewbot.find_first_free_slot (fixed_clock monday_noon_utc)
                  free_service thursday_ten tt
                = (Ok (Some (floor_2025 (mkdt 2025 3 17 12 0 0 0))), w').
Proof.
  split; [reflexivity|]. split; [reflexivity|].
  split; [exact free_service_reports_free|]. split; [reflexivity|].
  split; [reflexivity|]. split; [reflexivity|]. split; [reflexivity|].
  exact (past_seed_returns_floor (fixed_clock monday_noon_utc) free_service
           thursday_ten tt (mkdt 2025 3 17 12 0 0 0) tt eq_refl eq_refl
           free_service_reports_free eq_refl eq_refl eq_refl eq_refl).
Defined.

Lemma found_slot_ends_the_same_day_witness :
  valid thursday_ten = true
  /\ autointerviewbot.find_first_free_slot (fixed_clock monday_noon_utc)
       free_service thursday_ten tt
     = (Ok (Some (mkdt 2025 3 17 12 0 0 0)), tt)
  /\ exists event_end_ist,
       add (mkdt 2025 3 17 12 0 0 0) (timedelta_new 0 1 0 0 0) = Ok event_end_ist
       /\ toordinal event_end_ist = toordinal (mkdt 2025 3 17 12 0 0 0)
       /\ 10 <= hour event_end_ist <= 19.
Proof.
  assert (H : autointerviewbot.find_first_free_slot (fixed_clock monday_noon_utc)
                free_service thursday_ten tt
              = (Ok (Some (mkdt 2025 3 17 12 0 0 0)), tt))
    by (vm_compute; reflexivity).
  split; [reflexivity|]. split; [exact H|].
  destruct (found_slot_ends_the_same_day (fixed_clock monday_noon_utc)
              free_service thursday_ten tt (mkdt 2025 3 17 12 0 0 0) tt eq_refl H)
    as (e & A & _ & O & _ & _ & _ & _ & R).
  exists e. auto.
Defined.

Lemma find_first_free_slot_requests_bounded_witness :
  autointerviewbot.find_first_free_slot (beside_count (fixed_clock monday_noon_utc))
    (counted free_service) thursday_ten (tt, O)
  = (Ok (Some (mkdt 2025 3 17 12 0 0 0)), (tt, 2%nat))
  /\ (0 <= 2 <= 0 + 2 * autointerviewbot.max_attempts)%nat.
Proof.
  assert (H : autointerviewbot.find_first_free_slot
                (beside_count (fixed_clock monday_noon_utc))
                (counted free_service) thursday_ten (tt, O)
              = (Ok (Some (mkdt 2025 3 17 12 0 0 0)), (tt, 2%nat)))
    by (vm_compute; reflexivity).
  split; [exact H|].
  exact (find_first_free_slot_requests_bounded (fixed_clock monday_noon_utc)
           free_service thursday_ten tt O _ tt 2%nat H).
Defined.

Lemma find_1hr_slot_within_range_requests_bounded_witness :
  valid (mkdt 2025 3 24 14 7 0 0) = true
  /\ valid (mkdt 2025 3 24 18 0 0 0) = true
  /\ year (mkdt 2025 3 24 14 7 0 0) <= 9998
  /\ year (mkdt 2025 3 24 18 0 0 0) <= 9998
  /\ textbasedbot.find_1hr_slot_within_range (counted busy_service)
       (mkdt 2025 3 24 14 7 0 0) (mkdt 2025 3 24 18 0 0 0) (tt, O)
     = (Ok None, (tt, 6%nat))
  /\ (0 <= 6 <= 0 + 2 * Z.to_nat ((to_us (mkdt 2025 3 24 18 0 0 0)
                                   - to_us (mkdt 2025 3 24 14 7 0 0))
                                  / US_PER_HOUR))%nat.
Proof.
  assert (Y : 2025 <= 9998) by lia.
  assert (H : textbasedbot.find_1hr_slot_within_range (counted busy_service)
                (mkdt 2025 3 24 14 7 0 0) (mkdt 2025 3 24 18 0 0 0) (tt, O)
              = (Ok None, (tt, 6%nat))) by (vm_compute; reflexivity).
  split; [reflexivity|]. split; [reflexivity|]. split; [exact Y|]. split; [exact Y|].
  split; [exact H|].
  exact (find_1hr_slot_within_range_requests_bounded busy_service
           (mkdt 2025 3 24 14 7 0 0) (mkdt 2025 3 24 18 0 0 0) tt O _ tt 6%nat
           eq_refl eq_refl Y Y H).
Defined.

Lemma find_1hr_slot_within_range_short_range_witness :
  valid (mkdt 2025 3 24 14 7 0 0) = true
  /\ valid (mkdt 2025 3 24 15 30 0 0) = true
  /\ year (mkdt 2025 3 24 14 7 0 0) <= 9998
  /\ exists n, normalizedStart (mkdt 2025 3 24 14 7 0 0) = Ok n
       /\ (to_us (mkdt 2025 3 24 15 30 0 0) < to_us n + US_PER_HOUR ->
           textbasedbot.find_1hr_slot_within_range free_service
             (mkdt 2025 3 24 14 7 0 0) (mkdt 2025 3 24 15 30 0 0) tt = (Ok None, tt)).
Proof.
  assert (Y : 2025 <= 9998) by lia.
  split; [reflexivity|]. split; [reflexivity|]. split; [exact Y|].
  destruct (find_1hr_slot_within_range_short_range free_service
              (mkdt 2025 3 24 14 7 0 0) (mkdt 2025 3 24 15 30 0 0) tt
              eq_refl eq_refl Y) as (n & N & G & _).
  exists n. split; [exact N | exact G].
Defined.

Lemma find_1hr_slot_within_range_inside_witness :
  valid (mkdt 2025 3 24 14 7 0 0) = true
  /\ valid (mkdt 2025 3 24 18 0 0 0) = true
  /\ year (mkdt 2025 3 24 14 7 0 0) <= 9998
  /\ year (mkdt 2025 3 24 18 0 0 0) <= 9998
  /\ textbasedbot.find_1hr_slot_within_range free_service
       (mkdt 2025 3 24 14 7 0 0) (mkdt 2025 3 24 18 0 0 0) tt
     = (Ok (Some (mkdt 2025 3 24 15 0 0 0, mkdt 2025 3 24 16 0 0 0)), tt)
  /\ leb (mkdt 2025 3 24 14 7 0 0) (mkdt 2025 3 24 15 0 0 0) = true
  /\ leb (mkdt 2025 3 24 16 0 0 0) (mkdt 2025 3 24 18 0 0 0) = true.
Proof.
  assert (Y : 2025 <= 9998) by lia.
  assert (H : textbasedbot.find_1hr_slot_within_range free_service
                (mkdt 2025 3 24 14 7 0 0) (mkdt 2025 3 24 18 0 0 0) tt
              = (Ok (Some (mkdt 2025 3 24 15 0 0 0, mkdt 2025 3 24 16 0 0 0)), tt))
    by (vm_compute; reflexivity).
  split; [reflexivity|]. split; [reflexivity|]. split; [exact Y|]. split; [exact Y|].
  split; [exact H|].
  destruct (find_1hr_slot_within_range_inside free_service
              (mkdt 2025 3 24 14 7 0 0) (mkdt 2025 3 24 18 0 0 0) tt
              (mkdt 2025 3 24 15 0 0 0) (mkdt 2025 3 24 16 0 0 0) tt
              eq_refl eq_refl Y Y H) as (L1 & L2 & _).
  split; [exact L1 | exact L2].
Defined.

Lemma ai_time_ist_reads_first_timestamp_witness :
  autointerviewbot_text.ai_time_ist "Slot: 2025-03-18T10:00:00 works" = Ok tuesday_ten
  /\ exists pre post,
       "Slot: 2025-03-18T10:00:00 works"%string
       = (pre ++ timestamp tuesday_ten ++ post)%string
       /\ valid tuesday_ten = true /\ microsecond tuesday_ten = 0.
Proof.
  assert (H : autointerviewbot_text.ai_time_ist "Slot: 2025-03-18T10:00:00 works"
              = Ok tuesday_ten) by (vm_compute; reflexivity).
  split; [exact H|].
  destruct (ai_time_ist_reads_first_timestamp "Slot: 2025-03-18T10:00:00 works"
              tuesday_ten) as [G _].
  destruct (G H) as (pre & post & E & _ & V & U).
  exists pre, post. auto.
Defined.

Lemma ai_time_ist_round_trip_witness :
  valid saturday_afternoon = true
  /\ has_digit "Slot: " = false
  /\ autointerviewbot_text.ai_time_ist
       ("Slot: " ++ timestamp saturday_afternoon ++ " works")
     = Ok (mkdt 2025 3 15 14 7 3 0).
Proof.
  split; [reflexivity|]. split; [reflexivity|].
  exact (ai_time_ist_round_trip "Slot: " saturday_afternoon " works"
           eq_refl eq_refl).
Defined.

Lemma json_str_spans_first_to_last_brace_witness :
  has "{" "Sure: " = false
  /\ has "}" " Bye." = false
  /\ textbasedbot_text.json_str ("Sure: " ++ "{" ++ "x} and {y" ++ "}" ++ " Bye.")
     = Some ("{" ++ "x} and {y" ++ "}")%string.
Proof.
  split; [reflexivity|]. split; [reflexivity|].
  destruct json_str_spans_first_to_last_brace as (A & _).
  exact (A "Sure: "%string "x} and {y"%string " Bye."%string eq_refl eq_refl).
Defined.

Lemma parse_candidate_availability_outcome_witness :
  canned_reply "Sure: {x} Bye." (textbasedbot_text.prompt "Monday at two") tt
  = (Ok "Sure: {x} Bye."%string, tt)
  /\ textbasedbot_text.parse_candidate_availability
       (canned_reply "Sure: {x} Bye.") (fun s => Ok s) "Monday at two" tt
     = (Ok "{x}"%string, tt).
Proof.
  split; [reflexivity|].
  destruct (parse_candidate_availability_outcome (canned_reply "Sure: {x} Bye.")
              (fun s : string => Ok s) "Monday at two" tt) as [G _].
  apply G.
  exists "Sure: {x} Bye."%string, "Sure: "%string, "x"%string, " Bye."%string.
  repeat split.
Defined.

Lemma event_start_and_query_agree_witness :
  valid tuesday_ten = true
  /\ 1000 <= year tuesday_ten
  /\ autointerviewbot.to_utc tuesday_ten = Ok (mkdt 2025 3 18 4 30 0 0)
  /\ autointerviewbot_text.ai_time_ist (autointerviewbot_text.start_str tuesday_ten)
     = Ok (to_the_second tuesday_ten)
  /\ to_us (to_the_second tuesday_ten)
     = to_us (to_the_second (mkdt 2025 3 18 4 30 0 0)) + IST_OFFSET_US.
Proof.
  assert (U : autointerviewbot.to_utc tuesday_ten = Ok (mkdt 2025 3 18 4 30 0 0))
    by (vm_compute; reflexivity).
  assert (Y : 1000 <= year tuesday_ten) by (cbn [tuesday_ten year]; lia).
  split; [reflexivity|]. split; [exact Y|]. split; [exact U|].
  destruct (event_start_and_query_agree autointerviewbot.RECRUITER_EMAIL tuesday_ten
              (mkdt 2025 3 18 4 30 0 0) (mkdt 2025 3 18 5 30 0 0) eq_refl Y U)
    as (A & _ & _ & B & _).
  split; [exact A | exact B].
Defined.
